(** * TidyLogger: a shallow embedding of [src/tidy_logger.py]

    The development follows the Python module top to bottom:

    - [PyStr]: the [str] methods the module and [pathlib] call
      ([in], [strip], [rfind], [find], [split], [upper], slicing);
    - [pathlib]: the pure-path layer of CPython 3.11's [pathlib]
      ([Path(...)], [str], [parts], [name], [stem], [suffix], [parent],
      [with_name], [with_suffix]) for both flavours, selected by [os.name];
    - [logging]: levels, [_checkLevel], loggers with their handler lists,
      the process-wide logger dictionary, and the way of a record from a
      logging call to the handlers ([isEnabledFor], [_log], [handle],
      [callHandlers]) as in CPython 3.11's [logging];
    - [TidyLogger]: [_create_file_path], [__init__], [close] and the
      levelled logging calls, written in a state-and-exception monad over
      the process state.

    Characters are the code points below 256, strings are [string]. *)

From Stdlib Require Import ZArith Ascii Lia.
From stdpp Require Import base option list strings gmap.

(** ** Python strings *)

Module PyStr.

Definition len (s : string) : nat := String.length s.

(** [c in s] for a one-character [c]. *)
Fixpoint contains (c : ascii) (s : string) : bool :=
  match s with
  | EmptyString => false
  | String a t => if Ascii.eqb a c then true else contains c t
  end.

(** [s[n:]] and [s[:n]] for [0 <= n]. *)
Fixpoint drop (n : nat) (s : string) : string :=
  match n, s with
  | O, _ => s
  | S _, EmptyString => EmptyString
  | S n', String _ t => drop n' t
  end.

Fixpoint take (n : nat) (s : string) : string :=
  match n, s with
  | O, _ => EmptyString
  | S _, EmptyString => EmptyString
  | S n', String a t => String a (take n' t)
  end.

(** [s[a:b]] for [0 <= a] and [0 <= b]. *)
Definition slice (a b : nat) (s : string) : string := take (b - a) (drop a s).

(** [s.find(c)]: index of the first [c], [-1] when there is none. *)
Fixpoint find (c : ascii) (s : string) : Z :=
  match s with
  | EmptyString => (-1)%Z
  | String a t =>
      if Ascii.eqb a c then 0%Z
      else let r := find c t in if (r <? 0)%Z then (-1)%Z else (r + 1)%Z
  end.

(** [s.find(c, start)]. *)
Definition find_from (c : ascii) (start : nat) (s : string) : Z :=
  let r := find c (drop start s) in
  if (r <? 0)%Z then (-1)%Z else (r + Z.of_nat start)%Z.

(** [s.rfind(c)]: index of the last [c], [-1] when there is none. *)
Fixpoint rfind (c : ascii) (s : string) : Z :=
  match s with
  | EmptyString => (-1)%Z
  | String a t =>
      let r := rfind c t in
      if (0 <=? r)%Z then (r + 1)%Z
      else if Ascii.eqb a c then 0%Z else (-1)%Z
  end.

(** [s.lstrip(c)] for a one-character [c]. *)
Fixpoint lstrip (c : ascii) (s : string) : string :=
  match s with
  | EmptyString => EmptyString
  | String a t => if Ascii.eqb a c then lstrip c t else s
  end.

(** [s.replace(a, b)] for one-character [a] and [b]. *)
Fixpoint replace (a b : ascii) (s : string) : string :=
  match s with
  | EmptyString => EmptyString
  | String x t => String (if Ascii.eqb x a then b else x) (replace a b t)
  end.

(** [s.split(c)]: never empty, [n] separators give [n + 1] fields. *)
Fixpoint split (c : ascii) (s : string) : list string :=
  match s with
  | EmptyString => [EmptyString]
  | String a t =>
      if Ascii.eqb a c then EmptyString :: split c t
      else match split c t with
           | h :: r => String a h :: r
           | [] => [String a EmptyString]
           end
  end.

(** [c.join(l)]. *)
Fixpoint join (c : ascii) (l : list string) : string :=
  match l with
  | [] => EmptyString
  | [x] => x
  | x :: r => x +:+ String c (join c r)
  end.

Definition startswith (p s : string) : bool := String.prefix p s.

(** [str.isspace] on one character: the code points below 256 that
    Python counts as whitespace. *)
Definition isspace (a : ascii) : bool :=
  let n := nat_of_ascii a in
  ((9 <=? n) && (n <=? 13)) || ((28 <=? n) && (n <=? 32))
  || (n =? 133) || (n =? 160).

Fixpoint lstrip_ws (s : string) : string :=
  match s with
  | EmptyString => EmptyString
  | String a t => if isspace a then lstrip_ws t else s
  end.

Fixpoint rstrip_ws (s : string) : string :=
  match s with
  | EmptyString => EmptyString
  | String a t =>
      match rstrip_ws t with
      | EmptyString => if isspace a then EmptyString else String a EmptyString
      | r => String a r
      end
  end.

(** [s.strip()]. *)
Definition strip (s : string) : string := rstrip_ws (lstrip_ws s).

Fixpoint all_space (s : string) : bool :=
  match s with
  | EmptyString => true
  | String a t => isspace a && all_space t
  end.

Definition is_lower (a : ascii) : bool :=
  let n := nat_of_ascii a in (97 <=? n) && (n <=? 122).

Definition is_alpha (a : ascii) : bool :=
  let n := nat_of_ascii a in
  ((97 <=? n) && (n <=? 122)) || ((65 <=? n) && (n <=? 90)).

Definition upper_char (a : ascii) : ascii :=
  if is_lower a then ascii_of_nat (nat_of_ascii a - 32) else a.

(** [s.upper()] on the letters [a-z].  The module only compares the
    result with names made of [A-Z] and digits; no other character below
    256 upper-cases to such a name ([ß] gives [SS], and no reserved name
    holds an [S]), so membership is decided as in Python. *)
Fixpoint upper (s : string) : string :=
  match s with
  | EmptyString => EmptyString
  | String a t => String (upper_char a) (upper t)
  end.

(** The last character of a string. *)
Fixpoint last_char (s : string) : option ascii :=
  match s with
  | EmptyString => None
  | String a EmptyString => Some a
  | String _ t => last_char t
  end.

(** The first character of a string. *)
Definition head_char (s : string) : option ascii :=
  match s with EmptyString => None | String a _ => Some a end.

End PyStr.

(** ** Exceptions and results *)

Module Py.

(** The exception classes that occur, each with its message.  All four
    derive from [Exception]. *)
Inductive exn :=
| ValueError (msg : string)
| TypeError (msg : string)
| OSError (msg : string)
| KeyError (msg : string).

(** The class of an exception, dropping the message. *)
Inductive exn_class := ValueError_cls | TypeError_cls | OSError_cls | KeyError_cls.

Definition class_of (e : exn) : exn_class :=
  match e with
  | ValueError _ => ValueError_cls
  | TypeError _ => TypeError_cls
  | OSError _ => OSError_cls
  | KeyError _ => KeyError_cls
  end.

Definition message (e : exn) : string :=
  match e with ValueError m | TypeError m | OSError m | KeyError m => m end.

(** The values that a call passes besides strings and paths: [None], a
    [bool], an [int], a [str], and a [dict] with string keys, of which
    only the keys are kept. *)
Inductive value :=
| VNone
| VBool (b : bool)
| VInt (n : Z)
| VStr (s : string)
| VDict (keys : list string).

(** [type(v).__name__]. *)
Definition type_name (v : value) : string :=
  match v with
  | VNone => "NoneType"
  | VBool _ => "bool"
  | VInt _ => "int"
  | VStr _ => "str"
  | VDict _ => "dict"
  end.

(** The keyword arguments of a call, in the order of the call; the keys
    of a call are distinct. *)
Definition keywords : Type := list (string * value).

Definition has_name (k : string) (l : list string) : bool :=
  existsb (String.eqb k) l.

(** The value that a call gives for the keyword [k]. *)
Fixpoint keyword (k : string) (kwargs : keywords) : option value :=
  match kwargs with
  | [] => None
  | (k', v) :: r => if String.eqb k k' then Some v else keyword k r
  end.

(** A call either returns a value or raises. *)
Inductive result (A : Type) :=
| Return (a : A)
| Raise (e : exn).
Arguments Return {A} a.
Arguments Raise {A} e.


End Py.

(** ** pathlib (CPython 3.11), pure paths *)

Module pathlib.

(** [os.name]; it selects the flavour of [Path]. *)
Inductive os_name := posix | nt.

Definition sep (os : os_name) : ascii :=
  match os with posix => "/"%char | nt => "\"%char end.

Definition altsep (os : os_name) : option ascii :=
  match os with posix => None | nt => Some "/"%char end.

(** The parsed form [(_drv, _root, _parts)]; when there is a drive or a
    root, [_parts] starts with [_drv + _root]. *)
Record PurePath := mkPath {
  _drv : string;
  _root : string;
  _parts : list string
}.

Definition nonempty (s : string) : bool := negb (String.eqb s "").

(** [_PosixFlavour.splitroot]. *)
Definition splitroot_posix (part : string) : string * string * string :=
  if String.eqb (PyStr.slice 0 1 part) "/" then
    let stripped := PyStr.lstrip "/" part in
    if (PyStr.len part - PyStr.len stripped =? 2)%nat
    then ("", "//", stripped)
    else ("", "/", stripped)
  else ("", "", part).

(** [_WindowsFlavour._split_extended_path]. *)
Definition _split_extended_path (s : string) : string * string :=
  if PyStr.startswith "\\?\" s then
    let prefix := PyStr.take 4 s in
    let s := PyStr.drop 4 s in
    if PyStr.startswith "UNC\" s
    then (prefix +:+ PyStr.take 3 s, "\" +:+ PyStr.drop 3 s)
    else (prefix, s)
  else ("", s).

(** The tail of [_WindowsFlavour.splitroot] after the UNC case. *)
Definition splitroot_nt_drive (prefix part : string) : string * string * string :=
  let first := PyStr.slice 0 1 part in
  let second := PyStr.slice 1 2 part in
  let third := PyStr.slice 2 3 part in
  let is_drive :=
    String.eqb second ":" &&
    match first with String a _ => PyStr.is_alpha a | EmptyString => false end in
  let drv := if is_drive then PyStr.take 2 part else "" in
  let part := if is_drive then PyStr.drop 2 part else part in
  let first := if is_drive then third else first in
  if String.eqb first "\"
  then (prefix +:+ drv, first, PyStr.lstrip "\" part)
  else (prefix +:+ drv, "", part).

(** [_WindowsFlavour.splitroot]. *)
Definition splitroot_nt (part0 : string) : string * string * string :=
  let first0 := PyStr.slice 0 1 part0 in
  let second0 := PyStr.slice 1 2 part0 in
  let '(prefix, part) :=
    if String.eqb second0 "\" && String.eqb first0 "\"
    then _split_extended_path part0 else ("", part0) in
  let first := PyStr.slice 0 1 part in
  let second := PyStr.slice 1 2 part in
  let third := PyStr.slice 2 3 part in
  if String.eqb second "\" && String.eqb first "\" && negb (String.eqb third "\")
  then
    let index := PyStr.find_from "\" 2 part in
    if (index =? -1)%Z then splitroot_nt_drive prefix part
    else
      let index2 := PyStr.find_from "\" (Z.to_nat index + 1) part in
      if (index2 =? index + 1)%Z then splitroot_nt_drive prefix part
      else
        let index2 := if (index2 =? -1)%Z then PyStr.len part else Z.to_nat index2 in
        if nonempty prefix
        then (prefix +:+ PyStr.slice 1 index2 part, "\", PyStr.drop (index2 + 1) part)
        else (PyStr.take index2 part, "\", PyStr.drop (index2 + 1) part)
  else splitroot_nt_drive prefix part.

Definition splitroot (os : os_name) (part : string) : string * string * string :=
  match os with posix => splitroot_posix part | nt => splitroot_nt part end.

Definition keep_component (x : string) : bool :=
  nonempty x && negb (String.eqb x ".").

(** [_Flavour.parse_parts] on a one-element tuple [(part,)]. *)
Definition parse_parts (os : os_name) (part : string) : PurePath :=
  if String.eqb part "" then mkPath "" "" []
  else
    let part := match altsep os with
                | Some a => PyStr.replace a (sep os) part
                | None => part
                end in
    let '(drv, root, rel) := splitroot os part in
    let parsed := filter (λ x, Is_true (keep_component x)) (PyStr.split (sep os) rel) in
    if nonempty drv || nonempty root
    then mkPath drv root ((drv +:+ root) :: parsed)
    else mkPath drv root parsed.

(** [Path(s)] for a string [s]. *)
Definition Path (os : os_name) (s : string) : PurePath := parse_parts os s.

Definition anchored (p : PurePath) : bool :=
  nonempty (_drv p) || nonempty (_root p).

(** [PurePath._format_parsed_parts] and [__str__]. *)
Definition _format_parsed_parts (os : os_name) (p : PurePath) : string :=
  if anchored p
  then _drv p +:+ _root p +:+ PyStr.join (sep os) (tail (_parts p))
  else PyStr.join (sep os) (_parts p).

Definition str (os : os_name) (p : PurePath) : string :=
  let s := _format_parsed_parts os p in
  if String.eqb s "" then "." else s.

Definition parts (p : PurePath) : list string := _parts p.

(** [PurePath.name]. *)
Definition name (p : PurePath) : string :=
  if (length (_parts p) =? (if anchored p then 1 else 0))%nat then ""
  else List.last (_parts p) "".

Definition suffix_of (name : string) : string :=
  let i := PyStr.rfind "." name in
  if ((0 <? i) && (i <? Z.of_nat (PyStr.len name) - 1))%Z
  then PyStr.drop (Z.to_nat i) name else "".

Definition stem_of (name : string) : string :=
  let i := PyStr.rfind "." name in
  if ((0 <? i) && (i <? Z.of_nat (PyStr.len name) - 1))%Z
  then PyStr.take (Z.to_nat i) name else name.

(** [PurePath.suffix] and [PurePath.stem]. *)
Definition suffix (p : PurePath) : string := suffix_of (name p).
Definition stem (p : PurePath) : string := stem_of (name p).

(** [PurePath.parent]. *)
Definition parent (p : PurePath) : PurePath :=
  if (length (_parts p) =? 1)%nat && anchored p then p
  else mkPath (_drv p) (_root p) (removelast (_parts p)).

(** [repr] of a path and of a string; the quoting is the plain
    single-quote form, without escapes. *)
Definition class_name (os : os_name) : string :=
  match os with posix => "PosixPath" | nt => "WindowsPath" end.

Definition repr_str (s : string) : string := "'" +:+ s +:+ "'".

Definition repr (os : os_name) (p : PurePath) : string :=
  class_name os +:+ "(" +:+ repr_str (PyStr.replace (sep os) "/" (str os p)) +:+ ")".

Definition ends_with_sep (os : os_name) (s : string) : bool :=
  match PyStr.last_char s with
  | Some a =>
      Ascii.eqb a (sep os)
      || match altsep os with Some b => Ascii.eqb a b | None => false end
  | None => false
  end.

(** [PurePath.with_name]. *)
Definition with_name (os : os_name) (p : PurePath) (new_name : string)
  : Py.result PurePath :=
  if String.eqb (name p) "" then
    Py.Raise (Py.ValueError (repr os p +:+ " has an empty name"))
  else
    let q := parse_parts os new_name in
    if String.eqb new_name "" || ends_with_sep os new_name
       || nonempty (_drv q) || nonempty (_root q)
       || negb (length (_parts q) =? 1)%nat
    then Py.Raise (Py.ValueError ("Invalid name " +:+ repr_str new_name))
    else Py.Return (mkPath (_drv p) (_root p) (removelast (_parts p) ++ [new_name])).

Definition contains_sep (os : os_name) (s : string) : bool :=
  PyStr.contains (sep os) s
  || match altsep os with Some b => PyStr.contains b s | None => false end.

(** [PurePath.with_suffix]. *)
Definition with_suffix (os : os_name) (p : PurePath) (new_suffix : string)
  : Py.result PurePath :=
  if contains_sep os new_suffix then
    Py.Raise (Py.ValueError ("Invalid suffix " +:+ repr_str new_suffix))
  else if (nonempty new_suffix && negb (PyStr.startswith "." new_suffix))
          || String.eqb new_suffix "." then
    Py.Raise (Py.ValueError ("Invalid suffix " +:+ repr_str new_suffix))
  else
    let nm := name p in
    if String.eqb nm "" then
      Py.Raise (Py.ValueError (repr os p +:+ " has an empty name"))
    else
      let old_suffix := suffix p in
      let nm := if String.eqb old_suffix "" then nm +:+ new_suffix
                else PyStr.take (PyStr.len nm - PyStr.len old_suffix) nm +:+ new_suffix in
      Py.Return (mkPath (_drv p) (_root p) (removelast (_parts p) ++ [nm])).

(** A name that [with_name] takes as one component: not empty, not
    the dot, without separator and, under [nt], without colon. *)
Definition plain_name (os : os_name) (nm : string) : Prop :=
  nm ≠ "" ∧ nm ≠ "." ∧
  match os with
  | posix => PyStr.contains "/" nm = false
  | nt => PyStr.contains "/" nm = false ∧ PyStr.contains "\" nm = false ∧ PyStr.contains ":" nm = false
  end.

End pathlib.

(** ** logging: levels, handlers, loggers and the process state *)

Module logging.
Import pathlib.

Definition NOTSET : Z := 0.
Definition DEBUG : Z := 10.
Definition INFO : Z := 20.
Definition WARNING : Z := 30.
Definition ERROR : Z := 40.
Definition CRITICAL : Z := 50.

(** A level as callers pass it: [int | str]. *)
Inductive level_arg :=
| LevelInt (n : Z)
| LevelStr (s : string).

(** [_nameToLevel], as the library ships it. *)
Definition _nameToLevel : list (string * Z) :=
  [("CRITICAL", CRITICAL); ("FATAL", CRITICAL); ("ERROR", ERROR);
   ("WARN", WARNING); ("WARNING", WARNING); ("INFO", INFO);
   ("DEBUG", DEBUG); ("NOTSET", NOTSET)].

Fixpoint assoc (k : string) (l : list (string * Z)) : option Z :=
  match l with
  | [] => None
  | (k', v) :: r => if String.eqb k k' then Some v else assoc k r
  end.

(** [_checkLevel]. *)
Definition _checkLevel (level : level_arg) : Py.result Z :=
  match level with
  | LevelInt n => Py.Return n
  | LevelStr s =>
      match assoc s _nameToLevel with
      | Some n => Py.Return n
      | None => Py.Raise (Py.ValueError ("Unknown level: " +:+ repr_str s))
      end
  end.

(** The builtin [min(a, b)] on two level arguments: [a] unless [b < a];
    integers compare by value, strings by code points, and an integer
    against a string raises [TypeError]. *)
Definition py_min (a b : level_arg) : Py.result level_arg :=
  match a, b with
  | LevelInt x, LevelInt y => Py.Return (if (y <? x)%Z then b else a)
  | LevelStr s, LevelStr t => Py.Return (if String.ltb t s then b else a)
  | LevelInt _, LevelStr _ =>
      Py.Raise (Py.TypeError "'<' not supported between instances of 'str' and 'int'")
  | LevelStr _, LevelInt _ =>
      Py.Raise (Py.TypeError "'<' not supported between instances of 'int' and 'str'")
  end.

(** Modelled from the spec: the two formatter classes of the package's
    [formatters] module, which is not among the sources; the spec calls
    them a presentation detail, and nothing below looks inside them. *)
Inductive formatter :=
| IndentedMessageFormatter
| ColoredIndentedMessageFormatter.

(** The handler classes: the three the facade creates, and any other
    class that other code may attach to a logger. *)
Inductive handler_kind :=
| FileHandler (filename : PurePath) (mode : string)
| RotatingFileHandler (filename : PurePath) (mode : string)
    (maxBytes backupCount : Z)
| StreamHandler
| OtherHandler (cls : string).

(** A handler object; [h_id] is its identity. *)
Record Handler := mkHandler {
  h_id : nat;
  h_kind : handler_kind;
  h_formatter : option formatter;
  h_level : Z
}.

#[global] Instance PurePath_eq_dec : EqDecision PurePath.
Proof. solve_decision. Defined.
#[global] Instance formatter_eq_dec : EqDecision formatter.
Proof. solve_decision. Defined.
#[global] Instance handler_kind_eq_dec : EqDecision handler_kind.
Proof. solve_decision. Defined.
#[global] Instance Handler_eq_dec : EqDecision Handler.
Proof. solve_decision. Defined.

(** A logger: its own level and its handler list. *)
Record Logger := mkLogger {
  level : Z;
  handlers : list Handler
}.

(** What the process does to the outside, in order. *)
Inductive effect :=
| Mkdir (dir : PurePath)
| Open (filename : PurePath) (mode : string)
| Flush (h : nat)
| Close (h : nat)
| Emit (h : nat) (levelno : Z) (msg : string)
| LastResort (levelno : Z) (msg : string)
| NoHandlersWarning (name : string).

(** The switches of the logging module that decide whether and where a
    record travels: [manager.disable]; the attributes [propagate] and
    [disabled] of each logger, by its name; the level of the handler
    [logging.lastResort], or [None] when the module has none;
    [logging.raiseExceptions]; and [manager.emittedNoHandlerWarning].
    The program sets none of them; the library sets the last. *)
Record Switches := mkSwitches {
  disable : Z;
  propagate : string → bool;
  disabled : string → bool;
  lastResort : option Z;
  raiseExceptions : bool;
  emittedNoHandlerWarning : bool
}.

(** The switches as the module sets them when it is imported. *)
Definition default_switches : Switches :=
  mkSwitches 0 (λ _, true) (λ _, false) (Some WARNING) true false.

(** The process state: the logger dictionary of the logging manager (the
    root logger under its name [root]), the next fresh handler identity,
    the effects performed so far, the environment, which decides
    which effect fails with which exception, and the switches. *)
Record World := mkWorld {
  loggerDict : gmap string Logger;
  next_id : nat;
  trace : list effect;
  io_error : list effect → effect → option Py.exn;
  switches : Switches
}.

(** Statements run in the state-and-exception monad over [World]. *)
Definition M (A : Type) : Type := World → Py.result A * World.

Definition ret {A} (a : A) : M A := λ w, (Py.Return a, w).

Definition bind {A B} (m : M A) (k : A → M B) : M B :=
  λ w, match m w with
       | (Py.Return a, w') => k a w'
       | (Py.Raise e, w') => (Py.Raise e, w')
       end.

#[global] Instance M_ret : MRet M := @ret.
#[global] Instance M_bind : MBind M := λ A B k m, bind m k.

Definition lift {A} (r : Py.result A) : M A := λ w, (r, w).

(** [try: m except Exception: pass]. *)
Definition try_pass {A} (m : M A) : M unit :=
  λ w, match m w with (_, w') => (Py.Return tt, w') end.

(** Perform one effect; the environment may make it raise. *)
Definition perform (e : effect) : M unit :=
  λ w, let w' := mkWorld (loggerDict w) (next_id w) (trace w ++ [e]) (io_error w) (switches w) in
       match io_error w (trace w) e with
       | Some x => (Py.Raise x, w')
       | None => (Py.Return tt, w')
       end.

(** [for x in l: body(x)]. *)
Fixpoint for_each {A} (l : list A) (body : A → M unit) : M unit :=
  match l with
  | [] => ret tt
  | x :: r => body x ;; for_each r body
  end.

(** A logger as the manager creates it. *)
Definition new_logger (key : string) : Logger :=
  mkLogger (if String.eqb key "root" then WARNING else NOTSET) [].

(** The key of [getLogger(name)]: the empty name is the root logger. *)
Definition logger_key (name : string) : string :=
  if String.eqb name "" then "root" else name.

(** The logger stored under a key; an absent one is as new. *)
Definition lookup_logger (w : World) (key : string) : Logger :=
  default (new_logger key) (loggerDict w !! key).

Definition set_logger (key : string) (lg : Logger) (w : World) : World :=
  mkWorld (<[key := lg]> (loggerDict w)) (next_id w) (trace w) (io_error w) (switches w).

(** [logging.getLogger(name)]: registers the logger when it is new and
    returns its key, which stands for the logger object. *)
Definition getLogger (name : string) : M string :=
  λ w, let key := logger_key name in
       (Py.Return key, set_logger key (lookup_logger w key) w).

(** [Logger.setLevel]. *)
Definition Logger_setLevel (key : string) (lvl : level_arg) : M unit :=
  n ← lift (_checkLevel lvl) ;
  ((λ w, (Py.Return tt,
          set_logger key (mkLogger n (handlers (lookup_logger w key))) w)) : M unit).

(** [logger.handlers]. *)
Definition Logger_handlers (key : string) : M (list Handler) :=
  λ w, (Py.Return (handlers (lookup_logger w key)), w).

(** [Logger.addHandler]. *)
Definition Logger_addHandler (key : string) (hdlr : Handler) : M unit :=
  λ w, let lg := lookup_logger w key in
       if bool_decide (hdlr ∈ handlers lg) then (Py.Return tt, w)
       else (Py.Return tt, set_logger key (mkLogger (level lg) (handlers lg ++ [hdlr])) w).

(** [list.remove]: drop the first equal element. *)
Fixpoint list_remove (x : Handler) (l : list Handler) : list Handler :=
  match l with
  | [] => []
  | y :: r => if bool_decide (y = x) then r else y :: list_remove x r
  end.

(** [Logger.removeHandler]. *)
Definition Logger_removeHandler (key : string) (hdlr : Handler) : M unit :=
  λ w, let lg := lookup_logger w key in
       if bool_decide (hdlr ∈ handlers lg)
       then (Py.Return tt, set_logger key (mkLogger (level lg) (list_remove hdlr (handlers lg))) w)
       else (Py.Return tt, w).

(** [Handler.__init__]: a new handler object, level [NOTSET], no
    formatter. *)
Definition new_handler (kind : handler_kind) : M Handler :=
  λ w, (Py.Return (mkHandler (next_id w) kind None NOTSET),
        mkWorld (loggerDict w) (S (next_id w)) (trace w) (io_error w) (switches w)).

(** [logging.FileHandler(filename, mode)]: opens the file, then
    initialises the handler. *)
Definition new_FileHandler (filename : PurePath) (mode : string) : M Handler :=
  perform (Open filename mode) ;; new_handler (FileHandler filename mode).

(** [RotatingFileHandler(filename, mode, maxBytes, backupCount)]: with a
    positive [maxBytes] the mode is forced to [a]. *)
Definition new_RotatingFileHandler (filename : PurePath) (mode : string)
    (maxBytes backupCount : Z) : M Handler :=
  let mode := if (0 <? maxBytes)%Z then "a" else mode in
  perform (Open filename mode) ;;
  new_handler (RotatingFileHandler filename mode maxBytes backupCount).

(** [logging.StreamHandler()]. *)
Definition new_StreamHandler : M Handler := new_handler StreamHandler.

(** [Handler.setFormatter] and [Handler.setLevel], on a handler that is
    not attached yet. *)
Definition Handler_setFormatter (h : Handler) (f : formatter) : Handler :=
  mkHandler (h_id h) (h_kind h) (Some f) (h_level h).

Definition Handler_setLevel (h : Handler) (lvl : level_arg) : Py.result Handler :=
  match _checkLevel lvl with
  | Py.Return n => Py.Return (mkHandler (h_id h) (h_kind h) (h_formatter h) n)
  | Py.Raise e => Py.Raise e
  end.

(** The dotted ancestors of a logger name, nearest first, as
    [Manager._fixupParents] enumerates them. *)
Fixpoint ancestors (fuel : nat) (name : string) (i : Z) : list string :=
  match fuel with
  | O => []
  | S fuel' =>
      if (0 <? i)%Z then
        PyStr.take (Z.to_nat i) name
          :: ancestors fuel' name (PyStr.rfind "." (PyStr.take (Z.to_nat i - 1) name))
      else []
  end.

(** The parent of a logger: none for the root; otherwise the nearest
    registered logger among the ancestors that [Manager._fixupParents]
    enumerates, and the root when there is none. *)
Definition Logger_parent (w : World) (name : string) : option string :=
  if String.eqb name "root" then None
  else Some (default "root"
               (head (filter (λ k, is_Some (loggerDict w !! k))
                        (ancestors (PyStr.len name) name (PyStr.rfind "." name))))).

(** The logger, its parent, the parent of that, and so on up to the
    root. *)
Fixpoint lineage_from (fuel : nat) (w : World) (name : string) : list string :=
  match fuel with
  | O => []
  | S fuel' =>
      name :: match Logger_parent w name with
              | Some p => lineage_from fuel' w p
              | None => []
              end
  end.

Definition lineage (w : World) (name : string) : list string :=
  lineage_from (2 + PyStr.len name) w name.

(** [Logger.getEffectiveLevel]: the first non-zero level on the way from
    the logger up to the root. *)
Definition getEffectiveLevel (w : World) (key : string) : Z :=
  default NOTSET
    (List.find (λ l, negb (l =? 0)%Z) (map (λ k, level (lookup_logger w k)) (lineage w key))).

(** [Logger.isEnabledFor].  The cache of the logger holds what this
    computes: [setLevel] and [logging.disable] clear it. *)
Definition isEnabledFor (w : World) (key : string) (lvl : Z) : bool :=
  if disabled (switches w) key then false
  else if (lvl <=? disable (switches w))%Z then false
  else (getEffectiveLevel w key <=? lvl)%Z.

(** The loggers that [Logger.callHandlers] visits: the lineage up to the
    first logger that does not propagate. *)
Fixpoint up_to_barrier (sw : Switches) (l : list string) : list string :=
  match l with
  | [] => []
  | k :: r => k :: if propagate sw k then up_to_barrier sw r else []
  end.

Definition visited (w : World) (key : string) : list string :=
  up_to_barrier (switches w) (lineage w key).

(** The handlers that it finds there, in the order of the visit. *)
Definition found (w : World) (key : string) : list Handler :=
  flat_map (λ k, handlers (lookup_logger w k)) (visited w key).

(** [manager.emittedNoHandlerWarning = True]. *)
Definition note_warning : M unit :=
  λ w, let sw := switches w in
       (Py.Return tt,
        mkWorld (loggerDict w) (next_id w) (trace w) (io_error w)
          (mkSwitches (disable sw) (propagate sw) (disabled sw) (lastResort sw)
             (raiseExceptions sw) true)).

(** [Logger.callHandlers]: every handler found whose level the record
    reaches handles it; when no handler at all was found, the handler
    of last resort handles it if the record reaches its level, and
    without such a handler the module warns once on [sys.stderr].
    Handlers have no filters. *)
Definition callHandlers (key : string) (lvl : Z) (msg : string) : M unit :=
  λ w, (for_each (filter (λ h, (h_level h ≤ lvl)%Z) (found w key))
          (λ h, perform (Emit (h_id h) lvl msg)) ;;
        match found w key with
        | _ :: _ => ret tt
        | [] =>
            match lastResort (switches w) with
            | Some l => if (l <=? lvl)%Z then perform (LastResort lvl msg) else ret tt
            | None =>
                if raiseExceptions (switches w)
                   && negb (emittedNoHandlerWarning (switches w))
                then perform (NoHandlersWarning key) ;; note_warning
                else ret tt
            end
        end) w.

(** [Logger.handle]; loggers have no filters. *)
Definition Logger_handle (key : string) (lvl : Z) (msg : string) : M unit :=
  λ w, if disabled (switches w) key then (Py.Return tt, w) else callHandlers key lvl msg w.

(** Binding the keyword arguments of a call of the function [fname]:
    the parameters [taken] are filled by position already, the
    parameters [free] are not, and [var_keyword] says whether the
    function has a parameter that collects the other keywords.  The
    first keyword, in the order of the call, that cannot be bound
    raises. *)
Fixpoint bind_keywords (fname : string) (taken free : list string) (var_keyword : bool)
    (kwargs : Py.keywords) : Py.result unit :=
  match kwargs with
  | [] => Py.Return tt
  | (k, _) :: r =>
      if Py.has_name k taken then
        Py.Raise (Py.TypeError
                    (fname +:+ "() got multiple values for argument '" +:+ k +:+ "'"))
      else if Py.has_name k free || var_keyword then
        bind_keywords fname taken free var_keyword r
      else
        Py.Raise (Py.TypeError
                    (fname +:+ "() got an unexpected keyword argument '" +:+ k +:+ "'"))
  end.

(** [Logger.findCaller] as far as it can raise: its loop tests
    [stacklevel > 0]. *)
Definition findCaller (stacklevel : Py.value) : Py.result unit :=
  match stacklevel with
  | Py.VInt _ | Py.VBool _ => Py.Return tt
  | v =>
      Py.Raise (Py.TypeError
                  ("'>' not supported between instances of '" +:+ Py.type_name v
                   +:+ "' and 'int'"))
  end.

(** The attributes that [LogRecord.__init__] sets. *)
Definition record_attributes : list string :=
  ["name"; "msg"; "args"; "levelname"; "levelno"; "pathname"; "filename"; "module";
   "exc_info"; "exc_text"; "stack_info"; "lineno"; "funcName"; "created"; "msecs";
   "relativeCreated"; "thread"; "threadName"; "processName"; "process"].

(** The first key of [extra] that would overwrite an attribute of the
    record. *)
Fixpoint overwritten (keys : list string) : option string :=
  match keys with
  | [] => None
  | k :: r =>
      if Py.has_name k ["message"; "asctime"] || Py.has_name k record_attributes
      then Some k
      else overwritten r
  end.

(** [Logger.makeRecord] as far as it can raise: the loop over [extra].
    A string that is not empty fails at its first character, which is
    no attribute of the record and no index of the string. *)
Definition makeRecord (extra : Py.value) : Py.result unit :=
  match extra with
  | Py.VNone => Py.Return tt
  | Py.VDict keys =>
      match overwritten keys with
      | Some k =>
          Py.Raise (Py.KeyError ("Attempt to overwrite " +:+ repr_str k +:+ " in LogRecord"))
      | None => Py.Return tt
      end
  | Py.VStr EmptyString => Py.Return tt
  | Py.VStr _ => Py.Raise (Py.TypeError "string indices must be integers, not 'str'")
  | v => Py.Raise (Py.TypeError ("'" +:+ Py.type_name v +:+ "' object is not iterable"))
  end.

(** [Logger._log(level, msg, args, **kwargs)]: bind the keywords, find
    the caller, make the record and handle it. *)
Definition Logger__log (key : string) (lvl : Z) (msg : string) (args : list Py.value)
    (kwargs : Py.keywords) : M unit :=
  lift (bind_keywords "Logger._log" ["self"; "level"; "msg"; "args"]
          ["exc_info"; "extra"; "stack_info"; "stacklevel"] false kwargs) ;;
  lift (findCaller (default (Py.VInt 1) (Py.keyword "stacklevel" kwargs))) ;;
  lift (makeRecord (default Py.VNone (Py.keyword "extra" kwargs))) ;;
  Logger_handle key lvl msg.

(** The body that [Logger.debug], [Logger.info], [Logger.warning],
    [Logger.error] and [Logger.critical] share, for the method [method]
    and its level: [if self.isEnabledFor(lvl): self._log(lvl, msg, args,
    **kwargs)]. *)
Definition Logger_method (method : string) (lvl : Z) (key : string) (msg : string)
    (args : list Py.value) (kwargs : Py.keywords) : M unit :=
  lift (bind_keywords ("Logger." +:+ method) ["self"; "msg"] [] true kwargs) ;;
  ((λ w, if isEnabledFor w key lvl then Logger__log key lvl msg args kwargs w
         else (Py.Return tt, w)) : M unit).

Definition Logger_debug := Logger_method "debug" DEBUG.
Definition Logger_info := Logger_method "info" INFO.
Definition Logger_warning := Logger_method "warning" WARNING.
Definition Logger_error := Logger_method "error" ERROR.
Definition Logger_critical := Logger_method "critical" CRITICAL.

End logging.

(** ** The module [tidy_logger] *)

Module TidyLogger.
Import pathlib logging.

Definition DEFAULT_FILE_NAME : string := "log".
Definition DEFAULT_FILE_EXTENSION : string := ".log".

(** The local calendar date that [datetime.now()] reads. *)
Record date := mkDate { year : nat; month : nat; day : nat }.

Definition digit (n : nat) : ascii := ascii_of_nat (48 + n mod 10).

(** [strftime] with the format [%Y%m%d], for the years 1000 to 9999. *)
Definition strftime_Ymd (d : date) : string :=
  String (digit (year d / 1000)) (String (digit (year d / 100))
  (String (digit (year d / 10)) (String (digit (year d))
  (String (digit (month d / 10)) (String (digit (month d))
  (String (digit (day d / 10)) (String (digit (day d)) EmptyString))))))).

(** Values that are neither [None], nor [str], nor [Path]. *)
Inductive other_value :=
| PyInt (n : Z)
| PyBool (b : bool)
| PyFloat (mantissa exponent : Z)
| PyBytes (b : string).

(** The argument [file_name].  A [Path] object is given by a string it
    is the path of; [Path(p)] of a path [p] is [p]. *)
Inductive file_name_arg :=
| FnNone
| FnStr (s : string)
| FnPath (s : string)
| FnOther (v : other_value).

(** The set [invalid_chars]: the characters [<], [>], [:], the double
    quote, [/], the backslash, [|], [?] and [*]. *)
Definition invalid_chars : list ascii :=
  ["<"; ">"; ":"; "034"; "/"; "\"; "|"; "?"; "*"]%char.

Definition digit_str (i : nat) : string := String (digit i) EmptyString.

(** The set [reserved]: CON, PRN, AUX, NUL, and COMi and LPTi for [i]
    in [range(1, 10)]. *)
Definition reserved : list string :=
  ["CON"; "PRN"; "AUX"; "NUL"]
  ++ map (λ i, "COM" +:+ digit_str i) (seq 1 9)
  ++ map (λ i, "LPT" +:+ digit_str i) (seq 1 9).

Definition in_list (s : string) (l : list string) : bool :=
  existsb (String.eqb s) l.

Definition has_invalid_char (s : string) : bool :=
  existsb (λ ch, PyStr.contains ch s) invalid_chars.

Definition has_reserved_part (os : os_name) (p : PurePath) : bool :=
  existsb (λ part, in_list (PyStr.upper (stem (Path os part))) reserved) (parts p).

Definition msg_empty : string := "`file_name` cannot be empty.".
Definition msg_null : string := "`file_name` contains null byte.".
Definition msg_chars : string :=
  "`file_name` contains invalid characters for Windows paths.".
Definition msg_reserved : string :=
  "`file_name` path contains reserved Windows device name component.".
Definition msg_type : string :=
  "'file_name' should be of type 'str', 'Path', or 'None'.".

(** The four checks of [_create_file_path] on [s = str(p)], as one
    test: not blank, no null byte and, under [nt], no invalid character
    and no reserved component. *)
Definition passes_checks (os : os_name) (p : PurePath) : bool :=
  let s := str os p in
  negb (String.eqb (PyStr.strip s) "") && negb (PyStr.contains "000" s)
  && match os with
     | nt => negb (has_invalid_char s) && negb (has_reserved_part os p)
     | posix => true
     end.

(** The name [new_name], made of [p.stem], an underscore, the date
    suffix and the extension, that replaces the last component. *)
Definition dated_name (dt : string) (p : PurePath) : string :=
  stem p +:+ "_" +:+ dt
    +:+ (if nonempty (suffix p) then suffix p else DEFAULT_FILE_EXTENSION).

(** The argument [file_name] is the string [s] or the path of [s]. *)
Definition names (file_name : file_name_arg) (s : string) : Prop :=
  file_name = FnStr s ∨ file_name = FnPath s.

(** The body of [_create_file_path] under [isinstance(file_name, (str,
    Path))], from [s = str(p)] on. *)
Definition resolve_path (os : os_name) (date_suffix : string) (p : PurePath)
    (add_date_suffix_to_file_name : bool) : Py.result PurePath :=
  let s := str os p in
  if String.eqb (PyStr.strip s) "" then Py.Raise (Py.ValueError msg_empty)
  else if PyStr.contains "000" s then Py.Raise (Py.ValueError msg_null)
  else if match os with nt => has_invalid_char s | posix => false end then
    Py.Raise (Py.ValueError msg_chars)
  else if match os with nt => has_reserved_part os p | posix => false end then
    Py.Raise (Py.ValueError msg_reserved)
  else if add_date_suffix_to_file_name then
    let sfx := if nonempty (suffix p) then suffix p else DEFAULT_FILE_EXTENSION in
    let new_name := stem p +:+ "_" +:+ date_suffix +:+ sfx in
    with_name os p new_name
  else if String.eqb (suffix p) "" then with_suffix os p DEFAULT_FILE_EXTENSION
  else Py.Return p.

(** [TidyLogger._create_file_path]. *)
Definition _create_file_path (os : os_name) (now : date)
    (file_name : file_name_arg) (add_date_suffix_to_file_name : bool)
  : Py.result PurePath :=
  let date_suffix := strftime_Ymd now in
  match file_name with
  | FnNone =>
      if add_date_suffix_to_file_name
      then Py.Return (Path os (DEFAULT_FILE_NAME +:+ "_" +:+ date_suffix
                                 +:+ DEFAULT_FILE_EXTENSION))
      else Py.Return (Path os (DEFAULT_FILE_NAME +:+ DEFAULT_FILE_EXTENSION))
  | FnStr s | FnPath s =>
      resolve_path os date_suffix (Path os s) add_date_suffix_to_file_name
  | FnOther _ => Py.Raise (Py.ValueError msg_type)
  end.

(** The arguments of [TidyLogger(...)]. *)
Record init_args := mkArgs {
  file_name : file_name_arg;
  file_mode : string;
  console_level : level_arg;
  file_level : level_arg;
  name : option string;
  add_date_suffix_to_file_name : bool;
  use_file_rotation : bool;
  max_bytes : Z;
  backup_count : Z
}.

(** The defaults of the signature. *)
Definition default_args : init_args :=
  mkArgs FnNone "a" (LevelInt INFO) (LevelInt DEBUG) None true false
         (100 * 1024 * 1024) 10.

(** A facade object: its attribute [logger], the registered logger. *)
Record TidyLogger := mkTidyLogger { logger : string }.

(** [self.__class__.__name__ if name is None else name]. *)
Definition logger_name (a : init_args) : string :=
  match name a with None => "TidyLogger" | Some n => n end.

(** The guarded block of [__init__]: resolve the path, make the parent
    directory, create and attach the file sink, then the console sink. *)
Definition attach_sinks (os : os_name) (now : date) (a : init_args)
    (key : string) : M unit :=
  file_path ← lift (_create_file_path os now (file_name a)
                      (add_date_suffix_to_file_name a)) ;
  perform (Mkdir (parent file_path)) ;;
  file_handler ← (if use_file_rotation a
                  then new_RotatingFileHandler file_path (file_mode a)
                         (max_bytes a) (backup_count a)
                  else new_FileHandler file_path (file_mode a)) ;
  file_handler ← lift (Handler_setLevel
                         (Handler_setFormatter file_handler IndentedMessageFormatter)
                         (file_level a)) ;
  Logger_addHandler key file_handler ;;
  console_handler ← new_StreamHandler ;
  console_handler ← lift (Handler_setLevel
                            (Handler_setFormatter console_handler
                               ColoredIndentedMessageFormatter)
                            (console_level a)) ;
  Logger_addHandler key console_handler.

(** [TidyLogger.__init__]. *)
Definition __init__ (os : os_name) (now : date) (a : init_args) : M TidyLogger :=
  key ← getLogger (logger_name a) ;
  lvl ← lift (py_min (console_level a) (file_level a)) ;
  Logger_setLevel key lvl ;;
  hs ← Logger_handlers key ;
  match hs with
  | [] => attach_sinks os now a key ;; ret (mkTidyLogger key)
  | _ :: _ => ret (mkTidyLogger key)
  end.

(** The five logging methods, called with the message in first place:
    [self.logger.debug(message, *args, **kwargs)] and its likes. *)
Definition debug (self : TidyLogger) (message : string) (args : list Py.value)
    (kwargs : Py.keywords) : M unit :=
  lift (bind_keywords "TidyLogger.debug" ["self"; "message"] [] true kwargs) ;;
  Logger_debug (logger self) message args kwargs.

Definition info (self : TidyLogger) (message : string) (args : list Py.value)
    (kwargs : Py.keywords) : M unit :=
  lift (bind_keywords "TidyLogger.info" ["self"; "message"] [] true kwargs) ;;
  Logger_info (logger self) message args kwargs.

Definition warning (self : TidyLogger) (message : string) (args : list Py.value)
    (kwargs : Py.keywords) : M unit :=
  lift (bind_keywords "TidyLogger.warning" ["self"; "message"] [] true kwargs) ;;
  Logger_warning (logger self) message args kwargs.

Definition error (self : TidyLogger) (message : string) (args : list Py.value)
    (kwargs : Py.keywords) : M unit :=
  lift (bind_keywords "TidyLogger.error" ["self"; "message"] [] true kwargs) ;;
  Logger_error (logger self) message args kwargs.

Definition critical (self : TidyLogger) (message : string) (args : list Py.value)
    (kwargs : Py.keywords) : M unit :=
  lift (bind_keywords "TidyLogger.critical" ["self"; "message"] [] true kwargs) ;;
  Logger_critical (logger self) message args kwargs.

(** The five methods with their levels. *)
Definition logging_methods
  : list ((TidyLogger → string → list Py.value → Py.keywords → M unit) * Z) :=
  [(debug, DEBUG); (info, INFO); (warning, WARNING); (error, ERROR);
   (critical, CRITICAL)].

(** One round of the loop of [close]. *)
Definition close_handler (key : string) (handler : Handler) : M unit :=
  try_pass (perform (Flush (h_id handler))) ;;
  try_pass (perform (Close (h_id handler))) ;;
  Logger_removeHandler key handler.

(** [TidyLogger.close]. *)
Definition close (self : TidyLogger) : M unit :=
  hs ← Logger_handlers (logger self) ;
  for_each hs (close_handler (logger self)).

(** The file sink and the console sink as [__init__] attaches them for
    the resolved path [p], with identities [i] and [i + 1]. *)
Definition file_sink (a : init_args) (p : PurePath) (i : nat) (lvl : Z) : Handler :=
  mkHandler i
    (if use_file_rotation a
     then RotatingFileHandler p (if (0 <? max_bytes a)%Z then "a" else file_mode a)
            (max_bytes a) (backup_count a)
     else FileHandler p (file_mode a))
    (Some IndentedMessageFormatter) lvl.

Definition console_sink (i : nat) (lvl : Z) : Handler :=
  mkHandler i StreamHandler (Some ColoredIndentedMessageFormatter) lvl.

(** The [open] that the file sink performs. *)
Definition open_effect (a : init_args) (p : PurePath) : effect :=
  Open p (if use_file_rotation a && (0 <? max_bytes a)%Z then "a" else file_mode a).

(** The environment lets directories be made and files be opened. *)
Definition fs_ok (w : World) : Prop :=
  ∀ tr e, match e with Mkdir _ | Open _ _ => io_error w tr e = None | _ => True end.

(** A run of constructions, one after the other, whatever each returns
    or raises. *)
Fixpoint construct_all (os : os_name) (l : list (date * init_args)) (w : World)
  : World :=
  match l with
  | [] => w
  | (now, a) :: r => construct_all os r (snd (__init__ os now a w))
  end.

(** The process state after the guarded block has run to its end on
    a logger without handlers. *)
Definition attached (a : init_args) (key : string) (p : PurePath) (f c : Z)
    (w : World) : World :=
  mkWorld
    (<[key := mkLogger (level (lookup_logger w key))
                [file_sink a p (next_id w) f; console_sink (S (next_id w)) c]]>
       (loggerDict w))
    (S (S (next_id w)))
    (trace w ++ [Mkdir (parent p); open_effect a p])
    (io_error w) (switches w).

(** The two attempts of [close] on one handler. *)
Definition flush_close (h : Handler) : list effect :=
  [Flush (h_id h); Close (h_id h)].

(** Removing, one after the other, the elements of [l] from [cur]. *)
Definition remove_each (l cur : list Handler) : list Handler :=
  foldl (λ c h, list_remove h c) cur l.

End TidyLogger.


(** ** The worlds of the examples *)

Import pathlib logging TidyLogger.

(** The clock and the worlds of the examples: an empty process in which
    no effect fails, and one in which every flush and close fails. *)
Definition a_date : date := mkDate 2024 1 2.

Definition quiet_world : World := mkWorld ∅ 0 [] (λ _ _, None) default_switches.

Definition failing_world : World :=
  mkWorld ∅ 0 []
    (λ _ e, match e with
            | Flush _ | Close _ => Some (Py.OSError "I/O operation on closed file")
            | _ => None
            end)
    default_switches.

(** ** States and events of the partial constructions *)

(** The process state after some effects and [n] new handler objects. *)
Definition after_effects (w : World) (es : list effect) (n : nat) : World :=
  mkWorld (loggerDict w) (n + next_id w) (trace w ++ es) (io_error w) (switches w).

(** The process state when the file sink is attached and the console sink
    is not. *)
Definition file_sink_only (a : init_args) (key : string) (p : PurePath) (f : Z)
    (w : World) : World :=
  mkWorld
    (<[key := mkLogger (level (lookup_logger w key)) [file_sink a p (next_id w) f]]>
       (loggerDict w))
    (S (S (next_id w)))
    (trace w ++ [Mkdir (parent p); open_effect a p])
    (io_error w) (switches w).

(** The events that a step from [w] to [w'] adds. *)
Definition new_events (w w' : World) : list effect :=
  skipn (length (trace w)) (trace w').

(** Worlds in which no directory can be made, and in which no file can be
    opened. *)
Definition no_mkdir_world : World :=
  mkWorld ∅ 0 []
    (λ _ e, match e with Mkdir _ => Some (Py.OSError "Permission denied") | _ => None end)
    default_switches.

Definition no_open_world : World :=
  mkWorld ∅ 0 []
    (λ _ e, match e with Open _ _ => Some (Py.OSError "Permission denied") | _ => None end)
    default_switches.

(** A drive or a prefix of the [nt] flavour always shows a backslash or a
    colon. *)
Definition marked (drv : string) : Prop :=
  drv = "" ∨ PyStr.contains "\" drv = true ∨ PyStr.contains ":" drv = true.

(** ** What a logging call does *)

(** The environment lets every handler handle its records, and lets the
    module write its warning. *)
Definition handlers_ok (w : World) : Prop :=
  ∀ tr e, match e with
          | Emit _ _ _ | LastResort _ _ | NoHandlersWarning _ => io_error w tr e = None
          | _ => True
          end.

(** The handlers that [callHandlers] finds above the logger itself. *)
Definition found_above (w : World) (key : string) : list Handler :=
  flat_map (λ k, handlers (lookup_logger w k)) (tail (visited w key)).

(** A record of level [lvl] is handled by those of the handlers [hs]
    whose level it reaches, in their order. *)
Definition handled_by (hs : list Handler) (lvl : Z) (msg : string) : list effect :=
  map (λ h, Emit (h_id h) lvl msg) (filter (λ h, (h_level h ≤ lvl)%Z) hs).

(** What happens to a record for which no handler was found. *)
Definition last_resort_events (w : World) (key : string) (lvl : Z) (msg : string)
  : list effect :=
  match found w key with
  | _ :: _ => []
  | [] =>
      match lastResort (switches w) with
      | Some l => if (l <=? lvl)%Z then [LastResort lvl msg] else []
      | None =>
          if raiseExceptions (switches w) && negb (emittedNoHandlerWarning (switches w))
          then [NoHandlersWarning key]
          else []
      end
  end.

(** The checks of [Logger._log] on the keywords, in their order. *)
Definition log_checks (kwargs : Py.keywords) : Py.result unit :=
  match bind_keywords "Logger._log" ["self"; "level"; "msg"; "args"]
          ["exc_info"; "extra"; "stack_info"; "stacklevel"] false kwargs with
  | Py.Raise e => Py.Raise e
  | Py.Return _ =>
      match findCaller (default (Py.VInt 1) (Py.keyword "stacklevel" kwargs)) with
      | Py.Raise e => Py.Raise e
      | Py.Return _ => makeRecord (default Py.VNone (Py.keyword "extra" kwargs))
      end
  end.

(** The exception, if any, that the keywords of a call of the method
    [method] raise: at the binding of the facade, at the binding of the
    logger, and, only when the logger is enabled for the level, at the
    checks of [Logger._log]. *)
Definition keyword_error (method : string) (enabled : bool) (kwargs : Py.keywords)
  : option Py.exn :=
  match bind_keywords ("TidyLogger." +:+ method) ["self"; "message"] [] true kwargs with
  | Py.Raise e => Some e
  | Py.Return _ =>
      match bind_keywords ("Logger." +:+ method) ["self"; "msg"] [] true kwargs with
      | Py.Raise e => Some e
      | Py.Return _ =>
          if enabled
          then match log_checks kwargs with Py.Raise e => Some e | Py.Return _ => None end
          else None
      end
  end.

(** The names of the five methods, beside the methods and their levels. *)
Definition method_names : list string :=
  ["debug"; "info"; "warning"; "error"; "critical"].

(** * Facts about the string layer *)

Module PyStrFacts.
Import PyStr.

Lemma append_cons (x : ascii) (a b : string) :
  String x a +:+ b = String x (a +:+ b).
Proof. reflexivity. Qed.

Lemma append_nil_l (b : string) : "" +:+ b = b.
Proof. reflexivity. Qed.

Lemma append_nil_r (s : string) : s +:+ "" = s.
Proof. induction s as [|a s IH]; [done |]. by rewrite append_cons, IH. Qed.

Lemma append_assoc (a b c : string) : (a +:+ b) +:+ c = a +:+ (b +:+ c).
Proof. induction a as [|x a IH]; [done |]. by rewrite !append_cons, IH. Qed.

Lemma len_append (a b : string) : len (a +:+ b) = (len a + len b)%nat.
Proof.
  induction a as [|x a IH]; [done |].
  rewrite append_cons. unfold len in *. simpl. by rewrite IH.
Qed.

Lemma append_empty (a b : string) : a +:+ b = "" → a = "" ∧ b = "".
Proof. destruct a; [done |]. rewrite append_cons. discriminate. Qed.

Lemma take_append (a b : string) : take (len a) (a +:+ b) = a.
Proof.
  induction a as [|x a IH]; [by destruct b |].
  rewrite append_cons. unfold len in *. simpl. by rewrite IH.
Qed.

Lemma drop_append (a b : string) : drop (len a) (a +:+ b) = b.
Proof.
  induction a as [|x a IH]; [done |].
  rewrite append_cons. unfold len in *. simpl. apply IH.
Qed.

Lemma take_drop (n : nat) (s : string) : take n s +:+ drop n s = s.
Proof.
  revert s; induction n as [|n IH]; intros [|a s]; simpl; try done.
  by rewrite append_cons, IH.
Qed.

Lemma contains_append (c : ascii) (a b : string) :
  contains c (a +:+ b) = contains c a || contains c b.
Proof.
  induction a as [|x a IH]; [done |].
  rewrite append_cons. simpl. destruct (Ascii.eqb x c); [done | apply IH].
Qed.

Lemma contains_take (c : ascii) (n : nat) (s : string) :
  contains c s = false → contains c (take n s) = false.
Proof.
  intros H. rewrite <- (take_drop n s), contains_append in H.
  by apply orb_false_iff in H as [? _].
Qed.

Lemma contains_drop (c : ascii) (n : nat) (s : string) :
  contains c s = false → contains c (drop n s) = false.
Proof.
  intros H. rewrite <- (take_drop n s), contains_append in H.
  by apply orb_false_iff in H as [_ ?].
Qed.

Lemma rfind_none (c : ascii) (s : string) :
  contains c s = false → rfind c s = (-1)%Z.
Proof.
  induction s as [|a s IH]; simpl; [done |].
  destruct (Ascii.eqb a c); [done |]. intros H. by rewrite (IH H).
Qed.

(** [rfind] on a string cut at its last [c]. *)
Lemma rfind_last (c : ascii) (a b : string) :
  contains c b = false → rfind c (a +:+ String c b) = Z.of_nat (len a).
Proof.
  intros Hb. induction a as [|x a IH].
  - simpl. rewrite (rfind_none _ _ Hb). simpl. by rewrite Ascii.eqb_refl.
  - rewrite append_cons. cbn [rfind]. rewrite IH.
    unfold len. cbn [String.length].
    destruct (Z.leb_spec 0 (Z.of_nat (String.length a))); lia.
Qed.

Lemma rfind_bounds (c : ascii) (s : string) :
  (-1 ≤ rfind c s < Z.of_nat (len s))%Z.
Proof.
  unfold len. induction s as [|a s IH]; cbn [rfind String.length]; [lia |].
  destruct (Z.leb_spec 0 (rfind c s)); [lia |].
  destruct (Ascii.eqb a c); lia.
Qed.

(** Where [rfind] finds [c], the string splits there and [c] does not
    occur further right. *)
Lemma rfind_split (c : ascii) (s : string) (i : Z) :
  rfind c s = i → (0 ≤ i)%Z →
  ∃ a b, s = a +:+ String c b ∧ len a = Z.to_nat i ∧ contains c b = false.
Proof.
  revert i; induction s as [|x s IH]; intros i; cbn [rfind]; [lia |].
  destruct (Z.leb_spec 0 (rfind c s)) as [Hr|Hr].
  - intros <- _. destruct (IH _ eq_refl Hr) as (a & b & -> & Hl & Hb).
    exists (String x a), b. split; [done |]. split; [|done].
    unfold len in *. cbn [String.length]. lia.
  - destruct (Ascii.eqb_spec x c) as [->|Hx]; [|lia].
    intros <- _. exists "", s. split; [done |]. split; [done |].
    clear IH. induction s as [|y s IHs]; [done |].
    cbn [rfind] in Hr. simpl.
    destruct (Z.leb_spec 0 (rfind c s)); [lia |].
    destruct (Ascii.eqb y c); [lia | apply IHs; lia].
Qed.

Lemma split_none (c : ascii) (s : string) :
  contains c s = false → split c s = [s].
Proof.
  induction s as [|a s IH]; simpl; [done |].
  destruct (Ascii.eqb a c); [done |]. intros H. by rewrite (IH H).
Qed.

Lemma replace_none (a b : ascii) (s : string) :
  contains a s = false → replace a b s = s.
Proof.
  induction s as [|x s IH]; simpl; [done |].
  destruct (Ascii.eqb x a); [done |]. intros H. by rewrite (IH H).
Qed.

Lemma last_char_append (a b : string) :
  b ≠ "" → last_char (a +:+ b) = last_char b.
Proof.
  intros Hb. induction a as [|x a IH]; [done |].
  rewrite append_cons. cbn [last_char]. rewrite IH.
  destruct (a +:+ b) eqn:E; [|done].
  by apply append_empty in E as [_ ?].
Qed.

Lemma last_char_contains (c : ascii) (s : string) :
  last_char s = Some c → contains c s = true.
Proof.
  induction s as [|a s IH]; [done |].
  simpl. destruct s as [|b s].
  - intros [= ->]. by rewrite Ascii.eqb_refl.
  - intros H. destruct (Ascii.eqb a c); [done | by apply IH].
Qed.

(** [not s.strip()] says that every character is whitespace. *)
Lemma rstrip_ws_empty (s : string) : rstrip_ws s = "" ↔ all_space s = true.
Proof.
  induction s as [|a s IH]; simpl; [done |].
  destruct (rstrip_ws s) eqn:E.
  - destruct (isspace a); simpl; [tauto |]. split; discriminate.
  - split; [discriminate |]. intros [_ H]%andb_true_iff.
    apply IH in H. discriminate.
Qed.

Lemma lstrip_ws_all_space (s : string) :
  all_space (lstrip_ws s) = all_space s.
Proof.
  induction s as [|a s IH]; simpl; [done |].
  destruct (isspace a) eqn:E; simpl; [done | by rewrite E].
Qed.

Lemma strip_empty (s : string) : strip s = "" ↔ all_space s = true.
Proof. unfold strip. by rewrite rstrip_ws_empty, lstrip_ws_all_space. Qed.

End PyStrFacts.

(** * Facts about the path layer *)

Module pathlibFacts.
Import PyStr PyStrFacts pathlib.

Lemma nonempty_true (s : string) : nonempty s = true ↔ s ≠ "".
Proof.
  unfold nonempty. destruct (String.eqb_spec s ""); split; try done.
Qed.

Lemma nonempty_false (s : string) : nonempty s = false ↔ s = "".
Proof.
  unfold nonempty. destruct (String.eqb_spec s ""); split; try done.
Qed.

(** ** Stem and suffix of a name *)

Lemma suffix_of_spec (nm : string) :
  suffix_of nm ≠ "" →
  ∃ a b, nm = a +:+ String "." b ∧ a ≠ "" ∧ b ≠ "" ∧ contains "." b = false
         ∧ stem_of nm = a ∧ suffix_of nm = String "." b.
Proof.
  unfold suffix_of, stem_of.
  destruct ((0 <? rfind "." nm)%Z && (rfind "." nm <? Z.of_nat (len nm) - 1)%Z)
    eqn:E; [|done].
  intros _. apply andb_true_iff in E as [Hi Hj].
  apply Z.ltb_lt in Hi, Hj. remember (rfind "." nm) as i eqn:Hr.
  destruct (rfind_split "." nm i) as (a & b & -> & Hl & Hb); [done | lia |].
  exists a, b. rewrite <- Hl, take_append, drop_append. repeat split; try done.
  - intros ->. simpl in Hl. lia.
  - intros ->. rewrite len_append in Hj. unfold len in *. simpl in Hj. lia.
Qed.

Lemma stem_suffix_join (a b : string) :
  a ≠ "" → b ≠ "" → contains "." b = false →
  stem_of (a +:+ String "." b) = a ∧ suffix_of (a +:+ String "." b) = String "." b.
Proof.
  intros Ha Hb Hc. unfold stem_of, suffix_of.
  rewrite (rfind_last _ _ _ Hc), len_append, Nat2Z.id, take_append, drop_append.
  assert (0 < len a)%nat by (destruct a; [done | unfold len; simpl; lia]).
  assert (0 < len b)%nat by (destruct b; [done | unfold len; simpl; lia]).
  replace (len (String "." b)) with (S (len b)) by done.
  destruct (Z.ltb_spec 0 (Z.of_nat (len a))); [|lia].
  destruct (Z.ltb_spec (Z.of_nat (len a)) (Z.of_nat (len a + S (len b)) - 1)); [|lia].
  done.
Qed.

Lemma stem_of_no_suffix (nm : string) : suffix_of nm = "" → stem_of nm = nm.
Proof.
  unfold suffix_of, stem_of.
  destruct ((0 <? rfind "." nm)%Z && (rfind "." nm <? Z.of_nat (len nm) - 1)%Z)
    eqn:E; [|done].
  intros Hd. apply andb_true_iff in E as [Hi Hj].
  apply Z.ltb_lt in Hi, Hj. remember (rfind "." nm) as i eqn:Hr.
  destruct (rfind_split "." nm i) as (a & b & -> & Hl & Hb); [done | lia |].
  rewrite <- Hl, drop_append in Hd. discriminate.
Qed.

Lemma contains_stem_of (c : ascii) (nm : string) :
  contains c nm = false → contains c (stem_of nm) = false.
Proof. unfold stem_of. intros H. case_match; [by apply contains_take | done]. Qed.

Lemma contains_suffix_of (c : ascii) (nm : string) :
  contains c nm = false → contains c (suffix_of nm) = false.
Proof. unfold suffix_of. intros H. case_match; [by apply contains_drop | done]. Qed.

(** The name [stem_date.suffix] that [_create_file_path] builds splits
    back into that stem and that suffix. *)
Lemma dated_name_split (st dt sfx : string) :
  (sfx = ".log" ∨ ∃ nm, suffix_of nm = sfx ∧ sfx ≠ "") →
  stem_of (st +:+ "_" +:+ dt +:+ sfx) = st +:+ "_" +:+ dt
  ∧ suffix_of (st +:+ "_" +:+ dt +:+ sfx) = sfx.
Proof.
  intros H.
  assert (∃ b, sfx = String "." b ∧ b ≠ "" ∧ contains "." b = false)
    as (b & -> & Hb & Hc).
  { destruct H as [->|(nm & Hs & Hne)]; [by exists "log" |].
    rewrite <- Hs in Hne.
    destruct (suffix_of_spec nm Hne) as (a & b & _ & _ & ? & ? & _ & E).
    exists b. by rewrite <- Hs, E. }
  replace (st +:+ "_" +:+ dt +:+ String "." b)
    with ((st +:+ "_" +:+ dt) +:+ String "." b) by (by rewrite !append_assoc).
  apply stem_suffix_join; try done.
  intros [_ E]%append_empty. discriminate.
Qed.

(** ** Names of parsed paths *)

Lemma split_no_sep (c : ascii) (s : string) :
  Forall (λ x, contains c x = false) (split c s).
Proof.
  induction s as [|a s IH]; simpl; [by repeat constructor |].
  destruct (Ascii.eqb a c) eqn:E; [by constructor |].
  destruct (split c s) as [|h r]; [by repeat constructor; simpl; rewrite E |].
  inversion IH; subst. constructor; [simpl; by rewrite E | done].
Qed.

Lemma last_Forall {A} (P : A → Prop) (l : list A) (d : A) :
  Forall P l → l ≠ [] → P (List.last l d).
Proof.
  induction 1 as [|x l Hx Hl IH]; [done |]. intros _.
  destruct l as [|y l]; [done |]. apply IH. done.
Qed.

(** The name of a path is empty or its last component. *)
Lemma name_cases (p : PurePath) :
  name p = ""
  ∨ (name p = List.last (_parts p) ""
     ∧ if anchored p then (2 ≤ length (_parts p))%nat else _parts p ≠ []).
Proof.
  unfold name. destruct (anchored p).
  - destruct (Nat.eqb_spec (length (_parts p)) 1); [by left |].
    destruct (_parts p) as [|x [|y l]]; [by left | done |].
    right. split; [done | simpl; lia].
  - destruct (Nat.eqb_spec (length (_parts p)) 0); [by left |].
    right. split; [done |]. by destruct (_parts p).
Qed.

Lemma name_parse_no_sep (os : os_name) (s : string) :
  contains (sep os) (name (parse_parts os s)) = false.
Proof.
  unfold parse_parts. destruct (String.eqb s ""); [done |].
  destruct (splitroot os _) as [[drv root] rel].
  set (parsed := filter _ _).
  assert (Forall (λ x, contains (sep os) x = false) parsed) as HF.
  { apply Forall_forall. intros x [_ Hx]%list_elem_of_filter.
    by apply (proj1 (Forall_forall _ _) (split_no_sep (sep os) rel)). }
  destruct (nonempty drv || nonempty root) eqn:Ha.
  - destruct (name_cases (mkPath drv root ((drv +:+ root) :: parsed)))
      as [->|[-> Hl]]; [done |].
    unfold anchored in Hl. simpl in Hl. rewrite Ha in Hl.
    destruct parsed as [|y l]; [simpl in Hl; lia |].
    change (List.last (_ :: y :: l) "") with (List.last (y :: l) "").
    by apply (last_Forall _ _ _ HF).
  - destruct (name_cases (mkPath drv root parsed)) as [->|[-> Hl]]; [done |].
    unfold anchored in Hl. simpl in Hl. rewrite Ha in Hl.
    by apply (last_Forall _ _ _ HF).
Qed.

(** A character of the name shows in [str]. *)
Lemma contains_join_last (c sp : ascii) (l : list string) :
  contains c (List.last l "") = true → contains c (join sp l) = true.
Proof.
  induction l as [|x l IH]; [done |].
  destruct l as [|y l]; [done |]. intros H.
  change (join sp (x :: y :: l)) with (x +:+ String sp (join sp (y :: l))).
  rewrite contains_append. apply orb_true_iff. right.
  simpl. destruct (Ascii.eqb sp c); [done |]. by apply IH.
Qed.

Lemma contains_name_str (os : os_name) (c : ascii) (p : PurePath) :
  contains c (name p) = true → contains c (str os p) = true.
Proof.
  intros H. assert (contains c (_format_parsed_parts os p) = true) as Hf.
  { unfold _format_parsed_parts.
    destruct (name_cases p) as [E|[E Hl]]; [by rewrite E in H |].
    rewrite E in H. destruct (anchored p).
    - rewrite !contains_append. apply orb_true_iff. right.
      apply orb_true_iff. right. apply contains_join_last.
      destruct (_parts p) as [|x [|y l]]; simpl in Hl; try lia. done.
    - by apply contains_join_last. }
  unfold str. destruct (String.eqb_spec (_format_parsed_parts os p) "") as [E|]; [|done].
  by rewrite E in Hf.
Qed.

(** ** Parsing a single component, and [with_name] *)

Lemma keep_component_true (x : string) :
  x ≠ "" → x ≠ "." → keep_component x = true.
Proof.
  intros H1 H2. unfold keep_component, nonempty.
  destruct (String.eqb_spec x ""); [done |].
  by destruct (String.eqb_spec x ".").
Qed.

Lemma filter_keep_single (x : string) :
  x ≠ "" → x ≠ "." → filter (λ y, Is_true (keep_component y)) [x] = [x].
Proof.
  intros H1 H2. rewrite filter_cons_True; [done |].
  by rewrite keep_component_true.
Qed.

Lemma splitroot_posix_plain (nm : string) :
  contains "/" nm = false → splitroot_posix nm = ("", "", nm).
Proof.
  destruct nm as [|a t]; [done |]. simpl. intros H.
  unfold splitroot_posix, slice. simpl.
  destruct (Ascii.eqb a "/"); [done |]. by destruct t.
Qed.

Lemma splitroot_nt_plain (nm : string) :
  contains "\" nm = false → contains ":" nm = false →
  splitroot_nt nm = ("", "", nm).
Proof.
  intros Hb Hc.
  destruct nm as [|a [|b [|c t]]]; simpl in Hb, Hc;
    repeat match goal with
      | H : (if Ascii.eqb ?x ?y then _ else _) = false |- _ =>
          destruct (Ascii.eqb x y) eqn:?; [discriminate |]
      end;
    unfold splitroot_nt, splitroot_nt_drive, slice; simpl;
    repeat match goal with
      | H : Ascii.eqb ?x ?y = false |- _ => rewrite H; simpl
      end; try done.
Qed.

(** A name without separators parses to that one component. *)
Lemma parse_single_posix (nm : string) :
  nm ≠ "" → nm ≠ "." → contains "/" nm = false →
  parse_parts posix nm = mkPath "" "" [nm].
Proof.
  intros H1 H2 Hs. unfold parse_parts.
  destruct (String.eqb_spec nm ""); [done |]. simpl.
  rewrite (splitroot_posix_plain _ Hs), (split_none _ _ Hs).
  by rewrite filter_keep_single.
Qed.

Lemma parse_single_nt (nm : string) :
  nm ≠ "" → nm ≠ "." → contains "/" nm = false → contains "\" nm = false →
  contains ":" nm = false →
  parse_parts nt nm = mkPath "" "" [nm].
Proof.
  intros H1 H2 Hs Hb Hc. unfold parse_parts.
  destruct (String.eqb_spec nm ""); [done |]. simpl.
  rewrite (replace_none _ _ _ Hs), (splitroot_nt_plain _ Hb Hc), (split_none _ _ Hb).
  by rewrite filter_keep_single.
Qed.

Lemma parse_single (os : os_name) (nm : string) :
  plain_name os nm → parse_parts os nm = mkPath "" "" [nm].
Proof.
  intros (H1 & H2 & H3). destruct os.
  - by apply parse_single_posix.
  - destruct H3 as (? & ? & ?). by apply parse_single_nt.
Qed.

Lemma ends_with_sep_plain (os : os_name) (nm : string) :
  plain_name os nm → ends_with_sep os nm = false.
Proof.
  intros (H1 & H2 & H3). unfold ends_with_sep.
  destruct (last_char nm) as [a|] eqn:E; [|done].
  apply last_char_contains in E.
  destruct os; simpl.
  - destruct (Ascii.eqb_spec a "/") as [->|]; [congruence | done].
  - destruct H3 as (? & ? & ?).
    destruct (Ascii.eqb_spec a "\") as [->|]; [congruence |].
    destruct (Ascii.eqb_spec a "/") as [->|]; [congruence | done].
Qed.

Lemma with_name_plain (os : os_name) (p : PurePath) (nm : string) :
  name p ≠ "" → plain_name os nm →
  with_name os p nm
  = Py.Return (mkPath (_drv p) (_root p) (removelast (_parts p) ++ [nm])).
Proof.
  intros Hn Hp. unfold with_name.
  destruct (String.eqb_spec (name p) ""); [done |].
  rewrite (parse_single _ _ Hp), (ends_with_sep_plain _ _ Hp). simpl.
  destruct Hp as (H1 & _). by destruct (String.eqb_spec nm "").
Qed.

Lemma length_removelast_snoc {A} (l : list A) (x : A) :
  l ≠ [] → length (removelast l ++ [x]) = length l.
Proof.
  intros Hl. rewrite length_app. simpl.
  destruct (exists_last Hl) as (l' & y & ->).
  rewrite removelast_last, length_app. simpl. lia.
Qed.

(** Replacing the last component keeps the anchor, makes the new
    component the name and keeps the parent. *)
Lemma replace_last_name (p : PurePath) (nm : string) :
  name p ≠ "" →
  let q := mkPath (_drv p) (_root p) (removelast (_parts p) ++ [nm]) in
  name q = nm ∧ parent q = parent p.
Proof.
  intros Hn q.
  destruct (name_cases p) as [E|[_ Hl]]; [done |].
  assert (_parts p ≠ []) as Hne.
  { destruct (anchored p); [|done]. intros E. rewrite E in Hl. simpl in Hl. lia. }
  assert (length (_parts q) = length (_parts p)) as Hlen
    by (by apply length_removelast_snoc).
  assert (anchored q = anchored p) as Ha by done.
  split.
  - unfold name. rewrite Ha, Hlen. simpl. rewrite last_last.
    destruct (anchored p).
    + destruct (Nat.eqb_spec (length (_parts p)) 1); [lia | done].
    + destruct (Nat.eqb_spec (length (_parts p)) 0); [|done].
      by destruct (_parts p).
  - unfold parent. rewrite Ha, Hlen. simpl. rewrite removelast_last.
    destruct (anchored p); [|by rewrite !andb_false_r].
    destruct (Nat.eqb_spec (length (_parts p)) 1); [lia | done].
Qed.

End pathlibFacts.

(** * Facts about the path resolver *)

Module ResolverFacts.
Import PyStr PyStrFacts pathlib pathlibFacts TidyLogger.

(** ** The date suffix *)

Lemma digit_not (n : nat) (c : ascii) :
  (nat_of_ascii c < 48 ∨ 57 < nat_of_ascii c)%nat → Ascii.eqb (digit n) c = false.
Proof.
  intros Hc. apply Ascii.eqb_neq. intros <-.
  unfold digit in Hc. rewrite nat_ascii_embedding in Hc.
  - pose proof (Nat.mod_upper_bound n 10). lia.
  - pose proof (Nat.mod_upper_bound n 10). lia.
Qed.

Lemma strftime_no_char (d : date) (c : ascii) :
  (nat_of_ascii c < 48 ∨ 57 < nat_of_ascii c)%nat →
  contains c (strftime_Ymd d) = false.
Proof.
  intros Hc. unfold strftime_Ymd. cbn [contains].
  by rewrite !(digit_not _ _ Hc).
Qed.

Lemma strftime_len (d : date) : len (strftime_Ymd d) = 8%nat.
Proof. reflexivity. Qed.

(** ** The resolver on names that pass its checks *)

Lemma resolve_path_passed (os : os_name) (dt : string) (p : PurePath) (flag : bool) :
  passes_checks os p = true →
  resolve_path os dt p flag =
    if flag then with_name os p (dated_name dt p)
    else if String.eqb (suffix p) "" then with_suffix os p DEFAULT_FILE_EXTENSION
         else Py.Return p.
Proof.
  unfold passes_checks, resolve_path, dated_name. intros H.
  apply andb_true_iff in H as [[H1 H2]%andb_true_iff H3].
  apply negb_true_iff in H1, H2. rewrite H1, H2.
  destruct os; [done |].
  apply andb_true_iff in H3 as [H3 H4].
  apply negb_true_iff in H3, H4. by rewrite H3, H4.
Qed.

Lemma resolve_path_failed (os : os_name) (dt : string) (p : PurePath) (flag : bool) :
  passes_checks os p = false →
  ∃ msg, resolve_path os dt p flag = Py.Raise (Py.ValueError msg)
         ∧ msg ∈ [msg_empty; msg_null; msg_chars; msg_reserved].
Proof.
  unfold passes_checks, resolve_path. intros H.
  destruct (String.eqb (strip (str os p)) ""); [eexists; split; [done | set_solver] |].
  destruct (contains "000" (str os p)); [eexists; split; [done | set_solver] |].
  destruct os; [done |]. simpl in H.
  destruct (has_invalid_char (str nt p)); [eexists; split; [done | set_solver] |].
  destruct (has_reserved_part nt p); [eexists; split; [done | set_solver] |].
  done.
Qed.

Lemma has_invalid_char_false (s : string) :
  has_invalid_char s = false →
  contains "/" s = false ∧ contains "\" s = false ∧ contains ":" s = false.
Proof.
  unfold has_invalid_char, invalid_chars. cbn [existsb].
  intros H. repeat (apply orb_false_iff in H as [? H]). done.
Qed.

(** Under the checks the last component holds no character that would
    make [with_name] refuse a name built from it. *)
Lemma name_plain_chars (os : os_name) (p : PurePath) :
  passes_checks os p = true → contains (sep os) (pathlib.name p) = false →
  match os with
  | posix => contains "/" (pathlib.name p) = false
  | nt => contains "/" (pathlib.name p) = false ∧ contains "\" (pathlib.name p) = false
          ∧ contains ":" (pathlib.name p) = false
  end.
Proof.
  intros H Hs. destruct os; [done |].
  unfold passes_checks in H.
  apply andb_true_iff in H as [_ [H _]%andb_true_iff].
  apply negb_true_iff, has_invalid_char_false in H as (H1 & H2 & H3).
  repeat split;
    match goal with
    | |- contains ?c _ = false =>
        destruct (contains c (pathlib.name p)) eqn:E; [|done];
        apply (contains_name_str nt) in E; congruence
    end.
Qed.

Lemma dated_name_plain (os : os_name) (d : date) (p : PurePath) :
  passes_checks os p = true → contains (sep os) (pathlib.name p) = false →
  plain_name os (dated_name (strftime_Ymd d) p).
Proof.
  intros H Hs. pose proof (name_plain_chars _ _ H Hs) as Hc.
  unfold dated_name.
  set (sfx := if nonempty (suffix p) then suffix p else DEFAULT_FILE_EXTENSION).
  assert (∀ c, contains c (pathlib.name p) = false → contains c ".log" = false →
               contains c "_" = false →
               (nat_of_ascii c < 48 ∨ 57 < nat_of_ascii c)%nat →
               contains c (stem p +:+ "_" +:+ strftime_Ymd d +:+ sfx) = false) as Hno.
  { intros c Hn Hl Hu Hd. rewrite !contains_append.
    unfold stem. rewrite (contains_stem_of _ _ Hn), Hu, (strftime_no_char _ _ Hd).
    simpl. unfold sfx, suffix. destruct (nonempty _); [|done].
    by apply contains_suffix_of. }
  split; [|split].
  - intros [_ E]%append_empty. discriminate.
  - destruct (stem p) as [|x [|y t]]; [discriminate | |discriminate].
    rewrite append_cons, append_nil_l. intros E. discriminate.
  - destruct os.
    + apply Hno; [done | done | done | vm_compute; lia].
    + destruct Hc as (? & ? & ?).
      repeat split; (apply Hno; [done | done | done | vm_compute; lia]).
Qed.

(** With the date suffix: the last component becomes the dated name. *)
Lemma resolve_path_dated (os : os_name) (d : date) (p : PurePath) :
  passes_checks os p = true → pathlib.name p ≠ "" →
  contains (sep os) (pathlib.name p) = false →
  resolve_path os (strftime_Ymd d) p true
  = Py.Return (mkPath (_drv p) (_root p)
                 (removelast (_parts p) ++ [dated_name (strftime_Ymd d) p])).
Proof.
  intros H Hn Hs. rewrite (resolve_path_passed _ _ _ _ H).
  apply with_name_plain; [done |]. by apply dated_name_plain.
Qed.

(** Without it: the default extension is added when there is none. *)
Lemma resolve_path_undated (os : os_name) (dt : string) (p : PurePath) :
  passes_checks os p = true → pathlib.name p ≠ "" →
  resolve_path os dt p false
  = Py.Return (if String.eqb (suffix p) ""
               then mkPath (_drv p) (_root p)
                      (removelast (_parts p) ++ [pathlib.name p +:+ DEFAULT_FILE_EXTENSION])
               else p).
Proof.
  intros H Hn. rewrite (resolve_path_passed _ _ _ _ H).
  destruct (String.eqb_spec (suffix p) "") as [E|]; [|done].
  unfold with_suffix. rewrite E.
  destruct os; simpl; by destruct (String.eqb_spec (pathlib.name p) "").
Qed.

(** A path without a last component is refused by [with_name] and
    [with_suffix]. *)
Lemma resolve_path_no_name (os : os_name) (dt : string) (p : PurePath) (flag : bool) :
  passes_checks os p = true → pathlib.name p = "" →
  resolve_path os dt p flag
  = Py.Raise (Py.ValueError (repr os p +:+ " has an empty name")).
Proof.
  intros H Hn. rewrite (resolve_path_passed _ _ _ _ H).
  unfold with_name, with_suffix, suffix. rewrite Hn.
  destruct flag; [done |]. by destruct os.
Qed.

(** ** What the resolver raises *)

Lemma create_file_path_names (os : os_name) (now : date)
    (file_name : file_name_arg) (s : string) (flag : bool) :
  names file_name s →
  _create_file_path os now file_name flag
  = resolve_path os (strftime_Ymd now) (Path os s) flag.
Proof. by intros [->| ->]. Qed.

Lemma repr_head (os : os_name) (p : PurePath) (rest : string) :
  head_char (repr os p +:+ rest) = Some (match os with posix => "P" | nt => "W" end)%char.
Proof. by destruct os. Qed.

Lemma with_name_raises (os : os_name) (p : PurePath) (nm : string) (e : Py.exn) :
  with_name os p nm = Py.Raise e →
  ∃ m, e = Py.ValueError m
       ∧ (head_char m = Some "P" ∨ head_char m = Some "W" ∨ head_char m = Some "I")%char.
Proof.
  unfold with_name. repeat case_match; intros [= <-]; eexists; (split; [done |]).
  - rewrite repr_head. destruct os; auto.
  - auto.
Qed.

Lemma with_suffix_raises (os : os_name) (p : PurePath) (sfx : string) (e : Py.exn) :
  with_suffix os p sfx = Py.Raise e →
  ∃ m, e = Py.ValueError m
       ∧ (head_char m = Some "P" ∨ head_char m = Some "W" ∨ head_char m = Some "I")%char.
Proof.
  unfold with_suffix. repeat case_match; intros [= <-]; eexists; (split; [done |]);
    try (rewrite repr_head; destruct os); auto.
Qed.

(** Every exception of the resolver body is a [ValueError]; its message
    is one of the module's four, the two Windows ones only under [nt], or
    one of [pathlib]'s, which start with [P], [W] or [I]. *)
Lemma resolve_path_raises (os : os_name) (dt : string) (p : PurePath)
    (flag : bool) (e : Py.exn) :
  resolve_path os dt p flag = Py.Raise e →
  ∃ m, e = Py.ValueError m
       ∧ (m = msg_empty ∨ m = msg_null
          ∨ (os = nt ∧ (m = msg_chars ∨ m = msg_reserved))
          ∨ (head_char m = Some "P" ∨ head_char m = Some "W"
             ∨ head_char m = Some "I")%char).
Proof.
  destruct (passes_checks os p) eqn:Hc.
  - rewrite (resolve_path_passed _ _ _ _ Hc).
    destruct flag; [intros (m & -> & Hm)%with_name_raises; eauto 6 |].
    case_match; [intros (m & -> & Hm)%with_suffix_raises; eauto 6 | done].
  - unfold passes_checks in Hc. unfold resolve_path.
    destruct (String.eqb (strip (str os p)) ""); [intros [= <-]; eauto 6 |].
    destruct (contains "000" (str os p)); [intros [= <-]; eauto 6 |].
    destruct os; [done |]. simpl in Hc.
    destruct (has_invalid_char (str nt p)); [intros [= <-]; eauto 8 |].
    destruct (has_reserved_part nt p); [intros [= <-]; eauto 8 | done].
Qed.

Lemma default_dated_plain (os : os_name) (d : date) :
  plain_name os (DEFAULT_FILE_NAME +:+ "_" +:+ strftime_Ymd d +:+ DEFAULT_FILE_EXTENSION).
Proof.
  assert (∀ c, contains c "log" = false → contains c ".log" = false →
               contains c "_" = false →
               (nat_of_ascii c < 48 ∨ 57 < nat_of_ascii c)%nat →
               contains c (DEFAULT_FILE_NAME +:+ "_" +:+ strftime_Ymd d
                             +:+ DEFAULT_FILE_EXTENSION) = false) as Hno.
  { intros c H1 H2 H3 Hd. rewrite !contains_append.
    unfold DEFAULT_FILE_NAME, DEFAULT_FILE_EXTENSION.
    by rewrite H1, H2, H3, (strftime_no_char _ _ Hd). }
  split; [done |]. split; [done |].
  destruct os; repeat split; (apply Hno; [done | done | done | vm_compute; lia]).
Qed.

Lemma str_single (os : os_name) (nm : string) :
  nm ≠ "" → str os (mkPath "" "" [nm]) = nm.
Proof.
  intros H. unfold str, _format_parsed_parts. simpl.
  by destruct (String.eqb_spec nm "").
Qed.

Lemma has_invalid_char_true (s : string) (c : ascii) :
  c ∈ invalid_chars → contains c s = true → has_invalid_char s = true.
Proof.
  intros Hc Hs. unfold has_invalid_char. apply existsb_exists.
  exists c. split; [by apply list_elem_of_In | done].
Qed.

Lemma in_list_true (s : string) (l : list string) : s ∈ l → in_list s l = true.
Proof.
  intros H. unfold in_list. apply existsb_exists. exists s.
  split; [by apply list_elem_of_In | apply String.eqb_refl].
Qed.

Lemma has_reserved_part_true (os : os_name) (p : PurePath) (part : string) :
  part ∈ parts p → upper (stem (Path os part)) ∈ reserved →
  has_reserved_part os p = true.
Proof.
  intros Hp Hr. unfold has_reserved_part. apply existsb_exists.
  exists part. split; [by apply list_elem_of_In | by apply in_list_true].
Qed.

Lemma checks_fail_raises (os : os_name) (now : date) (file_name : file_name_arg)
    (s : string) (flag : bool) :
  names file_name s → passes_checks os (Path os s) = false →
  ∃ m, _create_file_path os now file_name flag = Py.Raise (Py.ValueError m).
Proof.
  intros Hn Hc. rewrite (create_file_path_names _ _ _ _ _ Hn).
  destruct (resolve_path_failed os (strftime_Ymd now) _ flag Hc) as (m & -> & _).
  by exists m.
Qed.

(** A blank name, a name with a null byte and the empty name all make
    the resolver raise [ValueError]. *)
Lemma bad_name_raises (os : os_name) (now : date) (file_name : file_name_arg)
    (s : string) (flag : bool) :
  names file_name s →
  all_space (str os (Path os s)) = true
  ∨ contains "000" (str os (Path os s)) = true ∨ s = "" →
  ∃ m, _create_file_path os now file_name flag = Py.Raise (Py.ValueError m).
Proof.
  intros Hn [H|[H| ->]].
  - apply checks_fail_raises with s; [done |].
    unfold passes_checks. apply strip_empty in H. by rewrite H.
  - apply checks_fail_raises with s; [done |].
    unfold passes_checks. rewrite H. by rewrite andb_false_r.
  - rewrite (create_file_path_names _ _ _ _ _ Hn).
    rewrite (resolve_path_no_name os _ (Path os "") flag); [by eexists | |];
      by destruct os.
Qed.

(** A name that passes the checks is resolved exactly when its path
    has a last component. *)
Lemma passed_name_returns (os : os_name) (now : date) (file_name : file_name_arg)
    (s : string) (flag : bool) :
  names file_name s → passes_checks os (Path os s) = true →
  pathlib.name (Path os s) ≠ "" →
  ∃ q, _create_file_path os now file_name flag = Py.Return q.
Proof.
  intros Hn Hc Hnm. rewrite (create_file_path_names _ _ _ _ _ Hn).
  destruct flag.
  - rewrite resolve_path_dated; [by eexists | done | done |].
    apply name_parse_no_sep.
  - rewrite resolve_path_undated; [by eexists | done | done].
Qed.

End ResolverFacts.

(** * Facts about the facade *)

Module FacadeFacts.
Import pathlib logging TidyLogger.

(** ** The logger dictionary *)

Lemma lookup_set_eq (k : string) (lg : Logger) (w : World) :
  lookup_logger (set_logger k lg w) k = lg.
Proof. unfold lookup_logger, set_logger. simpl. by rewrite lookup_insert_eq. Qed.

Lemma lookup_set_ne (k k' : string) (lg : Logger) (w : World) :
  k ≠ k' → lookup_logger (set_logger k lg w) k' = lookup_logger w k'.
Proof.
  intros H. unfold lookup_logger, set_logger. simpl. by rewrite lookup_insert_ne.
Qed.

Lemma set_set (k : string) (lg lg' : Logger) (w : World) :
  set_logger k lg (set_logger k lg' w) = set_logger k lg w.
Proof. unfold set_logger. simpl. by rewrite insert_insert_eq. Qed.

Lemma py_min_cases (a b m : level_arg) :
  py_min a b = Py.Return m → m = a ∨ m = b.
Proof. destruct a, b; simpl; intros [= <-]; case_match; auto. Qed.

Lemma py_min_int (x y : Z) :
  py_min (LevelInt x) (LevelInt y) = Py.Return (LevelInt (Z.min x y)).
Proof.
  simpl. destruct (Z.ltb_spec y x).
  - by rewrite Z.min_r by lia.
  - by rewrite Z.min_l by lia.
Qed.

Ltac unfold_monad :=
  repeat progress
    (unfold mbind, M_bind, bind, mret, M_ret, ret, lift, perform, new_FileHandler,
       new_RotatingFileHandler, new_StreamHandler, new_handler, Logger_addHandler,
       Logger_handlers, Logger_setLevel, getLogger, Handler_setLevel,
       Handler_setFormatter in *; cbn beta iota in *).

(** ** [__init__], unfolded *)

(** The statements of [__init__] up to the guard. *)
Lemma init_eq (os : os_name) (now : date) (a : init_args) (w : World) :
  let key := logger_key (logger_name a) in
  let hs := handlers (lookup_logger w key) in
  __init__ os now a w =
    match py_min (console_level a) (file_level a) with
    | Py.Raise e => (Py.Raise e, set_logger key (lookup_logger w key) w)
    | Py.Return lvl =>
        match _checkLevel lvl with
        | Py.Raise e => (Py.Raise e, set_logger key (lookup_logger w key) w)
        | Py.Return n =>
            let w2 := set_logger key (mkLogger n hs) w in
            match hs with
            | [] => match attach_sinks os now a key w2 with
                    | (Py.Return _, w') => (Py.Return (mkTidyLogger key), w')
                    | (Py.Raise e, w') => (Py.Raise e, w')
                    end
            | _ :: _ => (Py.Return (mkTidyLogger key), w2)
            end
        end
    end.
Proof.
  intros key hs. unfold __init__. unfold_monad. fold key.
  destruct (py_min _ _) as [lvl|e]; [|done].
  destruct (_checkLevel lvl) as [n|e]; [|done].
  rewrite !lookup_set_eq, set_set. fold hs.
  by destruct hs.
Qed.

Lemma attach_sinks_cases (os : os_name) (now : date) (a : init_args)
    (key : string) (w : World) :
  handlers (lookup_logger w key) = [] →
  let '(r, w') := attach_sinks os now a key w in
  match r with
  | Py.Return _ =>
      ∃ p f c,
        _create_file_path os now (file_name a) (add_date_suffix_to_file_name a)
        = Py.Return p
        ∧ _checkLevel (file_level a) = Py.Return f
        ∧ _checkLevel (console_level a) = Py.Return c
        ∧ io_error w (trace w) (Mkdir (parent p)) = None
        ∧ io_error w (trace w ++ [Mkdir (parent p)]) (open_effect a p) = None
        ∧ w' = attached a key p f c w
  | Py.Raise e =>
      (_create_file_path os now (file_name a) (add_date_suffix_to_file_name a)
       = Py.Raise e ∧ w' = w)
      ∨ (∃ p, _create_file_path os now (file_name a) (add_date_suffix_to_file_name a)
              = Py.Return p
              ∧ (length (handlers (lookup_logger w' key)) ≤ 1)%nat
              ∧ level (lookup_logger w' key) = level (lookup_logger w key)
              ∧ (∀ k, k ≠ key → loggerDict w' !! k = loggerDict w !! k)
              ∧ io_error w' = io_error w
              ∧ (io_error w (trace w) (Mkdir (parent p)) = Some e
                 ∨ io_error w (trace w ++ [Mkdir (parent p)]) (open_effect a p) = Some e
                 ∨ _checkLevel (file_level a) = Py.Raise e
                 ∨ _checkLevel (console_level a) = Py.Raise e))
  end.
Proof.
  intros Hh. unfold attach_sinks. unfold_monad.
  destruct (_create_file_path _ _ _ _) as [p|e]; [|by left].
  unfold attached, open_effect, file_sink, console_sink.
  unfold lookup_logger, set_logger in *. simpl.
  destruct (io_error w (trace w) (Mkdir (parent p))) eqn:E1.
  { right. exists p. simpl. rewrite Hh. simpl. split_and!; auto. }
  destruct (use_file_rotation a) eqn:Hrot; unfold_monad; simpl;
    (destruct (io_error w (trace w ++ [Mkdir (parent p)]) (Open p _)) eqn:E2; simpl;
     [right; exists p; simpl; rewrite Hh; simpl; split_and!; auto |]);
    (destruct (_checkLevel (file_level a)) as [f|e] eqn:Ef; simpl;
     [|right; exists p; simpl; rewrite Hh; simpl; split_and!; auto]);
    rewrite Hh; simpl;
    (destruct (_checkLevel (console_level a)) as [c|e] eqn:Ec;
     [|right; exists p; cbn [loggerDict io_error]; rewrite lookup_insert_eq; simpl;
       split_and!; auto; intros k Hk; by rewrite lookup_insert_ne]);
    rewrite !lookup_insert_eq; cbn [default from_option handlers level id];
    (rewrite bool_decide_eq_false_2
       by (rewrite list_elem_of_singleton; discriminate));
    exists p, f, c; split_and!; auto;
    by rewrite insert_insert_eq, <- app_assoc.
Qed.

(** ** [__init__] on a logger with handlers, and on one without *)

Lemma init_guarded (os : os_name) (now : date) (a : init_args) (w : World) :
  let key := logger_key (logger_name a) in
  let hs := handlers (lookup_logger w key) in
  hs ≠ [] →
  __init__ os now a w =
    match py_min (console_level a) (file_level a) with
    | Py.Raise e => (Py.Raise e, set_logger key (lookup_logger w key) w)
    | Py.Return lvl =>
        match _checkLevel lvl with
        | Py.Raise e => (Py.Raise e, set_logger key (lookup_logger w key) w)
        | Py.Return n => (Py.Return (mkTidyLogger key), set_logger key (mkLogger n hs) w)
        end
    end.
Proof.
  intros key hs Hne. rewrite init_eq. fold key hs.
  repeat case_match; try done.
Qed.

(** What a construction leaves of the handler list and of the rest of
    the process state. *)
Lemma init_frame (os : os_name) (now : date) (a : init_args) (w : World) :
  let key := logger_key (logger_name a) in
  let hs := handlers (lookup_logger w key) in
  let w' := snd (__init__ os now a w) in
  io_error w' = io_error w
  ∧ (∀ k, k ≠ key → lookup_logger w' k = lookup_logger w k)
  ∧ (hs ≠ [] → handlers (lookup_logger w' key) = hs
               ∧ trace w' = trace w ∧ next_id w' = next_id w)
  ∧ (hs = [] → (length (handlers (lookup_logger w' key)) ≤ 2)%nat).
Proof.
  intros key hs w'. subst w'. rewrite init_eq. fold key hs.
  assert (handlers (lookup_logger w key) = hs) as Hhs0 by done. clearbody hs.
  assert (∀ lg, (∀ k, k ≠ key → lookup_logger (set_logger key lg w) k = lookup_logger w k))
    as Hother by (intros lg k Hk; by apply lookup_set_ne).
  destruct (py_min _ _) as [lvl|e]; simpl.
  2:{ rewrite lookup_set_eq, Hhs0. split_and!; auto. intros ->. simpl. lia. }
  destruct (_checkLevel lvl) as [n|e]; simpl.
  2:{ rewrite lookup_set_eq, Hhs0. split_and!; auto. intros ->. simpl. lia. }
  destruct hs as [|h0 hs0] eqn:Hhs.
  2:{ simpl. rewrite lookup_set_eq. split_and!; auto. done. }
  pose proof (attach_sinks_cases os now a key (set_logger key (mkLogger n []) w)) as Hc.
  rewrite lookup_set_eq in Hc. specialize (Hc eq_refl).
  destruct (attach_sinks _ _ _ _ _) as [[[]|e] w2]; simpl.
  - destruct Hc as (p & f & c & _ & _ & _ & _ & _ & ->).
    unfold attached. split_and!; try done.
    + intros k Hk. unfold lookup_logger, set_logger. simpl.
      by rewrite !lookup_insert_ne.
    + intros _. unfold lookup_logger. simpl. rewrite lookup_insert_eq. simpl. lia.
  - destruct Hc as [[_ ->]|(p & _ & Hl & _ & Hk & Hio & _)].
    + rewrite lookup_set_eq. split_and!; auto; done.
    + split_and!; try done.
      * intros k Hne. unfold lookup_logger. rewrite (Hk k Hne).
        unfold set_logger. simpl. by rewrite lookup_insert_ne.
      * intros _. lia.
Qed.

(** ** [close] *)

Lemma list_remove_absent (h : Handler) (l : list Handler) :
  h ∉ l → list_remove h l = l.
Proof.
  induction l as [|y l IH]; [done |]. intros Hn.
  apply not_elem_of_cons in Hn as [Hy Hl]. simpl.
  rewrite bool_decide_eq_false_2 by congruence. by rewrite IH.
Qed.

Lemma remove_each_self (l : list Handler) : remove_each l l = [].
Proof.
  unfold remove_each. induction l as [|h l IH]; [done |].
  simpl. by rewrite bool_decide_eq_true_2.
Qed.

Lemma close_handler_eq (key : string) (h : Handler) (w : World) :
  ∃ w', close_handler key h w = (Py.Return tt, w')
        ∧ trace w' = trace w ++ flush_close h
        ∧ next_id w' = next_id w
        ∧ io_error w' = io_error w
        ∧ handlers (lookup_logger w' key) = list_remove h (handlers (lookup_logger w key))
        ∧ level (lookup_logger w' key) = level (lookup_logger w key)
        ∧ (∀ k, k ≠ key → lookup_logger w' k = lookup_logger w k).
Proof.
  unfold close_handler, try_pass, Logger_removeHandler. unfold_monad.
  destruct (io_error w (trace w) (Flush (h_id h))); simpl;
    destruct (io_error w (trace w ++ [Flush (h_id h)]) (Close (h_id h))); simpl;
    unfold lookup_logger, set_logger; simpl;
    (destruct (bool_decide_reflect
                 (h ∈ handlers (default (new_logger key) (loggerDict w !! key))))
       as [Hin|Hin];
     eexists; (split; [done |]); simpl; rewrite <- ?app_assoc;
     split_and!; try done;
     try (by rewrite lookup_insert_eq);
     try (by rewrite list_remove_absent);
     try (intros k Hk; by rewrite lookup_insert_ne)).
Qed.

Lemma for_each_close (key : string) (l : list Handler) (w : World) :
  ∃ w', for_each l (close_handler key) w = (Py.Return tt, w')
        ∧ trace w' = trace w ++ flat_map flush_close l
        ∧ next_id w' = next_id w
        ∧ io_error w' = io_error w
        ∧ handlers (lookup_logger w' key) = remove_each l (handlers (lookup_logger w key))
        ∧ level (lookup_logger w' key) = level (lookup_logger w key)
        ∧ (∀ k, k ≠ key → lookup_logger w' k = lookup_logger w k).
Proof.
  revert w. induction l as [|h l IH]; intros w.
  - exists w. simpl. rewrite app_nil_r. split_and!; done.
  - destruct (close_handler_eq key h w) as (w1 & E1 & Ht1 & Hn1 & Hi1 & Hh1 & Hl1 & Hk1).
    destruct (IH w1) as (w2 & E2 & Ht2 & Hn2 & Hi2 & Hh2 & Hl2 & Hk2).
    exists w2. split.
    { simpl. unfold mbind, M_bind, bind. by rewrite E1. }
    split_and!; try congruence.
    + rewrite Ht2, Ht1. simpl. by rewrite <- app_assoc.
    + rewrite Hh2, Hh1. done.
    + intros k Hk. by rewrite Hk2, Hk1.
Qed.

(** [close] never raises, tries to flush and to close every handler of
    the logger in turn, and leaves the logger without handlers. *)
Lemma close_spec (self : TidyLogger) (w : World) :
  ∃ w', close self w = (Py.Return tt, w')
        ∧ trace w' = trace w ++ flat_map flush_close (handlers (lookup_logger w (logger self)))
        ∧ next_id w' = next_id w
        ∧ io_error w' = io_error w
        ∧ handlers (lookup_logger w' (logger self)) = []
        ∧ level (lookup_logger w' (logger self)) = level (lookup_logger w (logger self))
        ∧ (∀ k, k ≠ logger self → lookup_logger w' k = lookup_logger w k).
Proof.
  destruct (for_each_close (logger self) (handlers (lookup_logger w (logger self))) w)
    as (w' & E & Ht & Hn & Hi & Hh & Hl & Hk).
  exists w'. rewrite remove_each_self in Hh. split_and!; try done.
Qed.

Lemma close_no_handlers (self : TidyLogger) (w : World) :
  handlers (lookup_logger w (logger self)) = [] → close self w = (Py.Return tt, w).
Proof. intros H. unfold close. unfold_monad. by rewrite H. Qed.

Lemma lookup_attached (a : init_args) (key : string) (p : PurePath) (f c : Z)
    (w : World) :
  lookup_logger (attached a key p f c w) key
  = mkLogger (level (lookup_logger w key))
      [file_sink a p (next_id w) f; console_sink (S (next_id w)) c].
Proof. unfold lookup_logger, attached. simpl. by rewrite lookup_insert_eq. Qed.

(** A construction on a logger without handlers attaches the two sinks
    when the levels are valid, the name resolves and the environment
    lets the directory and the file be made. *)
Lemma init_fresh_success (os : os_name) (now : date) (a : init_args) (w : World)
    (m : level_arg) (f c : Z) (p : PurePath) :
  let key := logger_key (logger_name a) in
  handlers (lookup_logger w key) = [] →
  py_min (console_level a) (file_level a) = Py.Return m →
  _checkLevel (file_level a) = Py.Return f →
  _checkLevel (console_level a) = Py.Return c →
  _create_file_path os now (file_name a) (add_date_suffix_to_file_name a)
  = Py.Return p →
  fs_ok w →
  ∃ n, _checkLevel m = Py.Return n
       ∧ __init__ os now a w
         = (Py.Return (mkTidyLogger key),
            attached a key p f c (set_logger key (mkLogger n []) w)).
Proof.
  intros key Hh Hm Hf Hc Hp Hfs.
  assert (∃ n, _checkLevel m = Py.Return n) as [n Hn]
    by (destruct (py_min_cases _ _ _ Hm) as [-> | ->]; eauto).
  exists n. split; [done |].
  rewrite init_eq. fold key. rewrite Hm, Hn, Hh. simpl.
  pose proof (attach_sinks_cases os now a key (set_logger key (mkLogger n []) w)) as Hcase.
  rewrite lookup_set_eq in Hcase. specialize (Hcase eq_refl).
  destruct (attach_sinks _ _ _ _ _) as [[[]|e] w2].
  - destruct Hcase as (p' & f' & c' & Hp' & Hf' & Hc' & _ & _ & ->).
    congruence.
  - exfalso. destruct Hcase as [[Hp' _]|(p' & Hp' & _ & _ & _ & _ & Hwhy)];
      [congruence |].
    unfold set_logger, open_effect in Hwhy. simpl in Hwhy.
    destruct Hwhy as [H|[H|[H|H]]]; try congruence.
    + by rewrite (Hfs _ (Mkdir _)) in H.
    + by rewrite (Hfs _ (Open _ _)) in H.
Qed.

End FacadeFacts.

(** * Facts about the logging calls *)

Module HandlingFacts.
Import PyStr pathlib logging TidyLogger FacadeFacts.

Lemma new_events_app (w w' : World) (t : list effect) :
  trace w' = trace w ++ t → new_events w w' = t.
Proof. intros H. unfold new_events. rewrite H. apply drop_app_length. Qed.

Lemma new_events_refl (w : World) : new_events w w = [].
Proof. apply new_events_app. by rewrite app_nil_r. Qed.


Lemma bind_keywords_nil (f : string) (taken free : list string) (vk : bool) :
  bind_keywords f taken free vk [] = Py.Return tt.
Proof. done. Qed.

(** ** The lineage of a logger *)

Lemma lineage_cons (w : World) (key : string) :
  ∃ r, lineage w key = key :: r.
Proof. unfold lineage. simpl. by eexists. Qed.

Lemma visited_cons (w : World) (key : string) :
  visited w key = key :: tail (visited w key).
Proof. unfold visited. destruct (lineage_cons w key) as [r ->]. done. Qed.

Lemma found_split (w : World) (key : string) :
  found w key = handlers (lookup_logger w key) ++ found_above w key.
Proof. unfold found, found_above. by rewrite visited_cons at 1. Qed.

(** ** Handling a record *)

(** A run of handle calls adds at most one event for each handler and
    changes nothing else. *)
Lemma for_each_cons {A} (x : A) (r : list A) (body : A → M unit) (w : World) :
  for_each (x :: r) body w
  = match body x w with
    | (Py.Return _, w') => for_each r body w'
    | (Py.Raise e, w') => (Py.Raise e, w')
    end.
Proof. done. Qed.

Lemma for_each_emit (hs : list Handler) (lvl : Z) (msg : string) (w : World) :
  ∃ r t, for_each hs (λ h, perform (Emit (h_id h) lvl msg)) w
         = (r, mkWorld (loggerDict w) (next_id w) (trace w ++ t) (io_error w) (switches w))
         ∧ (length t ≤ length hs)%nat
         ∧ (handlers_ok w → r = Py.Return tt ∧ t = map (λ h, Emit (h_id h) lvl msg) hs).
Proof.
  revert w. induction hs as [|h hs IH]; intros w.
  - exists (Py.Return tt), []. simpl. rewrite app_nil_r. split_and!; try done.
    by destruct w.
  - rewrite for_each_cons. unfold perform at 1. cbn zeta.
    destruct (io_error w (trace w) (Emit (h_id h) lvl msg)) as [x|] eqn:E.
    + exists (Py.Raise x), [Emit (h_id h) lvl msg]. split_and!; [done | simpl; lia |].
      intros Hok. by rewrite (Hok (trace w) (Emit (h_id h) lvl msg)) in E.
    + destruct (IH (mkWorld (loggerDict w) (next_id w) (trace w ++ [Emit (h_id h) lvl msg])
                      (io_error w) (switches w))) as (r & t & E1 & Hl & Hok).
      exists r, (Emit (h_id h) lvl msg :: t).
      split_and!.
      * rewrite E1. simpl. by rewrite <- app_assoc.
      * simpl. lia.
      * intros H. destruct (Hok H) as [-> ->]. done.
Qed.

(** [callHandlers] adds at most one event for each handler found, or one
    event when none was found; it changes no logger, creates no handler
    and leaves the environment as it is. *)
Lemma callHandlers_frame (key : string) (lvl : Z) (msg : string) (w : World) :
  ∃ r t sw, callHandlers key lvl msg w
            = (r, mkWorld (loggerDict w) (next_id w) (trace w ++ t) (io_error w) sw)
            ∧ (length t ≤ Nat.max 1 (length (found w key)))%nat
            ∧ disable sw = disable (switches w)
            ∧ propagate sw = propagate (switches w)
            ∧ disabled sw = disabled (switches w)
            ∧ lastResort sw = lastResort (switches w)
            ∧ (handlers_ok w →
               r = Py.Return tt
               ∧ t = handled_by (found w key) lvl msg ++ last_resort_events w key lvl msg).
Proof.
  unfold callHandlers, last_resort_events, handled_by.
  pose proof (length_filter (λ h, (h_level h ≤ lvl)%Z) (found w key)) as Hlen.
  destruct (for_each_emit (filter (λ h, (h_level h ≤ lvl)%Z) (found w key)) lvl msg w)
    as (r & t & E & Hl & Hok).
  unfold mbind, M_bind, bind. rewrite E. clear E.
  destruct r as [[]|x].
  2:{ exists (Py.Raise x), t, (switches w). split_and!; try done; [lia |].
      intros H. by destruct (Hok H). }
  destruct (found w key) as [|h0 hs0] eqn:Hf.
  - rewrite filter_nil in *. simpl in Hl. destruct t; [|simpl in Hl; lia].
    rewrite app_nil_r. simpl.
    destruct (lastResort (switches w)) as [l|] eqn:Hlr.
    + destruct (l <=? lvl)%Z.
      * unfold perform. simpl.
        destruct (io_error w (trace w) (LastResort lvl msg)) as [x|] eqn:E.
        -- exists (Py.Raise x), [LastResort lvl msg], (switches w).
           split_and!; try done; try (simpl; lia). intros H.
           pose proof (H (trace w) (LastResort lvl msg)) as H'. simpl in H'. congruence.
        -- exists (Py.Return tt), [LastResort lvl msg], (switches w).
           split_and!; try done; try (simpl; lia).
      * exists (Py.Return tt), [], (switches w). rewrite app_nil_r.
        unfold ret. split_and!; try done; try (simpl; lia); try by destruct w.
    + destruct (raiseExceptions (switches w) && negb (emittedNoHandlerWarning (switches w))).
      * unfold perform, note_warning, ret. simpl.
        destruct (io_error w (trace w) (NoHandlersWarning key)) as [x|] eqn:E.
        -- exists (Py.Raise x), [NoHandlersWarning key], (switches w).
           split_and!; try done; try (simpl; lia). intros H.
           pose proof (H (trace w) (NoHandlersWarning key)) as H'. simpl in H'. congruence.
        -- eexists (Py.Return tt), [NoHandlersWarning key], _.
           split_and!; try done; try (simpl; lia).
      * exists (Py.Return tt), [], (switches w). rewrite app_nil_r.
        unfold ret. split_and!; try done; try (simpl; lia); try by destruct w.
  - exists (Py.Return tt), t, (switches w). simpl. unfold ret.
    split_and!; try done; try (simpl in *; lia).
    intros H. destruct (Hok H) as [_ ->]. by rewrite app_nil_r.
Qed.

(** ** The five methods *)

(** [Logger._log] is its checks followed by [Logger.handle]. *)
Lemma Logger__log_eq (key : string) (lvl : Z) (msg : string) (args : list Py.value)
    (kwargs : Py.keywords) (w : World) :
  Logger__log key lvl msg args kwargs w
  = match log_checks kwargs with
    | Py.Raise e => (Py.Raise e, w)
    | Py.Return _ => Logger_handle key lvl msg w
    end.
Proof.
  unfold Logger__log, log_checks. unfold_monad.
  destruct (bind_keywords _ _ _ _ _); [|done].
  destruct (findCaller _); [|done].
  by destruct (makeRecord _).
Qed.

(** A call of one of the five methods: the keywords may raise; if they
    do not and the logger is enabled for the level, the record goes to
    [callHandlers]; otherwise nothing happens. *)
Lemma method_eq (method : string) (lvl : Z) (self : TidyLogger) (message : string)
    (args : list Py.value) (kwargs : Py.keywords) (w : World) :
  (lift (bind_keywords ("TidyLogger." +:+ method) ["self"; "message"] [] true kwargs) ;;
   Logger_method method lvl (logger self) message args kwargs) w
  = match keyword_error method (isEnabledFor w (logger self) lvl) kwargs with
    | Some e => (Py.Raise e, w)
    | None =>
        if isEnabledFor w (logger self) lvl
        then callHandlers (logger self) lvl message w
        else (Py.Return tt, w)
    end.
Proof.
  unfold keyword_error, Logger_method. unfold_monad.
  destruct (bind_keywords ("TidyLogger." +:+ method) _ _ _ _); [|done].
  destruct (bind_keywords ("Logger." +:+ method) _ _ _ _); [|done].
  destruct (isEnabledFor w (logger self) lvl) eqn:En; [|done].
  rewrite Logger__log_eq. destruct (log_checks kwargs); [|done].
  unfold Logger_handle. unfold isEnabledFor in En.
  by destruct (disabled (switches w) (logger self)).
Qed.

(** The five methods are instances of that shape. *)
Lemma logging_methods_shape (m : TidyLogger → string → list Py.value → Py.keywords → M unit)
    (lvl : Z) :
  (m, lvl) ∈ logging_methods →
  ∃ method, method ∈ method_names
    ∧ m = λ self message args kwargs,
          lift (bind_keywords ("TidyLogger." +:+ method) ["self"; "message"] [] true kwargs) ;;
          Logger_method method lvl (logger self) message args kwargs.
Proof.
  unfold logging_methods, method_names.
  rewrite !elem_of_cons, elem_of_nil.
  intros [H|[H|[H|[H|[H|[]]]]]]; injection H as -> ->;
    [exists "debug" | exists "info" | exists "warning" | exists "error" | exists "critical"];
    (split; [rewrite !elem_of_cons; tauto | reflexivity]).
Qed.


End HandlingFacts.

Module MethodFacts.
Import PyStr pathlib logging TidyLogger FacadeFacts HandlingFacts.






(** The events of a call of one of the five methods, and its result,
    where no handler fails. *)
Lemma method_events (method : string) (lvl : Z) (self : TidyLogger) (message : string)
    (args : list Py.value) (kwargs : Py.keywords) (w : World) :
  handlers_ok w →
  let call := (lift (bind_keywords ("TidyLogger." +:+ method) ["self"; "message"] [] true
                       kwargs) ;;
               Logger_method method lvl (logger self) message args kwargs) w in
  let enabled := isEnabledFor w (logger self) lvl in
  match keyword_error method enabled kwargs with
  | Some e => call = (Py.Raise e, w)
  | None =>
      fst call = Py.Return tt
      ∧ loggerDict (snd call) = loggerDict w
      ∧ next_id (snd call) = next_id w
      ∧ io_error (snd call) = io_error w
      ∧ new_events w (snd call)
        = if enabled
          then handled_by (found w (logger self)) lvl message
               ++ last_resort_events w (logger self) lvl message
          else []
  end.
Proof.
  intros Hok call enabled. subst call enabled. rewrite method_eq.
  destruct (keyword_error method _ kwargs); [done |].
  destruct (isEnabledFor w (logger self) lvl).
  - destruct (callHandlers_frame (logger self) lvl message w)
      as (r & t & sw & -> & _ & _ & _ & _ & _ & H).
    destruct (H Hok) as [-> ->]. cbn [fst snd]. split_and!; try done.
    by apply new_events_app.
  - cbn [fst snd]. split_and!; try done. apply new_events_refl.
Qed.

(** The events of any call are at most one for each handler found, or
    one. *)
Lemma method_bound (method : string) (lvl : Z) (self : TidyLogger) (message : string)
    (args : list Py.value) (kwargs : Py.keywords) (w : World) :
  let call := (lift (bind_keywords ("TidyLogger." +:+ method) ["self"; "message"] [] true
                       kwargs) ;;
               Logger_method method lvl (logger self) message args kwargs) w in
  (length (new_events w (snd call)) ≤ Nat.max 1 (length (found w (logger self))))%nat
  ∧ loggerDict (snd call) = loggerDict w.
Proof.
  intros call. subst call. rewrite method_eq.
  destruct (keyword_error method _ kwargs).
  { cbn [snd]. rewrite new_events_refl. simpl. split; [lia | done]. }
  destruct (isEnabledFor w (logger self) lvl).
  - destruct (callHandlers_frame (logger self) lvl message w)
      as (r & t & sw & -> & Hl & _). cbn [snd].
    rewrite (new_events_app w _ t) by done. done.
  - cbn [snd]. rewrite new_events_refl. simpl. split; [lia | done].
Qed.

End MethodFacts.

Module LineageFacts.
Import PyStr PyStrFacts pathlib logging TidyLogger FacadeFacts HandlingFacts.

Lemma len_take_le (n : nat) (s : string) : (len (take n s) ≤ n)%nat.
Proof.
  unfold len. revert s. induction n as [|n IH]; intros s; [simpl; lia |].
  destruct s as [|a s]; simpl; [lia |]. specialize (IH s). lia.
Qed.

Lemma len_take_lt (n : nat) (s : string) :
  (n < len s)%nat → len (take n s) = n.
Proof.
  unfold len. revert s. induction n as [|n IH]; intros s H; [done |].
  destruct s as [|a s]; simpl in *; [lia |]. rewrite IH; [done | lia].
Qed.

(** The ancestors that are enumerated are proper prefixes. *)
Lemma ancestors_shorter (fuel : nat) (name : string) (i : Z) :
  (i < Z.of_nat (len name))%Z →
  Forall (λ x, (len x < len name)%nat) (ancestors fuel name i).
Proof.
  revert i. induction fuel as [|fuel IH]; intros i Hi; simpl; [constructor |].
  destruct (Z.ltb_spec 0 i) as [H0|H0]; [|constructor].
  constructor.
  - rewrite len_take_lt; lia.
  - apply IH.
    pose proof (rfind_bounds "." (take (Z.to_nat i - 1) name)) as Hb.
    pose proof (len_take_le (Z.to_nat i - 1) name). lia.
Qed.

Lemma Logger_parent_cases (w : World) (name p : string) :
  Logger_parent w name = Some p → p = "root" ∨ (len p < len name)%nat.
Proof.
  unfold Logger_parent. destruct (String.eqb name "root"); [done |].
  intros [= <-].
  pose proof (ancestors_shorter (len name) name (rfind "." name)) as Hs.
  pose proof (rfind_bounds "." name) as Hb. specialize (Hs ltac:(lia)).
  destruct (filter _ _) as [|x l] eqn:E; simpl; [by left |].
  right. assert (x ∈ x :: l) as Hin by apply list_elem_of_here.
  rewrite <- E in Hin. apply list_elem_of_filter in Hin as [_ Hin].
  by apply (proj1 (Forall_forall _ _) Hs).
Qed.

(** The fuel of [lineage] is enough: the lineage of every logger ends at
    the root. *)
Lemma lineage_from_root (fuel : nat) (w : World) (name : string) :
  (len name + 2 ≤ fuel)%nat → last (lineage_from fuel w name) = Some "root".
Proof.
  revert name. induction fuel as [|fuel IH]; intros name Hf; [lia |].
  simpl. destruct (Logger_parent w name) as [p|] eqn:E.
  - assert (last (lineage_from fuel w p) = Some "root") as Hl.
    { destruct (Logger_parent_cases _ _ _ E) as [->|Hlt].
      - destruct fuel as [|fuel']; [lia |]. reflexivity.
      - apply IH. lia. }
    destruct (lineage_from fuel w p) as [|x l]; [done |]. by rewrite last_cons, Hl.
  - unfold Logger_parent in E. destruct (String.eqb_spec name "root") as [->|]; done.
Qed.

Lemma lineage_root (w : World) (name : string) :
  last (lineage w name) = Some "root".
Proof. apply lineage_from_root. lia. Qed.

End LineageFacts.

(** * The claims on the path resolver *)

Import PyStr PyStrFacts pathlibFacts ResolverFacts FacadeFacts.
Import HandlingFacts MethodFacts LineageFacts.

(** C2, as amended.  For every name (string or path) that passes the
    checks: when its path has a last component, resolving with the date
    suffix yields a path whose stem is the original stem, an underscore and
    the date, whose extension is the original one when there was one and
    the default one otherwise, and whose parent is the original parent;
    when its path has no last component, resolving raises [ValueError]. *)
Theorem C2_dated_name_amended (os : os_name) (now : date)
    (file_name : file_name_arg) (s : string) :
  names file_name s →
  passes_checks os (Path os s) = true →
  (pathlib.name (Path os s) ≠ "" →
   ∃ q, _create_file_path os now file_name true = Py.Return q
        ∧ stem q = stem (Path os s) +:+ "_" +:+ strftime_Ymd now
        ∧ suffix q = (if nonempty (suffix (Path os s)) then suffix (Path os s)
                      else DEFAULT_FILE_EXTENSION)
        ∧ parent q = parent (Path os s))
  ∧ (pathlib.name (Path os s) = "" →
     ∃ m, _create_file_path os now file_name true = Py.Raise (Py.ValueError m)).
Proof.
  intros Hn Hc. set (p := Path os s) in *.
  rewrite (create_file_path_names _ _ _ _ _ Hn). fold p. split.
  - intros Hnm.
    rewrite resolve_path_dated; [|done|done|apply name_parse_no_sep].
    eexists. split; [done |].
    destruct (replace_last_name p (dated_name (strftime_Ymd now) p) Hnm) as [Hq Hpar].
    unfold stem at 1, suffix at 1. rewrite Hq. unfold dated_name.
    destruct (dated_name_split (stem p) (strftime_Ymd now)
                (if nonempty (suffix p) then suffix p else DEFAULT_FILE_EXTENSION))
      as [Hst Hsf].
    { destruct (nonempty (suffix p)) eqn:E; [|by left].
      right. exists (pathlib.name p). split; [done | by apply nonempty_true]. }
    by rewrite Hst, Hsf.
  - intros Hnm. rewrite (resolve_path_no_name _ _ _ _ Hc Hnm). by eexists.
Qed.

(** C2, a witness: the name [parent_dir/test_log.txt] of the tests, and
    the name [/]. *)
Lemma C2_dated_name_witness :
  (∃ q, _create_file_path posix a_date (FnStr "parent_dir/test_log.txt") true
        = Py.Return q
        ∧ stem q = stem (Path posix "parent_dir/test_log.txt") +:+ "_"
                     +:+ strftime_Ymd a_date
        ∧ suffix q = (if nonempty (suffix (Path posix "parent_dir/test_log.txt"))
                      then suffix (Path posix "parent_dir/test_log.txt")
                      else DEFAULT_FILE_EXTENSION)
        ∧ parent q = parent (Path posix "parent_dir/test_log.txt"))
  ∧ (∃ m, _create_file_path posix a_date (FnStr "/") true = Py.Raise (Py.ValueError m)).
Proof.
  split.
  - apply (proj1 (C2_dated_name_amended posix a_date
                    (FnStr "parent_dir/test_log.txt") "parent_dir/test_log.txt"
                    (or_introl eq_refl) eq_refl)).
    vm_compute; discriminate.
  - apply (proj2 (C2_dated_name_amended posix a_date (FnStr "/") "/"
                    (or_introl eq_refl) eq_refl)).
    vm_compute; reflexivity.
Defined.

(** C2, as stated, fails: the name [.] is a non-empty string that passes
    every check, and resolving it with the date suffix raises. *)
Lemma C2_dated_name_counterexample :
  "." ≠ ""
  ∧ passes_checks posix (Path posix ".") = true
  ∧ _create_file_path posix a_date (FnStr ".") true
    = Py.Raise (Py.ValueError "PosixPath('.') has an empty name").
Proof. split; [discriminate |]. split; vm_compute; reflexivity. Qed.

(** C5, as amended.  Under [nt] the resolver raises [ValueError] for
    every name whose normalised string, [str(Path(name))], holds a
    character of the invalid set, and for every name one of whose
    components has a stem that upper-cases to a reserved device name.
    Elsewhere neither check is made: no name is refused with either
    message, and a name is taken when it is not blank, holds no null byte
    and has a last component. *)
Theorem C5_platform_checks_amended (now : date) (file_name : file_name_arg)
    (s : string) (flag : bool) :
  names file_name s →
  ((∃ c, c ∈ invalid_chars ∧ contains c (str nt (Path nt s)) = true) →
   ∃ m, _create_file_path nt now file_name flag = Py.Raise (Py.ValueError m))
  ∧ ((∃ part, part ∈ parts (Path nt s) ∧ upper (stem (Path nt part)) ∈ reserved) →
     ∃ m, _create_file_path nt now file_name flag = Py.Raise (Py.ValueError m))
  ∧ (∀ e, _create_file_path posix now file_name flag = Py.Raise e →
          Py.message e ≠ msg_chars ∧ Py.message e ≠ msg_reserved)
  ∧ (passes_checks posix (Path posix s) = true →
     pathlib.name (Path posix s) ≠ "" →
     ∃ q, _create_file_path posix now file_name flag = Py.Return q).
Proof.
  intros Hn. split_and!.
  - intros (c & Hc & Hs). apply checks_fail_raises with s; [done |].
    unfold passes_checks. rewrite (has_invalid_char_true _ _ Hc Hs).
    by rewrite andb_false_r.
  - intros (part & Hp & Hr). apply checks_fail_raises with s; [done |].
    unfold passes_checks. rewrite (has_reserved_part_true _ _ _ Hp Hr).
    by rewrite !andb_false_r.
  - intros e. rewrite (create_file_path_names _ _ _ _ _ Hn).
    intros (m & -> & Hm)%resolve_path_raises. simpl.
    destruct Hm as [->|[->|[[? _]|[Hm|[Hm|Hm]]]]]; try done;
      split; intros ->; discriminate.
  - intros Hc Hnm. by apply passed_name_returns with s.
Qed.

(** C5, a witness: the two names of the tests are refused under [nt] and
    taken under [posix]. *)
Lemma C5_platform_checks_witness :
  (∃ m, _create_file_path nt a_date (FnStr "inva|id:log*name?.log") true
        = Py.Raise (Py.ValueError m))
  ∧ (∃ m, _create_file_path nt a_date (FnStr "boa/null/aux.log") true
          = Py.Raise (Py.ValueError m))
  ∧ (∃ q, _create_file_path posix a_date (FnStr "boa/null/aux.log") true
          = Py.Return q).
Proof.
  split; [|split].
  - apply (proj1 (C5_platform_checks_amended a_date
                    (FnStr "inva|id:log*name?.log") "inva|id:log*name?.log" true
                    (or_introl eq_refl))).
    exists "|"%char. split; [|vm_compute; reflexivity].
    unfold invalid_chars. do 6 apply list_elem_of_further. apply list_elem_of_here.
  - apply (proj1 (proj2 (C5_platform_checks_amended a_date
                           (FnStr "boa/null/aux.log") "boa/null/aux.log" true
                           (or_introl eq_refl)))).
    exists "aux.log". split.
    + do 2 apply list_elem_of_further. apply list_elem_of_here.
    + do 2 apply list_elem_of_further. apply list_elem_of_here.
  - apply (proj2 (proj2 (proj2 (C5_platform_checks_amended a_date
                                  (FnStr "boa/null/aux.log") "boa/null/aux.log" true
                                  (or_introl eq_refl))))).
    + vm_compute; reflexivity.
    + vm_compute; discriminate.
Defined.

(** C5, as stated, fails twice.  Under [nt] the name [a/] holds the
    separator [/], a character of the set, but its normalised string is
    [a], and the resolver returns a path.  Under [posix] the name [/],
    which holds that character too, is not accepted: it has no last
    component, and the resolver raises. *)
Lemma C5_platform_checks_counterexample :
  ("/"%char ∈ invalid_chars
   ∧ contains "/" "a/" = true
   ∧ str nt (Path nt "a/") = "a"
   ∧ _create_file_path nt a_date (FnStr "a/") true
     = Py.Return (mkPath "" "" ["a_20240102.log"]))
  ∧ (contains "/" "/" = true
     ∧ _create_file_path posix a_date (FnStr "/") true
       = Py.Raise (Py.ValueError "PosixPath('/') has an empty name")).
Proof.
  split_and!; try (vm_compute; reflexivity).
  unfold invalid_chars. do 4 apply list_elem_of_further. apply list_elem_of_here.
Qed.

(** C8, as amended.  For every value that is neither [None], nor a
    string, nor a path, the resolver raises [ValueError] with the message
    about the type; the exceptions it raises for strings and paths are of
    the same class, [ValueError], and never carry that message. *)
Theorem C8_other_type_amended (os : os_name) (now : date) (v : other_value)
    (flag : bool) :
  _create_file_path os now (FnOther v) flag = Py.Raise (Py.ValueError msg_type)
  ∧ ∀ file_name s e,
      names file_name s →
      _create_file_path os now file_name flag = Py.Raise e →
      Py.class_of e = Py.ValueError_cls ∧ Py.message e ≠ msg_type.
Proof.
  split; [done |]. intros file_name s e Hn.
  rewrite (create_file_path_names _ _ _ _ _ Hn).
  intros (m & -> & Hm)%resolve_path_raises. split; [done |]. simpl.
  destruct Hm as [->|[->|[[_ [->| ->]]|[Hm|[Hm|Hm]]]]]; try done;
    intros ->; discriminate.
Qed.

(** C8, a witness: the integer [5], against the blank name. *)
Lemma C8_other_type_witness :
  _create_file_path posix a_date (FnOther (PyInt 5)) true
  = Py.Raise (Py.ValueError msg_type)
  ∧ _create_file_path posix a_date (FnStr "  ") true
    = Py.Raise (Py.ValueError msg_empty)
  ∧ Py.class_of (Py.ValueError msg_empty) = Py.ValueError_cls
  ∧ Py.message (Py.ValueError msg_empty) ≠ msg_type.
Proof.
  split; [|split].
  - apply (proj1 (C8_other_type_amended posix a_date (PyInt 5) true)).
  - vm_compute; reflexivity.
  - apply (proj2 (C8_other_type_amended posix a_date (PyInt 5) true)
             (FnStr "  ") "  " (Py.ValueError msg_empty) (or_introl eq_refl)).
    vm_compute; reflexivity.
Defined.

(** C8, as stated, fails: the exception for an integer and the exception
    for a blank name are of one class. *)
Lemma C8_other_type_counterexample :
  ∃ e1 e2,
    _create_file_path posix a_date (FnOther (PyInt 5)) true = Py.Raise e1
    ∧ _create_file_path posix a_date (FnStr "  ") true = Py.Raise e2
    ∧ Py.class_of e1 = Py.class_of e2.
Proof.
  exists (Py.ValueError msg_type), (Py.ValueError msg_empty).
  split; [|split]; vm_compute; reflexivity.
Qed.

(** C7. With no file name the resolver returns the relative path made of
    the default stem, the date and the default extension when the date
    suffix is asked for, and the default stem with the default extension
    otherwise; in both cases the parent is the current directory. *)
Theorem C7_absent_name (os : os_name) (now : date) :
  (∃ q, _create_file_path os now FnNone true = Py.Return q
        ∧ str os q = "log_" +:+ strftime_Ymd now +:+ ".log"
        ∧ stem q = "log_" +:+ strftime_Ymd now
        ∧ suffix q = ".log"
        ∧ anchored q = false
        ∧ parent q = Path os ".")
  ∧ (∃ q, _create_file_path os now FnNone false = Py.Return q
          ∧ str os q = "log.log"
          ∧ stem q = "log"
          ∧ suffix q = ".log"
          ∧ anchored q = false
          ∧ parent q = Path os ".").
Proof.
  split.
  - eexists. split; [done |]. unfold Path.
    rewrite (parse_single _ _ (default_dated_plain os now)).
    pose proof (dated_name_split "log" (strftime_Ymd now) ".log" (or_introl eq_refl))
      as [Hst Hsf].
    split_and!.
    + by apply str_single.
    + exact Hst.
    + exact Hsf.
    + done.
    + by destruct os.
  - exists (mkPath "" "" ["log.log"]). by destruct os.
Qed.

(** * The claims on the facade *)

(** C1.  If the logger under the effective name has handlers, a
    construction performs no effect, creates no handler, leaves the
    handler list and every other logger as they were, and does not depend
    on the file arguments; over any run of constructions with one name the
    handlers are those of the first construction that attached any, at most
    two, so that one [info] call, whatever its arguments, has at most two
    records handled besides those that go to the handlers of the loggers
    above. *)
Theorem C1_idempotency_guard (os : os_name) (key : string) (w : World) :
  (∀ now a,
     logger_key (logger_name a) = key →
     handlers (lookup_logger w key) ≠ [] →
     let w' := snd (__init__ os now a w) in
     trace w' = trace w
     ∧ next_id w' = next_id w
     ∧ handlers (lookup_logger w' key) = handlers (lookup_logger w key)
     ∧ (∀ k, k ≠ key → lookup_logger w' k = lookup_logger w k)
     ∧ (∀ fn fm ads rot mb bc,
          __init__ os now
            (mkArgs fn fm (console_level a) (file_level a) (name a) ads rot mb bc) w
          = __init__ os now a w))
  ∧ (∀ l,
       Forall (λ na : date * init_args, logger_key (logger_name (snd na)) = key) l →
       let hs := handlers (lookup_logger w key) in
       let w' := construct_all os l w in
       let hs' := handlers (lookup_logger w' key) in
       (hs ≠ [] → hs' = hs)
       ∧ (hs = [] →
          (length hs' ≤ 2)%nat
          ∧ ∀ message args kwargs,
              (length (new_events w'
                         (snd (info (mkTidyLogger key) message args kwargs w')))
               ≤ 2 + length (found_above w' key))%nat)).
Proof.
  split.
  - intros now a <- Hne w'.
    destruct (init_frame os now a w) as (_ & Hk & Hg & _).
    destruct (Hg Hne) as (Hh & Ht & Hn). split_and!; try done.
    intros fn fm ads rot mb bc.
    rewrite !init_guarded; done.
  - intros l.
    assert (∀ w0, let hs := handlers (lookup_logger w0 key) in
                  let hs' := handlers (lookup_logger (construct_all os l w0) key) in
                  Forall (λ na : date * init_args,
                            logger_key (logger_name (snd na)) = key) l →
                  (hs ≠ [] → hs' = hs) ∧ (hs = [] → (length hs' ≤ 2)%nat)) as Hrun.
    { induction l as [|[now a] l IH]; intros w0 hs hs' Hall.
      - subst hs hs'. simpl. split; [done |]. intros ->. simpl. lia.
      - apply Forall_cons in Hall as [Ha Hall]. simpl in Ha.
        destruct (init_frame os now a w0) as (_ & _ & Hg & Hf).
        rewrite Ha in Hg, Hf.
        destruct (IH (snd (__init__ os now a w0)) Hall) as [IH1 IH2].
        subst hs hs'. simpl. split.
        + intros Hne. destruct (Hg Hne) as (Hh & _ & _).
          rewrite IH1; [done |]. by rewrite Hh.
        + intros He. specialize (Hf He).
          destruct (handlers (lookup_logger (snd (__init__ os now a w0)) key))
            as [|h t] eqn:E.
          * by apply IH2.
          * rewrite IH1 by done. done. }
    intros Hall hs w' hs'. destruct (Hrun w Hall) as [H1 H2].
    split; [exact H1 |]. intros He. specialize (H2 He). split; [exact H2 |].
    intros message args kwargs.
    assert (length (new_events w'
                      (snd (info (mkTidyLogger key) message args kwargs w')))
            ≤ Nat.max 1 (length (found w' key)))%nat as Hn
      by exact (proj1 (method_bound "info" INFO (mkTidyLogger key) message args kwargs w')).
    rewrite found_split, length_app in Hn. subst hs' w'. lia.
Qed.

(** C1, a witness: a second construction with other arguments, after a
    first one on the empty process. *)
Lemma C1_idempotency_guard_witness :
  let w := snd (__init__ posix a_date default_args quiet_world) in
  let a := mkArgs (FnStr "other/name.txt") "w" (LevelInt ERROR) (LevelInt ERROR) None
             false true 1024 3 in
  handlers (lookup_logger w "TidyLogger") ≠ []
  ∧ let w' := snd (__init__ posix a_date a w) in
    trace w' = trace w
    ∧ next_id w' = next_id w
    ∧ handlers (lookup_logger w' "TidyLogger") = handlers (lookup_logger w "TidyLogger")
    ∧ (∀ k, k ≠ "TidyLogger" → lookup_logger w' k = lookup_logger w k)
    ∧ (∀ fn fm ads rot mb bc,
         __init__ posix a_date
           (mkArgs fn fm (console_level a) (file_level a) (name a) ads rot mb bc) w
         = __init__ posix a_date a w).
Proof.
  intros w a. split; [vm_compute; discriminate |].
  apply (proj1 (C1_idempotency_guard posix "TidyLogger" w) a_date a).
  - reflexivity.
  - vm_compute; discriminate.
Defined.

(** C10.  On a logger that has handlers, a construction returns and
    changes exactly one thing: the level of the logger, which becomes the
    level of [min(console_level, file_level)]; for integer levels that is
    their minimum. *)
Theorem C10_level_set_before_guard (os : os_name) (now : date) (a : init_args)
    (w : World) (m : level_arg) (n : Z) :
  let key := logger_key (logger_name a) in
  handlers (lookup_logger w key) ≠ [] →
  py_min (console_level a) (file_level a) = Py.Return m →
  _checkLevel m = Py.Return n →
  __init__ os now a w
  = (Py.Return (mkTidyLogger key),
     set_logger key (mkLogger n (handlers (lookup_logger w key))) w)
  ∧ level (lookup_logger (snd (__init__ os now a w)) key) = n
  ∧ (∀ c f, console_level a = LevelInt c → file_level a = LevelInt f → n = Z.min c f).
Proof.
  intros key Hne Hm Hn.
  assert (__init__ os now a w
          = (Py.Return (mkTidyLogger key),
             set_logger key (mkLogger n (handlers (lookup_logger w key))) w)) as E.
  { rewrite init_guarded by done. fold key. by rewrite Hm, Hn. }
  split_and!; [done | |].
  - rewrite E. simpl. by rewrite lookup_set_eq.
  - intros c f Hc Hf. rewrite Hc, Hf, py_min_int in Hm.
    injection Hm as <-. simpl in Hn. congruence.
Qed.

(** C10, a witness: the second construction raises the level of the
    logger from 10 to 40 and changes nothing else. *)
Lemma C10_level_set_before_guard_witness :
  let w := snd (__init__ posix a_date default_args quiet_world) in
  let a := mkArgs FnNone "a" (LevelInt ERROR) (LevelInt CRITICAL) None true false 0 0 in
  level (lookup_logger w "TidyLogger") = 10%Z
  ∧ __init__ posix a_date a w
    = (Py.Return (mkTidyLogger "TidyLogger"),
       set_logger "TidyLogger"
         (mkLogger 40 (handlers (lookup_logger w "TidyLogger"))) w)
  ∧ level (lookup_logger (snd (__init__ posix a_date a w)) "TidyLogger") = 40%Z
  ∧ (∀ c f, console_level a = LevelInt c → file_level a = LevelInt f → 40%Z = Z.min c f).
Proof.
  intros w a. split; [vm_compute; reflexivity |].
  apply (C10_level_set_before_guard posix a_date a w (LevelInt ERROR) 40).
  - vm_compute; discriminate.
  - vm_compute; reflexivity.
  - reflexivity.
Defined.

(** C4.  A name that is blank or holds a null byte once normalised, and
    the empty name, make the resolver raise [ValueError]; a construction
    with such a name performs no effect, creates no handler and attaches
    none, and on a logger without handlers it raises that error. *)
Theorem C4_invalid_name (os : os_name) (now : date) (a : init_args) (s : string)
    (w : World) :
  names (file_name a) s →
  all_space (str os (Path os s)) = true
  ∨ contains "000" (str os (Path os s)) = true ∨ s = "" →
  let key := logger_key (logger_name a) in
  let r := fst (__init__ os now a w) in
  let w' := snd (__init__ os now a w) in
  (∃ m, _create_file_path os now (file_name a) (add_date_suffix_to_file_name a)
        = Py.Raise (Py.ValueError m))
  ∧ trace w' = trace w
  ∧ next_id w' = next_id w
  ∧ (∀ k, handlers (lookup_logger w' k) = handlers (lookup_logger w k))
  ∧ (handlers (lookup_logger w key) = [] →
     ∀ lvl n, py_min (console_level a) (file_level a) = Py.Return lvl →
              _checkLevel lvl = Py.Return n →
              ∃ m, r = Py.Raise (Py.ValueError m)).
Proof.
  intros Hn Hbad key r w'.
  destruct (bad_name_raises os now (file_name a) s (add_date_suffix_to_file_name a)
              Hn Hbad) as [m Hm].
  split; [by exists m |].
  assert (∀ lg, handlers lg = handlers (lookup_logger w key) →
                ∀ k, handlers (lookup_logger (set_logger key lg w) k)
                     = handlers (lookup_logger w k)) as Hset.
  { intros lg Hlg k. destruct (decide (key = k)) as [<-|Hk].
    - by rewrite lookup_set_eq.
    - by rewrite lookup_set_ne. }
  subst r w'. rewrite init_eq. fold key.
  destruct (py_min _ _) as [lvl|e]; simpl.
  2:{ split_and!; try done. by apply Hset. }
  destruct (_checkLevel lvl) as [n|e] eqn:Elvl; simpl.
  2:{ split_and!; try done; [by apply Hset |].
      intros _ lvl' n' [= <-] Hn'. congruence. }
  destruct (handlers (lookup_logger w key)) as [|h0 hs0] eqn:Hhs.
  - pose proof (attach_sinks_cases os now a key (set_logger key (mkLogger n []) w)) as Hc.
    rewrite lookup_set_eq in Hc. specialize (Hc eq_refl).
    destruct (attach_sinks _ _ _ _ _) as [[[]|e] w2]; simpl.
    + destruct Hc as (p & f & c & Hp & _). congruence.
    + destruct Hc as [[He ->]|(p & Hp & _)]; [|congruence].
      split_and!; try done.
      * by apply Hset.
      * intros _ lvl' n' _ _. exists m. congruence.
  - simpl. split_and!; try done. by apply Hset.
Qed.

(** C4, a witness: the blank name on the empty process. *)
Lemma C4_invalid_name_witness :
  let a := mkArgs (FnStr "   ") "a" (LevelInt INFO) (LevelInt DEBUG) None true false 0 0 in
  let r := fst (__init__ posix a_date a quiet_world) in
  let w' := snd (__init__ posix a_date a quiet_world) in
  (∃ m, _create_file_path posix a_date (FnStr "   ") true = Py.Raise (Py.ValueError m))
  ∧ trace w' = []
  ∧ next_id w' = 0%nat
  ∧ (∀ k, handlers (lookup_logger w' k) = handlers (lookup_logger quiet_world k))
  ∧ ∃ m, r = Py.Raise (Py.ValueError m).
Proof.
  intros a r w'.
  destruct (C4_invalid_name posix a_date a "   " quiet_world)
    as (H1 & H2 & H3 & H4 & H5).
  - left; reflexivity.
  - left; vm_compute; reflexivity.
  - split_and!; try done.
    apply (H5 eq_refl (LevelInt DEBUG) 10%Z); reflexivity.
Defined.




(** With level names the builtin [min] compares the names, not the
    severities: for [WARNING] and [ERROR] it picks [ERROR], and the logger
    then drops the warnings that the console sink would take. *)
Example py_min_of_level_names :
  py_min (LevelStr "WARNING") (LevelStr "ERROR") = Py.Return (LevelStr "ERROR")
  ∧ _checkLevel (LevelStr "ERROR") = Py.Return 40%Z
  ∧ _checkLevel (LevelStr "WARNING") = Py.Return 30%Z.
Proof. split_and!; reflexivity. Qed.

(** C3.  [close] never raises, whatever the flushes and closes do; it
    tries to flush and to close every attached handler in turn and leaves
    the logger without handlers; a second [close] changes nothing; and a
    later construction with the same name attaches the two sinks again. *)
Theorem C3_close (os : os_name) (now : date) (self : TidyLogger) (w : World) :
  let r := fst (close self w) in
  let w1 := snd (close self w) in
  r = Py.Return tt
  ∧ trace w1 = trace w ++ flat_map flush_close (handlers (lookup_logger w (logger self)))
  ∧ handlers (lookup_logger w1 (logger self)) = []
  ∧ close self w1 = (Py.Return tt, w1)
  ∧ (∀ a m f c p,
       logger_key (logger_name a) = logger self →
       py_min (console_level a) (file_level a) = Py.Return m →
       _checkLevel (file_level a) = Py.Return f →
       _checkLevel (console_level a) = Py.Return c →
       _create_file_path os now (file_name a) (add_date_suffix_to_file_name a)
       = Py.Return p →
       fs_ok w →
       fst (__init__ os now a w1) = Py.Return self
       ∧ handlers (lookup_logger (snd (__init__ os now a w1)) (logger self))
         = [file_sink a p (next_id w1) f; console_sink (S (next_id w1)) c]).
Proof.
  intros r w1. subst r w1.
  destruct (close_spec self w) as (w1 & E & Ht & Hn & Hi & Hh & _ & _).
  rewrite E. cbn [fst snd]. split_and!; try done.
  - by apply close_no_handlers.
  - intros a m f c p Hkey Hm Hf Hc Hp Hfs.
    assert (fs_ok w1) as Hfs1 by (intros tr e; rewrite Hi; apply Hfs).
    rewrite <- Hkey in Hh.
    destruct (init_fresh_success os now a w1 m f c p Hh Hm Hf Hc Hp Hfs1) as (n & _ & ->).
    cbn [fst snd]. rewrite Hkey, lookup_attached. simpl.
    split; [by destruct self |]. done.
Qed.

(** C3, a witness: a facade on a process in which every flush and every
    close fails; [close] returns all the same, and the next construction
    attaches two sinks again. *)
Lemma C3_close_witness :
  let self := mkTidyLogger "TidyLogger" in
  let w := snd (__init__ posix a_date default_args failing_world) in
  let w1 := snd (close self w) in
  length (handlers (lookup_logger w "TidyLogger")) = 2%nat
  ∧ fst (close self w) = Py.Return tt
  ∧ handlers (lookup_logger w1 "TidyLogger") = []
  ∧ close self w1 = (Py.Return tt, w1)
  ∧ fst (__init__ posix a_date default_args w1) = Py.Return self
  ∧ length (handlers (lookup_logger (snd (__init__ posix a_date default_args w1))
                        "TidyLogger")) = 2%nat.
Proof.
  intros self w w1.
  destruct (C3_close posix a_date self w) as (H1 & _ & H3 & H4 & H5).
  destruct (H5 default_args (LevelInt DEBUG) 10%Z 20%Z
              (mkPath "" "" ["log_20240102.log"])) as [H6 H7];
    try (vm_compute; reflexivity).
  { intros tr []; exact I || reflexivity. }
  split_and!; try done.
Defined.

(** C9.  [close] tries to flush and to close, and removes, every handler
    that is attached to the logger, whoever attached it. *)
Theorem C9_close_all (self : TidyLogger) (w : World) (h : Handler) :
  h ∈ handlers (lookup_logger w (logger self)) →
  let w' := snd (close self w) in
  (∃ t, trace w' = (trace w ++ t) ∧ Flush (h_id h) ∈ t ∧ Close (h_id h) ∈ t)
  ∧ (h ∉ handlers (lookup_logger w' (logger self)))
  ∧ handlers (lookup_logger w' (logger self)) = [].
Proof.
  intros Hin w'. subst w'.
  destruct (close_spec self w) as (w1 & E & Ht & _ & _ & Hh & _ & _).
  rewrite E. cbn [fst snd]. split_and!.
  - eexists. split; [exact Ht |].
    split; apply list_elem_of_In, in_flat_map; exists h;
      (split; [by apply list_elem_of_In | simpl; auto]).
  - rewrite Hh. apply not_elem_of_nil.
  - done.
Qed.

(** C9, a witness: two facades on one name and a handler that other code
    attached; closing the second facade removes all three handlers. *)
Lemma C9_close_all_witness :
  let external := mkHandler 7 (OtherHandler "SMTPHandler") None 0 in
  let w1 := snd (__init__ posix a_date default_args quiet_world) in
  let w2 := snd (__init__ posix a_date default_args w1) in
  let w3 := snd (Logger_addHandler "TidyLogger" external w2) in
  let second := mkTidyLogger "TidyLogger" in
  length (handlers (lookup_logger w3 "TidyLogger")) = 3%nat
  ∧ fst (__init__ posix a_date default_args w1) = Py.Return second
  ∧ (∃ t, trace (snd (close second w3)) = (trace w3 ++ t)
          ∧ Flush 7 ∈ t ∧ Close 7 ∈ t)
  ∧ (external ∉ handlers (lookup_logger (snd (close second w3)) "TidyLogger"))
  ∧ handlers (lookup_logger (snd (close second w3)) "TidyLogger") = [].
Proof.
  intros external w1 w2 w3 second.
  split; [vm_compute; reflexivity |].
  split; [vm_compute; reflexivity |].
  apply (C9_close_all second w3 external).
  assert (handlers (lookup_logger w3 (logger second))
          = handlers (lookup_logger w2 "TidyLogger") ++ [external]) as ->
    by (vm_compute; reflexivity).
  apply elem_of_app. right. apply list_elem_of_here.
Defined.

(** * Further properties of the path resolver *)

Module ResolvedShapeFacts.

(** A name that the resolver takes has passed the checks and has a last
    component. *)
Lemma returns_passed (os : os_name) (now : date) (file_name : file_name_arg)
    (s : string) (flag : bool) (q : PurePath) :
  names file_name s →
  _create_file_path os now file_name flag = Py.Return q →
  passes_checks os (Path os s) = true ∧ pathlib.name (Path os s) ≠ "".
Proof.
  intros Hn. rewrite (create_file_path_names _ _ _ _ _ Hn).
  destruct (passes_checks os (Path os s)) eqn:Hc.
  - intros Hq. split; [done |]. intros Hnm.
    by rewrite (resolve_path_no_name _ _ _ _ Hc Hnm) in Hq.
  - destruct (resolve_path_failed os (strftime_Ymd now) _ flag Hc) as (m & -> & _).
    discriminate.
Qed.

(** The shape of the result with the date suffix. *)
Lemma dated_shape (os : os_name) (now : date) (s : string) :
  let p := Path os s in
  passes_checks os p = true → pathlib.name p ≠ "" →
  ∃ q, resolve_path os (strftime_Ymd now) p true = Py.Return q
       ∧ pathlib.name q = dated_name (strftime_Ymd now) p
       ∧ stem q = stem p +:+ "_" +:+ strftime_Ymd now
       ∧ suffix q = (if nonempty (suffix p) then suffix p else DEFAULT_FILE_EXTENSION)
       ∧ parent q = parent p
       ∧ _drv q = _drv p ∧ _root q = _root p
       ∧ length (_parts q) = length (_parts p).
Proof.
  intros p Hc Hnm.
  rewrite resolve_path_dated; [|done|done|apply name_parse_no_sep].
  eexists. split; [done |].
  destruct (replace_last_name p (dated_name (strftime_Ymd now) p) Hnm) as [Hq Hpar].
  destruct (dated_name_split (stem p) (strftime_Ymd now)
              (if nonempty (suffix p) then suffix p else DEFAULT_FILE_EXTENSION))
    as [Hst Hsf].
  { destruct (nonempty (suffix p)) eqn:E; [|by left].
    right. exists (pathlib.name p). split; [done | by apply nonempty_true]. }
  split_and!; try done.
  - unfold stem at 1. by rewrite Hq.
  - unfold suffix at 1. by rewrite Hq.
  - simpl. apply length_removelast_snoc.
    destruct (name_cases p) as [E|[_ Hl]]; [done |].
    destruct (anchored p); [|done]. intros E. rewrite E in Hl. simpl in Hl. lia.
Qed.

(** The shape of the result without it. *)
Lemma undated_shape (os : os_name) (dt : string) (s : string) :
  let p := Path os s in
  passes_checks os p = true → pathlib.name p ≠ "" →
  ∃ q, resolve_path os dt p false = Py.Return q
       ∧ stem q = stem p
       ∧ suffix q = (if nonempty (suffix p) then suffix p else DEFAULT_FILE_EXTENSION)
       ∧ parent q = parent p
       ∧ pathlib.name q ≠ ""
       ∧ _drv q = _drv p ∧ _root q = _root p
       ∧ length (_parts q) = length (_parts p)
       ∧ (suffix p ≠ "" → q = p).
Proof.
  intros p Hc Hnm. rewrite resolve_path_undated by done.
  eexists. split; [done |].
  destruct (String.eqb_spec (suffix p) "") as [E|E].
  - destruct (replace_last_name p (pathlib.name p +:+ DEFAULT_FILE_EXTENSION) Hnm)
      as [Hq Hpar].
    destruct (stem_suffix_join (pathlib.name p) "log") as [Hst Hsf]; try done.
    unfold stem at 1, suffix at 1. rewrite Hq.
    replace (nonempty (suffix p)) with false by (symmetry; by apply nonempty_false).
    split_and!; try done.
    + unfold stem. rewrite (stem_of_no_suffix _ E). exact Hst.
    + intros [? _]%append_empty. done.
    + simpl. apply length_removelast_snoc.
      destruct (name_cases p) as [E'|[_ Hl]]; [done |].
      destruct (anchored p); [|done]. intros E'. rewrite E' in Hl. simpl in Hl. lia.
  - replace (nonempty (suffix p)) with true by (symmetry; by apply nonempty_true).
    split_and!; done.
Qed.

End ResolvedShapeFacts.

Import ResolvedShapeFacts.

(** X1.  Without the date suffix, a name that passes the checks and has a
    last component resolves to a path with the same stem and the same
    parent; the extension is the original one when there was one, in which
    case the result is the path of the name itself, and the default one
    otherwise. *)
Theorem X1_undated_name (os : os_name) (now : date) (file_name : file_name_arg)
    (s : string) :
  names file_name s →
  passes_checks os (Path os s) = true →
  pathlib.name (Path os s) ≠ "" →
  ∃ q, _create_file_path os now file_name false = Py.Return q
       ∧ stem q = stem (Path os s)
       ∧ suffix q = (if nonempty (suffix (Path os s)) then suffix (Path os s)
                     else DEFAULT_FILE_EXTENSION)
       ∧ parent q = parent (Path os s)
       ∧ (suffix (Path os s) ≠ "" → q = Path os s).
Proof.
  intros Hn Hc Hnm. rewrite (create_file_path_names _ _ _ _ _ Hn).
  destruct (undated_shape os (strftime_Ymd now) s Hc Hnm)
    as (q & Hq & Hst & Hsf & Hpar & _ & _ & _ & _ & Hsame).
  exists q. split_and!; done.
Qed.

(** X1, a witness: the name [test_log.txt] of the tests resolves to its
    own path. *)
Lemma X1_undated_name_witness :
  ∃ q, _create_file_path posix a_date (FnStr "test_log.txt") false = Py.Return q
       ∧ stem q = "test_log" ∧ suffix q = ".txt"
       ∧ parent q = Path posix "." ∧ q = Path posix "test_log.txt".
Proof.
  destruct (X1_undated_name posix a_date (FnStr "test_log.txt") "test_log.txt")
    as (q & H1 & H2 & H3 & H4 & H5).
  - left; reflexivity.
  - vm_compute; reflexivity.
  - vm_compute; discriminate.
  - exists q. split_and!; [exact H1 | exact H2 | exact H3 | exact H4 |].
    apply H5. vm_compute; discriminate.
Defined.

(** X2.  For a string or a path the resolver returns a path exactly when
    the name passes the checks and has a last component; otherwise it
    raises [ValueError]. *)
Theorem X2_resolver_returns_iff (os : os_name) (now : date)
    (file_name : file_name_arg) (s : string) (flag : bool) :
  names file_name s →
  ((∃ q, _create_file_path os now file_name flag = Py.Return q)
   ↔ passes_checks os (Path os s) = true ∧ pathlib.name (Path os s) ≠ "")
  ∧ ((∃ m, _create_file_path os now file_name flag = Py.Raise (Py.ValueError m))
     ↔ ¬ (passes_checks os (Path os s) = true ∧ pathlib.name (Path os s) ≠ "")).
Proof.
  intros Hn.
  assert ((∃ q, _create_file_path os now file_name flag = Py.Return q)
          ↔ passes_checks os (Path os s) = true ∧ pathlib.name (Path os s) ≠ "") as Hiff.
  { split.
    - intros [q Hq]. by apply (returns_passed os now file_name s flag q).
    - intros [Hc Hnm]. by apply passed_name_returns with s. }
  split; [exact Hiff |]. split.
  - intros [m Hm] Hok. apply Hiff in Hok as [q Hq]. congruence.
  - intros Hno.
    destruct (_create_file_path os now file_name flag) as [q|e] eqn:E.
    + exfalso. apply Hno, Hiff. by exists q.
    + rewrite (create_file_path_names _ _ _ _ _ Hn) in E.
      apply resolve_path_raises in E as (m & -> & _). by exists m.
Qed.

(** X2, a witness: [test_log] is taken, the root [/] is refused. *)
Lemma X2_resolver_returns_iff_witness :
  (∃ q, _create_file_path posix a_date (FnStr "test_log") true = Py.Return q)
  ∧ (∃ m, _create_file_path posix a_date (FnStr "/") true = Py.Raise (Py.ValueError m)).
Proof.
  split.
  - apply (proj1 (X2_resolver_returns_iff posix a_date (FnStr "test_log") "test_log" true
                    (or_introl eq_refl))).
    split; [vm_compute; reflexivity | vm_compute; discriminate].
  - apply (proj2 (X2_resolver_returns_iff posix a_date (FnStr "/") "/" true
                    (or_introl eq_refl))).
    intros [_ H]. apply H. vm_compute; reflexivity.
Defined.

Module DefaultNameFacts.

(** The path of no name at all. *)
Lemma none_shape (os : os_name) (now : date) (flag : bool) :
  ∃ q, _create_file_path os now FnNone flag = Py.Return q
       ∧ pathlib.name q ≠ ""
       ∧ suffix q = DEFAULT_FILE_EXTENSION
       ∧ stem q = (if flag then DEFAULT_FILE_NAME +:+ "_" +:+ strftime_Ymd now
                   else DEFAULT_FILE_NAME)
       ∧ _drv q = "" ∧ _root q = "" ∧ length (_parts q) = 1%nat.
Proof.
  destruct flag.
  - eexists. split; [done |]. unfold Path.
    rewrite (parse_single _ _ (default_dated_plain os now)).
    destruct (dated_name_split "log" (strftime_Ymd now) ".log" (or_introl eq_refl))
      as [Hst Hsf].
    split_and!; try done.
  - exists (mkPath "" "" ["log.log"]). by destruct os.
Qed.

End DefaultNameFacts.

Import DefaultNameFacts.

(** X3.  Every path that the resolver returns, for whatever argument, has
    a last component with a non-empty extension; when the date suffix was
    asked for, its stem ends with an underscore and the date. *)
Theorem X3_resolved_has_extension (os : os_name) (now : date)
    (file_name : file_name_arg) (flag : bool) (q : PurePath) :
  _create_file_path os now file_name flag = Py.Return q →
  pathlib.name q ≠ ""
  ∧ suffix q ≠ ""
  ∧ (flag = true → ∃ st, stem q = st +:+ "_" +:+ strftime_Ymd now).
Proof.
  intros Hq.
  assert (∀ p : PurePath,
            (if nonempty (suffix p) then suffix p else DEFAULT_FILE_EXTENSION) ≠ "")
    as Hsfx.
  { intros p. destruct (nonempty (suffix p)) eqn:E; [by apply nonempty_true | done]. }
  destruct file_name as [|s|s|v]; [| | |done].
  - destruct (none_shape os now flag) as (q' & Hq' & Hn & Hs & Hst & _).
    rewrite Hq in Hq'. injection Hq' as <-.
    split_and!; [done | by rewrite Hs |]. intros ->. by eexists.
  - destruct (returns_passed os now (FnStr s) s flag q (or_introl eq_refl) Hq) as [Hc Hnm].
    simpl in Hq. destruct flag.
    + destruct (dated_shape os now s Hc Hnm) as (q' & Hq' & Hn & Hst & Hsf & _).
      rewrite Hq in Hq'. injection Hq' as <-.
      split_and!.
      * rewrite Hn. intros [_ E]%append_empty. discriminate.
      * rewrite Hsf. apply Hsfx.
      * intros _. by eexists.
    + destruct (undated_shape os (strftime_Ymd now) s Hc Hnm)
        as (q' & Hq' & _ & Hsf & _ & Hn & _).
      rewrite Hq in Hq'. injection Hq' as <-.
      split_and!; [done | rewrite Hsf; apply Hsfx | done].
  - destruct (returns_passed os now (FnPath s) s flag q (or_intror eq_refl) Hq) as [Hc Hnm].
    simpl in Hq. destruct flag.
    + destruct (dated_shape os now s Hc Hnm) as (q' & Hq' & Hn & Hst & Hsf & _).
      rewrite Hq in Hq'. injection Hq' as <-.
      split_and!.
      * rewrite Hn. intros [_ E]%append_empty. discriminate.
      * rewrite Hsf. apply Hsfx.
      * intros _. by eexists.
    + destruct (undated_shape os (strftime_Ymd now) s Hc Hnm)
        as (q' & Hq' & _ & Hsf & _ & Hn & _).
      rewrite Hq in Hq'. injection Hq' as <-.
      split_and!; [done | rewrite Hsf; apply Hsfx | done].
Qed.

(** X3, a witness: the hidden-file name [.config] with the date. *)
Lemma X3_resolved_has_extension_witness :
  let q := mkPath "" "" ["logs"; ".config_20240102.log"] in
  _create_file_path posix a_date (FnStr "logs/.config") true = Py.Return q
  ∧ pathlib.name q ≠ ""
  ∧ suffix q ≠ ""
  ∧ ∃ st, stem q = st +:+ "_" +:+ strftime_Ymd a_date.
Proof.
  intros q.
  assert (_create_file_path posix a_date (FnStr "logs/.config") true = Py.Return q)
    as Hq by (vm_compute; reflexivity).
  destruct (X3_resolved_has_extension posix a_date (FnStr "logs/.config") true q Hq)
    as (H1 & H2 & H3).
  split_and!; [exact Hq | exact H1 | exact H2 | exact (H3 eq_refl)].
Defined.

Module WindowsFacts.

Lemma find_range (c : ascii) (s : string) : find c s = (-1)%Z ∨ (0 ≤ find c s)%Z.
Proof.
  induction s as [|a s IH]; simpl; [by left |].
  destruct (Ascii.eqb a c); [right; lia |].
  destruct (Z.ltb_spec (find c s) 0); [by left | right; lia].
Qed.

Lemma find_from_range (c : ascii) (start : nat) (s : string) :
  find_from c start s = (-1)%Z ∨ (Z.of_nat start ≤ find_from c start s)%Z.
Proof.
  unfold find_from. destruct (find_range c (drop start s)) as [-> | H]; [by left |].
  destruct (Z.ltb_spec (find c (drop start s)) 0); [by left | right; lia].
Qed.

Lemma startswith_take (p s : string) :
  startswith p s = true → take (len p) s = p.
Proof.
  unfold startswith, len. revert s. induction p as [|a p IH]; intros s; [by destruct s |].
  destruct s as [|b s]; [done |]. simpl.
  destruct (Ascii.ascii_dec a b) as [->|]; [|done].
  intros H. by rewrite (IH s H).
Qed.

Lemma marked_append_l (a b : string) :
  contains "\" a = true → marked (a +:+ b).
Proof. intros H. right; left. by rewrite contains_append, H. Qed.

Lemma split_extended_marked (s : string) :
  fst (_split_extended_path s) = "" ∨ contains "\" (fst (_split_extended_path s)) = true.
Proof.
  unfold _split_extended_path.
  destruct (startswith "\\?\" s) eqn:E; [|by left].
  apply startswith_take in E. change (len "\\?\") with 4%nat in E.
  right. destruct (startswith "UNC\" (drop 4 s)); cbn [fst].
  - by rewrite contains_append, E.
  - by rewrite E.
Qed.

Lemma splitroot_nt_drive_marked (prefix part : string) :
  prefix = "" ∨ contains "\" prefix = true →
  let '(drv, root, _) := splitroot_nt_drive prefix part in
  (root = "" ∨ root = "\") ∧ marked drv.
Proof.
  intros Hp. unfold splitroot_nt_drive.
  set (is_drive := String.eqb (slice 1 2 part) ":" && _).
  assert (marked (prefix +:+ (if is_drive then take 2 part else ""))) as Hm.
  { destruct Hp as [-> | Hp]; [|by apply marked_append_l].
    rewrite append_nil_l. destruct is_drive eqn:E; [|by left].
    right; right. subst is_drive. apply andb_true_iff in E as [E _].
    destruct part as [|a [|b t]]; try done.
    unfold slice in E. simpl in E. simpl.
    destruct (Ascii.eqb_spec b ":") as [->|]; [|done].
    by destruct (Ascii.eqb a ":"). }
  destruct (String.eqb_spec (if is_drive then slice 2 3 part else slice 0 1 part) "\")
    as [E|E].
  - split; [right; exact E | exact Hm].
  - split; [by left | exact Hm].
Qed.

Lemma splitroot_nt_marked (part : string) :
  let '(drv, root, _) := splitroot_nt part in
  (root = "" ∨ root = "\") ∧ marked drv.
Proof.
  unfold splitroot_nt.
  set (ext := if String.eqb (slice 1 2 part) "\" && String.eqb (slice 0 1 part) "\"
              then _split_extended_path part else ("", part)).
  assert (fst ext = "" ∨ contains "\" (fst ext) = true) as Hext.
  { subst ext. destruct (_ && _); [apply split_extended_marked | by left]. }
  destruct ext as [prefix part'] eqn:Eext. simpl in Hext.
  destruct (String.eqb (slice 1 2 part') "\" && String.eqb (slice 0 1 part') "\"
            && negb (String.eqb (slice 2 3 part') "\")) eqn:Eunc;
    [|by apply splitroot_nt_drive_marked].
  destruct (find_from "\" 2 part' =? -1)%Z; [by apply splitroot_nt_drive_marked |].
  set (index := find_from "\" 2 part').
  destruct (find_from "\" (Z.to_nat index + 1) part' =? index + 1)%Z;
    [by apply splitroot_nt_drive_marked |].
  set (index2z := find_from "\" (Z.to_nat index + 1) part').
  set (index2 := if (index2z =? -1)%Z then len part' else Z.to_nat index2z).
  apply andb_true_iff in Eunc as [[_ Ef]%andb_true_iff _].
  apply String.eqb_eq in Ef.
  destruct part' as [|a t]; [done |].
  unfold slice in Ef. simpl in Ef. injection Ef as ->.
  assert (1 ≤ index2)%nat as Hi.
  { subst index2. destruct (Z.eqb_spec index2z (-1)); [unfold len; simpl; lia |].
    destruct (find_from_range "\" (Z.to_nat index + 1) (String "\" t)) as [E|E];
      [done | fold index2z in E; lia]. }
  destruct (nonempty prefix) eqn:Ep.
  - split; [by right |]. apply nonempty_true in Ep.
    destruct Hext as [->|Hc]; [done | by apply marked_append_l].
  - split; [by right |]. right; left.
    destruct index2 as [|k]; [lia |]. done.
Qed.

Lemma contains_join_two (c : ascii) (x y : string) (l : list string) :
  contains c (join c (x :: y :: l)) = true.
Proof.
  change (join c (x :: y :: l)) with (x +:+ String c (join c (y :: l))).
  rewrite contains_append. simpl. rewrite Ascii.eqb_refl. apply orb_true_r.
Qed.

(** Under [nt], a path whose string holds no invalid character is not
    anchored and has at most one component. *)
Lemma nt_plain_single (s : string) :
  has_invalid_char (str nt (Path nt s)) = false →
  _drv (Path nt s) = "" ∧ _root (Path nt s) = "" ∧ (length (_parts (Path nt s)) ≤ 1)%nat.
Proof.
  unfold Path, parse_parts. destruct (String.eqb s ""); [simpl; auto |].
  pose proof (splitroot_nt_marked (replace "/" "\" s)) as Hm.
  simpl. destruct (splitroot_nt (replace "/" "\" s)) as [[drv root] rel].
  destruct Hm as [Hroot Hdrv].
  set (parsed := filter _ _).
  destruct (nonempty drv || nonempty root) eqn:Ha.
  - intros Hc. exfalso. apply has_invalid_char_false in Hc as (_ & Hb & Hcol).
    unfold str, _format_parsed_parts, anchored in Hb, Hcol. simpl in Hb, Hcol.
    rewrite Ha in Hb, Hcol.
    set (x := drv +:+ root +:+ join "\" parsed) in *.
    assert (contains "\" x = true ∨ contains ":" x = true) as Hx.
    { subst x. rewrite !contains_append.
      apply orb_true_iff in Ha as [Hd%nonempty_true|Hr%nonempty_true].
      - destruct Hdrv as [->|[->| ->]]; [done | by left | right; done].
      - destruct Hroot as [->| ->]; [done |]. left. apply orb_true_iff.
        right. done. }
    destruct (String.eqb_spec x "") as [E|_].
    + rewrite E in Hx. by destruct Hx.
    + destruct Hx; congruence.
  - apply orb_false_iff in Ha as [Hd%nonempty_false Hr%nonempty_false].
    intros Hc. split; [done |]. split; [done |].
    apply has_invalid_char_false in Hc as (_ & Hb & _).
    unfold str, _format_parsed_parts, anchored in Hb. simpl in Hb.
    rewrite Hd, Hr in Hb. simpl in Hb.
    destruct parsed as [|x [|y l]]; simpl; try lia.
    exfalso. pose proof (contains_join_two "\" x y l) as Hj.
    destruct (String.eqb_spec (join "\" (x :: y :: l)) "") as [E|_].
    + by rewrite E in Hj.
    + congruence.
Qed.

End WindowsFacts.

Import WindowsFacts.

(** X4.  Under [nt] every path that the resolver returns for a string or
    a path consists of its last component alone: it has no drive, no root
    and no parent directory, since the separators are among the invalid
    characters. *)
Theorem X4_nt_single_component (now : date) (file_name : file_name_arg)
    (s : string) (flag : bool) (q : PurePath) :
  names file_name s →
  _create_file_path nt now file_name flag = Py.Return q →
  q = mkPath "" "" [pathlib.name q] ∧ parent q = Path nt ".".
Proof.
  intros Hn Hq.
  destruct (returns_passed nt now file_name s flag q Hn Hq) as [Hc Hnm].
  assert (has_invalid_char (str nt (Path nt s)) = false) as Hchars.
  { unfold passes_checks in Hc.
    apply andb_true_iff in Hc as [_ [Hc _]%andb_true_iff].
    by apply negb_true_iff in Hc. }
  destruct (nt_plain_single s Hchars) as (Hd & Hr & Hl).
  rewrite (create_file_path_names _ _ _ _ _ Hn) in Hq.
  assert (_drv q = "" ∧ _root q = "" ∧ (length (_parts q) ≤ 1)%nat
          ∧ pathlib.name q ≠ "") as (Hd' & Hr' & Hl' & Hn').
  { destruct flag.
    - destruct (dated_shape nt now s Hc Hnm)
        as (q' & Hq' & Hname & _ & _ & _ & Hdq & Hrq & Hlq).
      rewrite Hq in Hq'. injection Hq' as <-.
      split_and!; try congruence; try lia.
      rewrite Hname. intros [_ E]%append_empty. discriminate.
    - destruct (undated_shape nt (strftime_Ymd now) s Hc Hnm)
        as (q' & Hq' & _ & _ & _ & Hname & Hdq & Hrq & Hlq & _).
      rewrite Hq in Hq'. injection Hq' as <-.
      split_and!; try congruence; lia. }
  destruct q as [drv root parts]. simpl in *. subst drv root.
  destruct parts as [|x [|y l]]; simpl in Hl'; [done | | lia].
  split; reflexivity.
Qed.

(** X4, a witness: the name [app.log] under [nt]. *)
Lemma X4_nt_single_component_witness :
  _create_file_path nt a_date (FnStr "app.log") true
  = Py.Return (mkPath "" "" ["app_20240102.log"])
  ∧ mkPath "" "" ["app_20240102.log"]
    = mkPath "" "" [pathlib.name (mkPath "" "" ["app_20240102.log"])]
  ∧ parent (mkPath "" "" ["app_20240102.log"]) = Path nt ".".
Proof.
  split; [vm_compute; reflexivity |].
  apply (X4_nt_single_component a_date (FnStr "app.log") "app.log" true).
  - left; reflexivity.
  - vm_compute; reflexivity.
Defined.

(** * Further properties of the facade *)

Module GuardedBlockFacts.

(** The guarded block on a logger without handlers, step by step. *)
Lemma attach_sinks_eq (os : os_name) (now : date) (a : init_args)
    (key : string) (w : World) :
  handlers (lookup_logger w key) = [] →
  attach_sinks os now a key w =
    match _create_file_path os now (file_name a) (add_date_suffix_to_file_name a) with
    | Py.Raise e => (Py.Raise e, w)
    | Py.Return p =>
        match io_error w (trace w) (Mkdir (parent p)) with
        | Some x => (Py.Raise x, after_effects w [Mkdir (parent p)] 0)
        | None =>
            match io_error w (trace w ++ [Mkdir (parent p)]) (open_effect a p) with
            | Some x =>
                (Py.Raise x, after_effects w [Mkdir (parent p); open_effect a p] 0)
            | None =>
                match _checkLevel (file_level a) with
                | Py.Raise e =>
                    (Py.Raise e, after_effects w [Mkdir (parent p); open_effect a p] 1)
                | Py.Return f =>
                    match _checkLevel (console_level a) with
                    | Py.Raise e => (Py.Raise e, file_sink_only a key p f w)
                    | Py.Return c => (Py.Return tt, attached a key p f c w)
                    end
                end
            end
        end
    end.
Proof.
  intros Hh. unfold attach_sinks. unfold_monad.
  destruct (_create_file_path _ _ _ _) as [p|e]; [|done].
  unfold attached, file_sink_only, after_effects, open_effect, file_sink, console_sink.
  unfold lookup_logger, set_logger in *. simpl.
  destruct (io_error w (trace w) (Mkdir (parent p))) eqn:E1; [done |].
  destruct (use_file_rotation a) eqn:Hrot; unfold_monad; simpl;
    (destruct (io_error w (trace w ++ [Mkdir (parent p)]) (Open p _)) eqn:E2; simpl;
     [by rewrite <- app_assoc |]);
    (destruct (_checkLevel (file_level a)) as [f|e] eqn:Ef; simpl;
     [|by rewrite <- app_assoc]);
    rewrite Hh; simpl;
    (destruct (_checkLevel (console_level a)) as [c|e] eqn:Ec;
     [|by rewrite <- app_assoc]);
    rewrite !lookup_insert_eq; cbn [default from_option handlers level id];
    (rewrite bool_decide_eq_false_2
       by (rewrite list_elem_of_singleton; discriminate));
    by rewrite insert_insert_eq, <- app_assoc.
Qed.

End GuardedBlockFacts.

Module FreshLoggerFacts.
Import GuardedBlockFacts.

(** A construction on a logger without handlers, once the level of the
    logger is set. *)
Lemma init_fresh_eq (os : os_name) (now : date) (a : init_args) (w : World)
    (m : level_arg) (n : Z) :
  let key := logger_key (logger_name a) in
  let w2 := set_logger key (mkLogger n []) w in
  handlers (lookup_logger w key) = [] →
  py_min (console_level a) (file_level a) = Py.Return m →
  _checkLevel m = Py.Return n →
  handlers (lookup_logger w2 key) = []
  ∧ __init__ os now a w =
      match attach_sinks os now a key w2 with
      | (Py.Return _, w') => (Py.Return (mkTidyLogger key), w')
      | (Py.Raise e, w') => (Py.Raise e, w')
      end.
Proof.
  intros key w2 Hh Hm Hn. split; [subst w2; by rewrite lookup_set_eq |].
  rewrite init_eq. fold key. by rewrite Hm, Hn, Hh.
Qed.

Lemma lookup_after_effects (w : World) (es : list effect) (n : nat) (k : string) :
  lookup_logger (after_effects w es n) k = lookup_logger w k.
Proof. done. Qed.

Lemma lookup_file_sink_only (a : init_args) (key : string) (p : PurePath) (f : Z)
    (w : World) :
  lookup_logger (file_sink_only a key p f w) key
  = mkLogger (level (lookup_logger w key)) [file_sink a p (next_id w) f].
Proof. unfold lookup_logger, file_sink_only. simpl. by rewrite lookup_insert_eq. Qed.

End FreshLoggerFacts.

Import GuardedBlockFacts FreshLoggerFacts.

(** X5.  On a logger without handlers, with valid levels, a name that
    resolves to [p] and an environment that lets directories be made and
    files be opened, a construction returns the facade after exactly two
    effects, making the parent directory of [p] and then opening [p]; it
    attaches the file sink, a rotating one when rotation is asked for,
    with the plain formatter and the file level, and after it the console
    sink with the coloured formatter and the console level. *)
Theorem X5_fresh_construction (os : os_name) (now : date) (a : init_args) (w : World)
    (m : level_arg) (f c : Z) (p : PurePath) :
  let key := logger_key (logger_name a) in
  handlers (lookup_logger w key) = [] →
  py_min (console_level a) (file_level a) = Py.Return m →
  _checkLevel (file_level a) = Py.Return f →
  _checkLevel (console_level a) = Py.Return c →
  _create_file_path os now (file_name a) (add_date_suffix_to_file_name a)
  = Py.Return p →
  fs_ok w →
  let w' := snd (__init__ os now a w) in
  fst (__init__ os now a w) = Py.Return (mkTidyLogger key)
  ∧ new_events w w'
    = [Mkdir (parent p);
       Open p (if use_file_rotation a && (0 <? max_bytes a)%Z then "a" else file_mode a)]
  ∧ handlers (lookup_logger w' key)
    = [mkHandler (next_id w)
         (if use_file_rotation a
          then RotatingFileHandler p (if (0 <? max_bytes a)%Z then "a" else file_mode a)
                 (max_bytes a) (backup_count a)
          else FileHandler p (file_mode a))
         (Some IndentedMessageFormatter) f;
       mkHandler (S (next_id w)) StreamHandler (Some ColoredIndentedMessageFormatter) c]
  ∧ next_id w' = S (S (next_id w)).
Proof.
  intros key Hh Hm Hf Hc Hp Hfs w'. subst w'.
  destruct (init_fresh_success os now a w m f c p Hh Hm Hf Hc Hp Hfs) as (n & _ & ->).
  cbn [fst snd]. split_and!; try done.
  - by apply new_events_app.
  - fold key. by rewrite lookup_attached.
Qed.

(** X5, a witness: rotation with a positive size forces the append mode
    although [w] was asked for. *)
Lemma X5_fresh_construction_witness :
  let a := mkArgs (FnStr "logs/app.txt") "w" (LevelInt WARNING) (LevelInt DEBUG)
             (Some "app") false true 1024 3 in
  let p := mkPath "" "" ["logs"; "app.txt"] in
  let w' := snd (__init__ posix a_date a quiet_world) in
  fst (__init__ posix a_date a quiet_world) = Py.Return (mkTidyLogger "app")
  ∧ new_events quiet_world w' = [Mkdir (mkPath "" "" ["logs"]); Open p "a"]
  ∧ handlers (lookup_logger w' "app")
    = [mkHandler 0 (RotatingFileHandler p "a" 1024 3) (Some IndentedMessageFormatter) 10;
       mkHandler 1 StreamHandler (Some ColoredIndentedMessageFormatter) 30]
  ∧ next_id w' = 2%nat.
Proof.
  intros a p w'.
  apply (X5_fresh_construction posix a_date a quiet_world (LevelInt DEBUG) 10 30 p);
    try (vm_compute; reflexivity).
  intros tr []; exact I || reflexivity.
Defined.

(** X6.  Whatever a construction does and however it ends, it leaves
    every other logger as it was, removes no handler of its own logger,
    and adds to the effects at most the making of a directory followed by
    the opening of a file. *)
Theorem X6_construction_frame (os : os_name) (now : date) (a : init_args) (w : World) :
  let key := logger_key (logger_name a) in
  let w' := snd (__init__ os now a w) in
  (∀ k, k ≠ key → lookup_logger w' k = lookup_logger w k)
  ∧ (∃ hs, handlers (lookup_logger w' key) = handlers (lookup_logger w key) ++ hs)
  ∧ (∃ t, trace w' = trace w ++ t
          ∧ (t = [] ∨ (∃ d, t = [Mkdir d]) ∨ (∃ d p md, t = [Mkdir d; Open p md])))
  ∧ (next_id w ≤ next_id w')%nat
  ∧ io_error w' = io_error w.
Proof.
  intros key w'. subst w'.
  assert (∀ lg, handlers lg = handlers (lookup_logger w key) →
    (∀ k, k ≠ key → lookup_logger (set_logger key lg w) k = lookup_logger w k)
    ∧ (∃ hs, handlers (lookup_logger (set_logger key lg w) key)
             = handlers (lookup_logger w key) ++ hs)
    ∧ (∃ t, trace (set_logger key lg w) = trace w ++ t
            ∧ (t = [] ∨ (∃ d, t = [Mkdir d]) ∨ (∃ d p md, t = [Mkdir d; Open p md])))
    ∧ (next_id w ≤ next_id (set_logger key lg w))%nat
    ∧ io_error (set_logger key lg w) = io_error w) as Hset.
  { intros lg Hlg. split_and!; try done.
    - intros k Hk. by apply lookup_set_ne.
    - exists []. by rewrite lookup_set_eq, app_nil_r.
    - exists []. split; [by rewrite app_nil_r | by left]. }
  rewrite init_eq. fold key.
  destruct (py_min _ _) as [lvl|e]; cbn [snd]; [|by apply Hset].
  destruct (_checkLevel lvl) as [n|e]; cbn [snd]; [|by apply Hset].
  destruct (handlers (lookup_logger w key)) as [|h0 hs0] eqn:Hhs; cbn [snd];
    [|by apply Hset].
  rewrite attach_sinks_eq by (by rewrite lookup_set_eq).
  assert (∀ k, k ≠ key →
            lookup_logger (set_logger key (mkLogger n []) w) k = lookup_logger w k)
    as Hk by (intros k Hne; by apply lookup_set_ne).
  destruct (_create_file_path _ _ _ _) as [p|e]; cbn [snd].
  2:{ apply Hset. done. }
  destruct (io_error _ _ (Mkdir _)); cbn [snd].
  { split_and!; simpl; try done; try lia.
    - exists []. by rewrite lookup_after_effects, lookup_set_eq.
    - eexists. split; [done |]. right; left. by eexists. }
  destruct (io_error _ _ (open_effect _ _)); cbn [snd].
  { split_and!; simpl; try done; try lia.
    - exists []. by rewrite lookup_after_effects, lookup_set_eq.
    - eexists. split; [done |]. right; right. unfold open_effect. by eexists _, _, _. }
  destruct (_checkLevel (file_level a)) as [f|e]; cbn [snd].
  2:{ split_and!; simpl; try done; try lia.
      - exists []. by rewrite lookup_after_effects, lookup_set_eq.
      - eexists. split; [done |]. right; right. unfold open_effect. by eexists _, _, _. }
  destruct (_checkLevel (console_level a)) as [c|e]; cbn [snd].
  - split_and!; simpl; try done; try lia.
    + intros k Hne. unfold lookup_logger, attached, set_logger. simpl.
      by rewrite !lookup_insert_ne.
    + rewrite lookup_attached. simpl. by eexists.
    + eexists. split; [done |]. right; right. unfold open_effect. by eexists _, _, _.
  - split_and!; simpl; try done; try lia.
    + intros k Hne. unfold lookup_logger, file_sink_only, set_logger. simpl.
      by rewrite !lookup_insert_ne.
    + rewrite lookup_file_sink_only. simpl. by eexists.
    + eexists. split; [done |]. right; right. unfold open_effect. by eexists _, _, _.
Qed.

(** X6, a witness: a construction that fails at opening the file. *)
Lemma X6_construction_frame_witness :
  let w' := snd (__init__ posix a_date default_args no_open_world) in
  (∀ k, k ≠ "TidyLogger" → lookup_logger w' k = lookup_logger no_open_world k)
  ∧ (∃ hs, handlers (lookup_logger w' "TidyLogger")
           = handlers (lookup_logger no_open_world "TidyLogger") ++ hs)
  ∧ (∃ t, trace w' = trace no_open_world ++ t
          ∧ (t = [] ∨ (∃ d, t = [Mkdir d]) ∨ (∃ d p md, t = [Mkdir d; Open p md])))
  ∧ (next_id no_open_world ≤ next_id w')%nat
  ∧ io_error w' = io_error no_open_world.
Proof. apply (X6_construction_frame posix a_date default_args no_open_world). Defined.

(** X7.  When [min(console_level, file_level)] raises, as it does for an
    integer against a level name, or gives a name that is no level, the
    construction raises that exception and nothing has happened: no
    effect, no handler created, and every logger, the one of the facade
    included, has the level and the handlers it had. *)
Theorem X7_level_error_first (os : os_name) (now : date) (a : init_args) (w : World)
    (e : Py.exn) :
  py_min (console_level a) (file_level a) = Py.Raise e
  ∨ (∃ m, py_min (console_level a) (file_level a) = Py.Return m
          ∧ _checkLevel m = Py.Raise e) →
  let w' := snd (__init__ os now a w) in
  fst (__init__ os now a w) = Py.Raise e
  ∧ trace w' = trace w
  ∧ next_id w' = next_id w
  ∧ (∀ k, lookup_logger w' k = lookup_logger w k).
Proof.
  intros H w'. subst w'. rewrite init_eq.
  set (key := logger_key (logger_name a)).
  assert (∀ k, lookup_logger (set_logger key (lookup_logger w key) w) k
               = lookup_logger w k) as Hk.
  { intros k. destruct (decide (key = k)) as [<-|Hne].
    - by rewrite lookup_set_eq.
    - by rewrite lookup_set_ne. }
  destruct H as [-> | (m & -> & ->)]; cbn [fst snd]; split_and!; done.
Qed.

(** X7, a witness: an integer console level against a file level name. *)
Lemma X7_level_error_first_witness :
  let a := mkArgs FnNone "a" (LevelInt INFO) (LevelStr "DEBUG") None true false 0 0 in
  let e := Py.TypeError "'<' not supported between instances of 'str' and 'int'" in
  let w' := snd (__init__ posix a_date a quiet_world) in
  fst (__init__ posix a_date a quiet_world) = Py.Raise e
  ∧ trace w' = trace quiet_world
  ∧ next_id w' = next_id quiet_world
  ∧ (∀ k, lookup_logger w' k = lookup_logger quiet_world k).
Proof.
  intros a e w'.
  apply (X7_level_error_first posix a_date a quiet_world e).
  left; reflexivity.
Defined.

Module OpenFileSystemFacts.
Import GuardedBlockFacts FreshLoggerFacts.

Lemma fs_ok_set_logger (key : string) (l : Logger) (w : World) :
  fs_ok w → fs_ok (set_logger key l w).
Proof. intros H tr e. apply H. Qed.

(** The guarded block where directories can be made and files opened. *)
Lemma attach_sinks_fs_ok (os : os_name) (now : date) (a : init_args)
    (key : string) (w : World) (p : PurePath) :
  handlers (lookup_logger w key) = [] →
  fs_ok w →
  _create_file_path os now (file_name a) (add_date_suffix_to_file_name a)
  = Py.Return p →
  attach_sinks os now a key w =
    match _checkLevel (file_level a) with
    | Py.Raise e =>
        (Py.Raise e, after_effects w [Mkdir (parent p); open_effect a p] 1)
    | Py.Return f =>
        match _checkLevel (console_level a) with
        | Py.Raise e => (Py.Raise e, file_sink_only a key p f w)
        | Py.Return c => (Py.Return tt, attached a key p f c w)
        end
    end.
Proof.
  intros Hh Hfs Hp. rewrite attach_sinks_eq by done. rewrite Hp.
  rewrite (Hfs (trace w) (Mkdir (parent p))).
  pose proof (Hfs (trace w ++ [Mkdir (parent p)]) (open_effect a p)) as Ho.
  unfold open_effect in Ho at 1. fold (open_effect a p) in Ho. by rewrite Ho.
Qed.

End OpenFileSystemFacts.
Import OpenFileSystemFacts.

(** X8.  When the console level is a name that is no level while the
    file level and the minimum are valid, a construction on a logger
    without handlers raises [ValueError] only after it has made the
    directory, opened the file and attached the file sink; the logger is
    left with the file sink alone, and every later construction with that
    name finds a handler and adds no console sink. *)
Theorem X8_console_level_error (os : os_name) (now : date) (a : init_args)
    (w : World) (m : level_arg) (n f : Z) (e : Py.exn) (p : PurePath) :
  let key := logger_key (logger_name a) in
  handlers (lookup_logger w key) = [] →
  py_min (console_level a) (file_level a) = Py.Return m →
  _checkLevel m = Py.Return n →
  _checkLevel (file_level a) = Py.Return f →
  _checkLevel (console_level a) = Py.Raise e →
  _create_file_path os now (file_name a) (add_date_suffix_to_file_name a)
  = Py.Return p →
  fs_ok w →
  let w' := snd (__init__ os now a w) in
  fst (__init__ os now a w) = Py.Raise e
  ∧ new_events w w' = [Mkdir (parent p); open_effect a p]
  ∧ handlers (lookup_logger w' key) = [file_sink a p (next_id w) f]
  ∧ (∀ now2 a2, logger_key (logger_name a2) = key →
       handlers (lookup_logger (snd (__init__ os now2 a2 w')) key)
       = [file_sink a p (next_id w) f]).
Proof.
  intros key Hh Hm Hn Hf Hc Hp Hfs w'.
  assert (__init__ os now a w
          = (Py.Raise e, file_sink_only a key p f (set_logger key (mkLogger n []) w)))
    as E.
  { destruct (init_fresh_eq os now a w m n Hh Hm Hn) as [Hh2 ->].
    rewrite (attach_sinks_fs_ok os now a _ _ p Hh2 (fs_ok_set_logger _ _ _ Hfs) Hp).
    by rewrite Hf, Hc. }
  assert (handlers (lookup_logger w' key) = [file_sink a p (next_id w) f]) as Hw'.
  { subst w'. rewrite E. cbn [snd]. by rewrite lookup_file_sink_only. }
  split_and!.
  - by rewrite E.
  - subst w'. rewrite E. cbn [snd]. by apply new_events_app.
  - exact Hw'.
  - intros now2 a2 Hk.
    destruct (init_frame os now2 a2 w') as (_ & _ & Hg & _).
    rewrite Hk in Hg. rewrite Hw' in Hg. by destruct (Hg ltac:(done)) as (-> & _).
Qed.

(** X8, a witness: the misspelt console level [WARN1NG] beside the file
    level [DEBUG]. *)
Lemma X8_console_level_error_witness :
  let a := mkArgs FnNone "a" (LevelStr "WARN1NG") (LevelStr "DEBUG") None true false 0 0 in
  let p := mkPath "" "" ["log_20240102.log"] in
  let w' := snd (__init__ posix a_date a quiet_world) in
  fst (__init__ posix a_date a quiet_world)
  = Py.Raise (Py.ValueError "Unknown level: 'WARN1NG'")
  ∧ new_events quiet_world w' = [Mkdir (parent p); open_effect a p]
  ∧ handlers (lookup_logger w' "TidyLogger") = [file_sink a p 0 10]
  ∧ (∀ now2 a2, logger_key (logger_name a2) = "TidyLogger" →
       handlers (lookup_logger (snd (__init__ posix now2 a2 w')) "TidyLogger")
       = [file_sink a p 0 10]).
Proof.
  intros a p w'.
  apply (X8_console_level_error posix a_date a quiet_world (LevelStr "DEBUG") 10 10
           (Py.ValueError "Unknown level: 'WARN1NG'") p);
    try (vm_compute; reflexivity).
  intros tr []; exact I || reflexivity.
Defined.

(** X9.  When the file level is a name that is no level while the console
    level and the minimum are valid, a construction on a logger without
    handlers raises [ValueError] after it has made the directory and
    opened the file, with one handler object created and no handler
    attached. *)
Theorem X9_file_level_error (os : os_name) (now : date) (a : init_args)
    (w : World) (m : level_arg) (n : Z) (e : Py.exn) (p : PurePath) :
  let key := logger_key (logger_name a) in
  handlers (lookup_logger w key) = [] →
  py_min (console_level a) (file_level a) = Py.Return m →
  _checkLevel m = Py.Return n →
  _checkLevel (file_level a) = Py.Raise e →
  _create_file_path os now (file_name a) (add_date_suffix_to_file_name a)
  = Py.Return p →
  fs_ok w →
  let w' := snd (__init__ os now a w) in
  fst (__init__ os now a w) = Py.Raise e
  ∧ new_events w w' = [Mkdir (parent p); open_effect a p]
  ∧ handlers (lookup_logger w' key) = []
  ∧ next_id w' = S (next_id w).
Proof.
  intros key Hh Hm Hn Hf Hp Hfs w'.
  assert (__init__ os now a w
          = (Py.Raise e,
             after_effects (set_logger key (mkLogger n []) w)
               [Mkdir (parent p); open_effect a p] 1)) as E.
  { destruct (init_fresh_eq os now a w m n Hh Hm Hn) as [Hh2 ->].
    rewrite (attach_sinks_fs_ok os now a _ _ p Hh2 (fs_ok_set_logger _ _ _ Hfs) Hp).
    by rewrite Hf. }
  subst w'. rewrite E. cbn [fst snd]. split_and!; try done.
  - by apply new_events_app.
  - by rewrite lookup_after_effects, lookup_set_eq.
Qed.

(** X9, a witness: the file level [TRACE] beside the console level
    [DEBUG]. *)
Lemma X9_file_level_error_witness :
  let a := mkArgs FnNone "a" (LevelStr "DEBUG") (LevelStr "TRACE") None true false 0 0 in
  let p := mkPath "" "" ["log_20240102.log"] in
  let w' := snd (__init__ posix a_date a quiet_world) in
  fst (__init__ posix a_date a quiet_world)
  = Py.Raise (Py.ValueError "Unknown level: 'TRACE'")
  ∧ new_events quiet_world w' = [Mkdir (parent p); open_effect a p]
  ∧ handlers (lookup_logger w' "TidyLogger") = []
  ∧ next_id w' = 1%nat.
Proof.
  intros a p w'.
  apply (X9_file_level_error posix a_date a quiet_world (LevelStr "DEBUG") 10
           (Py.ValueError "Unknown level: 'TRACE'") p);
    try (vm_compute; reflexivity).
  intros tr []; exact I || reflexivity.
Defined.

(** X10.  When making the directory fails, a construction on a logger
    without handlers raises the error of the environment after that one
    effect; when opening the file fails, after those two; in both cases no
    handler is created or attached, so that a later construction with the
    name tries again. *)
Theorem X10_io_failure (os : os_name) (now : date) (a : init_args) (w : World)
    (m : level_arg) (n : Z) (x : Py.exn) (p : PurePath) :
  let key := logger_key (logger_name a) in
  handlers (lookup_logger w key) = [] →
  py_min (console_level a) (file_level a) = Py.Return m →
  _checkLevel m = Py.Return n →
  _create_file_path os now (file_name a) (add_date_suffix_to_file_name a)
  = Py.Return p →
  let w' := snd (__init__ os now a w) in
  (io_error w (trace w) (Mkdir (parent p)) = Some x →
   fst (__init__ os now a w) = Py.Raise x
   ∧ new_events w w' = [Mkdir (parent p)]
   ∧ handlers (lookup_logger w' key) = []
   ∧ next_id w' = next_id w)
  ∧ (io_error w (trace w) (Mkdir (parent p)) = None →
     io_error w (trace w ++ [Mkdir (parent p)]) (open_effect a p) = Some x →
     fst (__init__ os now a w) = Py.Raise x
     ∧ new_events w w' = [Mkdir (parent p); open_effect a p]
     ∧ handlers (lookup_logger w' key) = []
     ∧ next_id w' = next_id w).
Proof.
  intros key Hh Hm Hn Hp w'. subst w'.
  destruct (init_fresh_eq os now a w m n Hh Hm Hn) as [Hh2 ->].
  rewrite attach_sinks_eq by exact Hh2. rewrite Hp.
  remember (set_logger (logger_key (logger_name a)) (mkLogger n []) w) as w2 eqn:Ew2.
  assert (io_error w2 = io_error w) as Hio by (by subst w2).
  assert (trace w2 = trace w) as Htr by (by subst w2).
  assert (next_id w2 = next_id w) as Hid by (by subst w2).
  rewrite Hio, Htr. split.
  - intros ->. cbn [fst snd].
    split_and!;
      [done | apply new_events_app; simpl; by rewrite Htr
      | by rewrite lookup_after_effects | done].
  - intros -> ->. cbn [fst snd].
    split_and!;
      [done | apply new_events_app; simpl; by rewrite Htr
      | by rewrite lookup_after_effects | done].
Qed.

(** X10, a witness: a process in which no directory can be made, and one
    in which no file can be opened. *)
Lemma X10_io_failure_witness :
  let p := mkPath "" "" ["log_20240102.log"] in
  let x := Py.OSError "Permission denied" in
  (fst (__init__ posix a_date default_args no_mkdir_world) = Py.Raise x
   ∧ new_events no_mkdir_world (snd (__init__ posix a_date default_args no_mkdir_world))
     = [Mkdir (parent p)]
   ∧ handlers (lookup_logger (snd (__init__ posix a_date default_args no_mkdir_world))
                 "TidyLogger") = []
   ∧ next_id (snd (__init__ posix a_date default_args no_mkdir_world)) = 0%nat)
  ∧ (fst (__init__ posix a_date default_args no_open_world) = Py.Raise x
     ∧ new_events no_open_world (snd (__init__ posix a_date default_args no_open_world))
       = [Mkdir (parent p); open_effect default_args p]
     ∧ handlers (lookup_logger (snd (__init__ posix a_date default_args no_open_world))
                   "TidyLogger") = []
     ∧ next_id (snd (__init__ posix a_date default_args no_open_world)) = 0%nat).
Proof.
  intros p x. split.
  - apply (proj1 (X10_io_failure posix a_date default_args no_mkdir_world
                    (LevelInt DEBUG) 10 x p eq_refl eq_refl eq_refl eq_refl)).
    reflexivity.
  - apply (proj2 (X10_io_failure posix a_date default_args no_open_world
                    (LevelInt DEBUG) 10 x p eq_refl eq_refl eq_refl eq_refl));
      reflexivity.
Defined.

Module LoggingCallFacts.
Import GuardedBlockFacts FreshLoggerFacts OpenFileSystemFacts.

(** [close] registers no logger and forgets none. *)
Lemma close_handler_dom (key : string) (h : Handler) (w : World) (k : string) :
  is_Some (loggerDict (snd (close_handler key h w)) !! k) ↔ is_Some (loggerDict w !! k).
Proof.
  unfold close_handler, try_pass, Logger_removeHandler. unfold_monad.
  destruct (io_error w (trace w) (Flush (h_id h))); simpl;
    destruct (io_error w (trace w ++ [Flush (h_id h)]) (Close (h_id h))); simpl;
    unfold lookup_logger, set_logger; simpl;
    (destruct (bool_decide_reflect
                 (h ∈ handlers (default (new_logger key) (loggerDict w !! key))))
       as [Hin|Hin]; simpl; [|done];
     destruct (decide (k = key)) as [->|Hk];
     [rewrite lookup_insert_eq; split; [intros _|done];
      destruct (loggerDict w !! key) eqn:E; [done |];
      simpl in Hin; by apply elem_of_nil in Hin
     |by rewrite lookup_insert_ne]).
Qed.

Lemma close_handler_switches (key : string) (h : Handler) (w : World) :
  switches (snd (close_handler key h w)) = switches w.
Proof.
  unfold close_handler, try_pass, Logger_removeHandler. unfold_monad.
  destruct (io_error w (trace w) (Flush (h_id h))); simpl;
    destruct (io_error w (trace w ++ [Flush (h_id h)]) (Close (h_id h))); simpl;
    by case_match.
Qed.

Lemma for_each_close_dom (key : string) (l : list Handler) (w : World) (k : string) :
  is_Some (loggerDict (snd (for_each l (close_handler key) w)) !! k)
  ↔ is_Some (loggerDict w !! k).
Proof.
  revert w. induction l as [|h l IH]; intros w; [done |].
  destruct (close_handler_eq key h w) as (w1 & E1 & _).
  simpl. unfold mbind, M_bind, bind. rewrite E1.
  rewrite IH. pose proof (close_handler_dom key h w k) as H. by rewrite E1 in H.
Qed.

Lemma for_each_close_switches (key : string) (l : list Handler) (w : World) :
  switches (snd (for_each l (close_handler key) w)) = switches w.
Proof.
  revert w. induction l as [|h l IH]; intros w; [done |].
  destruct (close_handler_eq key h w) as (w1 & E1 & _).
  simpl. unfold mbind, M_bind, bind. rewrite E1.
  rewrite IH. pose proof (close_handler_switches key h w) as H. by rewrite E1 in H.
Qed.

Lemma close_dom (self : TidyLogger) (w : World) (k : string) :
  is_Some (loggerDict (snd (close self w)) !! k) ↔ is_Some (loggerDict w !! k).
Proof. unfold close. unfold_monad. apply for_each_close_dom. Qed.

Lemma close_switches (self : TidyLogger) (w : World) :
  switches (snd (close self w)) = switches w.
Proof. unfold close. unfold_monad. apply for_each_close_switches. Qed.

Lemma close_level (self : TidyLogger) (w : World) (k : string) :
  level (lookup_logger (snd (close self w)) k) = level (lookup_logger w k).
Proof.
  destruct (close_spec self w) as (w1 & E & _ & _ & _ & _ & Hl & Hk).
  rewrite E. cbn [snd]. destruct (decide (k = logger self)) as [->|Hne]; [done |].
  by rewrite Hk.
Qed.

(** The lineage of a logger depends on the names that are registered
    only. *)
Lemma lineage_from_dom (fuel : nat) (w w' : World) (name : string) :
  (∀ k, is_Some (loggerDict w' !! k) ↔ is_Some (loggerDict w !! k)) →
  lineage_from fuel w' name = lineage_from fuel w name.
Proof.
  intros Hd. revert name. induction fuel as [|fuel IH]; intros name; [done |].
  simpl. unfold Logger_parent.
  rewrite (list_filter_iff _ (λ k, is_Some (loggerDict w !! k))) by exact Hd.
  destruct (String.eqb name "root"); [done |]. by rewrite IH.
Qed.

Lemma close_lineage (self : TidyLogger) (w : World) (k : string) :
  lineage (snd (close self w)) k = lineage w k.
Proof. apply lineage_from_dom. intros k0. apply close_dom. Qed.

Lemma close_visited (self : TidyLogger) (w : World) (k : string) :
  visited (snd (close self w)) k = visited w k.
Proof. unfold visited. by rewrite close_lineage, close_switches. Qed.

Lemma close_isEnabledFor (self : TidyLogger) (w : World) (k : string) (lvl : Z) :
  isEnabledFor (snd (close self w)) k lvl = isEnabledFor w k lvl.
Proof.
  unfold isEnabledFor, getEffectiveLevel. rewrite close_switches, close_lineage.
  rewrite (map_ext (λ k0, level (lookup_logger (snd (close self w)) k0))
             (λ k0, level (lookup_logger w k0))); [done |].
  intros k0. apply close_level.
Qed.

Lemma flat_map_ext_in {A B} (f g : A → list B) (l : list A) :
  (∀ x, x ∈ l → f x = g x) → flat_map f l = flat_map g l.
Proof.
  induction l as [|x l IH]; intros H; [done |]. simpl.
  rewrite (H x) by apply list_elem_of_here.
  rewrite IH; [done |]. intros y Hy. apply H. by apply list_elem_of_further.
Qed.

(** The handlers above a logger are found in the tail of the visit, none
    of which is the logger, when it is not there. *)
Lemma close_found_above (self : TidyLogger) (w : World) :
  logger self ∉ tail (visited w (logger self)) →
  found_above (snd (close self w)) (logger self) = found_above w (logger self).
Proof.
  intros Hnot. unfold found_above. rewrite close_visited.
  apply flat_map_ext_in. intros k Hk.
  destruct (close_spec self w) as (w1 & E & _ & _ & _ & _ & _ & Hother).
  rewrite E. cbn [snd]. rewrite Hother; [done |]. by intros ->.
Qed.




End LoggingCallFacts.
Import LoggingCallFacts.





(** X13.  Closing one facade changes nothing for a facade on another
    logger, provided the closed logger is not among the loggers that a
    record of the other travels through: where no handler fails, each of
    the other's logging methods returns or raises as before and hands its
    record to the same handlers, in the same order, as before. *)
Theorem X13_close_leaves_others (self other : TidyLogger) (message : string)
    (args : list Py.value) (kwargs : Py.keywords) (w : World) :
  logger self ∉ visited w (logger other) →
  handlers_ok w →
  let w' := snd (close self w) in
  lookup_logger w' (logger other) = lookup_logger w (logger other)
  ∧ Forall (λ ml : (TidyLogger → string → list Py.value → Py.keywords → M unit) * Z,
              fst (ml.1 other message args kwargs w')
              = fst (ml.1 other message args kwargs w)
              ∧ new_events w' (snd (ml.1 other message args kwargs w'))
                = new_events w (snd (ml.1 other message args kwargs w)))
      logging_methods.
Proof.
  intros Hnot Hok w'.
  destruct (close_spec self w) as (w1 & E & _ & _ & Hi & _ & _ & Hother).
  assert (w' = w1) as Ew by (subst w'; by rewrite E).
  assert (logger other ≠ logger self) as Hne.
  { intros Heq. apply Hnot. rewrite visited_cons, Heq. apply list_elem_of_here. }
  assert (handlers_ok w') as Hok'.
  { rewrite Ew. intros tr e. rewrite Hi. apply Hok. }
  assert (found w' (logger other) = found w (logger other)) as Hf.
  { unfold found. subst w'. rewrite close_visited.
    apply flat_map_ext_in. intros k Hk. rewrite E. cbn [snd].
    rewrite Hother; [done |]. by intros ->. }
  split; [rewrite Ew; by apply Hother |].
  apply Forall_forall. intros [m lvl] Hin. cbn [fst snd].
  destruct (logging_methods_shape _ _ Hin) as (nm & _ & ->). cbn beta.
  pose proof (method_events nm lvl other message args kwargs w Hok) as H.
  pose proof (method_events nm lvl other message args kwargs w' Hok') as H'.
  cbn zeta in H, H'.
  assert (isEnabledFor w' (logger other) lvl = isEnabledFor w (logger other) lvl) as En
    by (subst w'; apply close_isEnabledFor).
  assert (last_resort_events w' (logger other) lvl message
          = last_resort_events w (logger other) lvl message) as Hlr.
  { unfold last_resort_events. rewrite Hf. subst w'. by rewrite close_switches. }
  rewrite En, Hf, Hlr in H'.
  destruct (keyword_error nm (isEnabledFor w (logger other) lvl) kwargs).
  - rewrite H, H'. cbn [fst snd]. by rewrite !new_events_refl.
  - destruct H as (-> & _ & _ & _ & ->). destruct H' as (-> & _ & _ & _ & ->). done.
Qed.

(** X13, a witness: two facades on the loggers [a] and [b]; closing the
    first leaves the second with its two sinks. *)
Lemma X13_close_leaves_others_witness :
  let args nm := mkArgs FnNone "a" (LevelInt INFO) (LevelInt DEBUG) (Some nm)
                   true false 0 0 in
  let w := snd (__init__ posix a_date (args "b")
                  (snd (__init__ posix a_date (args "a") quiet_world))) in
  let w' := snd (close (mkTidyLogger "a") w) in
  length (handlers (lookup_logger w' "b")) = 2%nat
  ∧ new_events w' (snd (info (mkTidyLogger "b") "m" [] [] w'))
    = [Emit 2 INFO "m"; Emit 3 INFO "m"].
Proof.
  intros args w w'.
  destruct (X13_close_leaves_others (mkTidyLogger "a") (mkTidyLogger "b") "m" [] [] w)
    as [H1 H2].
  - cbn [logger]. replace (visited w "b") with ["b"; "root"] by (vm_compute; reflexivity).
    rewrite !elem_of_cons, elem_of_nil. intros [H|[H|[]]]; discriminate.
  - intros tr []; exact I || reflexivity.
  - fold w' in H1, H2. split.
    + simpl in H1. rewrite H1. reflexivity.
    + apply Forall_cons in H2 as [_ H2]. apply Forall_cons in H2 as [[_ H2] _].
      cbn [fst] in H2. etransitivity; [exact H2 |]. vm_compute; reflexivity.
Defined.

(** The proviso of X13 is needed: a record of the logger [a.b] travels
    through the logger [a], and closing the facade on [a] takes away two
    of the four handlers that handled it. *)
Example close_of_parent :
  let args nm := mkArgs FnNone "a" (LevelInt INFO) (LevelInt DEBUG) (Some nm)
                   true false 0 0 in
  let w := snd (__init__ posix a_date (args "a.b")
                  (snd (__init__ posix a_date (args "a") quiet_world))) in
  let w' := snd (close (mkTidyLogger "a") w) in
  visited w "a.b" = ["a.b"; "a"; "root"]
  ∧ new_events w (snd (info (mkTidyLogger "a.b") "m" [] [] w))
    = [Emit 2 INFO "m"; Emit 3 INFO "m"; Emit 0 INFO "m"; Emit 1 INFO "m"]
  ∧ new_events w' (snd (info (mkTidyLogger "a.b") "m" [] [] w'))
    = [Emit 2 INFO "m"; Emit 3 INFO "m"].
Proof. split_and!; vm_compute; reflexivity. Qed.

(** X14.  A construction on a logger without handlers followed by
    [close], as the tests run it: both return, the events are making the
    parent directory, opening the resolved path, and flushing and closing
    first the file sink and then the console sink; the logger is left
    without handlers in a state where the next construction opens its
    file again. *)
Theorem X14_construct_then_close (os : os_name) (now : date) (a : init_args)
    (w : World) (m : level_arg) (f c : Z) (p : PurePath) :
  let key := logger_key (logger_name a) in
  handlers (lookup_logger w key) = [] →
  py_min (console_level a) (file_level a) = Py.Return m →
  _checkLevel (file_level a) = Py.Return f →
  _checkLevel (console_level a) = Py.Return c →
  _create_file_path os now (file_name a) (add_date_suffix_to_file_name a)
  = Py.Return p →
  fs_ok w →
  let w1 := snd (__init__ os now a w) in
  let w2 := snd (close (mkTidyLogger key) w1) in
  fst (__init__ os now a w) = Py.Return (mkTidyLogger key)
  ∧ fst (close (mkTidyLogger key) w1) = Py.Return tt
  ∧ new_events w w2
    = [Mkdir (parent p); open_effect a p;
       Flush (next_id w); Close (next_id w);
       Flush (S (next_id w)); Close (S (next_id w))]
  ∧ handlers (lookup_logger w2 key) = []
  ∧ next_id w2 = S (S (next_id w))
  ∧ fs_ok w2.
Proof.
  intros key Hh Hm Hf Hc Hp Hfs w1 w2. subst w2 w1.
  destruct (init_fresh_success os now a w m f c p Hh Hm Hf Hc Hp Hfs) as (n & _ & ->).
  cbn [fst snd]. fold key.
  destruct (close_spec (mkTidyLogger key)
              (attached a key p f c (set_logger key (mkLogger n []) w)))
    as (w2 & E & Ht & Hn & Hi & Hh2 & _ & _).
  rewrite E. cbn [fst snd]. cbn [logger] in *.
  rewrite lookup_attached in Ht. split_and!; try done.
  - apply new_events_app. rewrite Ht. simpl. by rewrite <- app_assoc.
  - intros tr e. rewrite Hi. apply Hfs.
Qed.

(** X14, a witness: the name with two parent directories of the tests. *)
Lemma X14_construct_then_close_witness :
  let a := mkArgs (FnStr "parent2/parent1/test_log") "a" (LevelInt INFO)
             (LevelInt DEBUG) None true false 0 0 in
  let p := mkPath "" "" ["parent2"; "parent1"; "test_log_20240102.log"] in
  let w1 := snd (__init__ posix a_date a quiet_world) in
  let w2 := snd (close (mkTidyLogger "TidyLogger") w1) in
  fst (__init__ posix a_date a quiet_world) = Py.Return (mkTidyLogger "TidyLogger")
  ∧ fst (close (mkTidyLogger "TidyLogger") w1) = Py.Return tt
  ∧ new_events quiet_world w2
    = [Mkdir (mkPath "" "" ["parent2"; "parent1"]); Open p "a";
       Flush 0; Close 0; Flush 1; Close 1]
  ∧ handlers (lookup_logger w2 "TidyLogger") = []
  ∧ next_id w2 = 2%nat
  ∧ fs_ok w2.
Proof.
  intros a p w1 w2.
  apply (X14_construct_then_close posix a_date a quiet_world (LevelInt DEBUG) 10 20 p);
    try (vm_compute; reflexivity).
  intros tr []; exact I || reflexivity.
Defined.

(** X15.  A keyword that neither the methods nor [Logger._log] know makes
    a logging method raise [TypeError] exactly when the logger is enabled
    for the level of the method; when it is not, the call returns and
    nothing happens.  In both cases the process state is as it was. *)
Theorem X15_unknown_keyword (self : TidyLogger) (message : string)
    (args : list Py.value) (k : string) (v : Py.value) (w : World) :
  Py.has_name k ["self"; "message"; "msg"; "level"; "args";
                 "exc_info"; "extra"; "stack_info"; "stacklevel"] = false →
  Forall (λ ml : (TidyLogger → string → list Py.value → Py.keywords → M unit) * Z,
            ml.1 self message args [(k, v)] w
            = if isEnabledFor w (logger self) ml.2
              then (Py.Raise
                      (Py.TypeError
                         ("Logger._log() got an unexpected keyword argument '"
                          +:+ k +:+ "'")), w)
              else (Py.Return tt, w))
    logging_methods.
Proof.
  intros Hk. apply Forall_forall. intros [m lvl] Hin. cbn [fst snd].
  destruct (logging_methods_shape _ _ Hin) as (nm & _ & ->). cbn beta.
  rewrite method_eq. unfold keyword_error, log_checks.
  cbn [Py.has_name existsb] in Hk.
  repeat (apply orb_false_iff in Hk as [? Hk]).
  cbn [bind_keywords Py.has_name existsb].
  repeat match goal with H : String.eqb k _ = false |- _ => rewrite H; clear H end.
  simpl. by destruct (isEnabledFor w (logger self) lvl).
Qed.

(** X15, a witness: on a logger of level [INFO] the keyword [foo] passes
    unnoticed in [debug] and raises in [info]. *)
Lemma X15_unknown_keyword_witness :
  let a := mkArgs FnNone "a" (LevelInt INFO) (LevelInt INFO) None true false 0 0 in
  let w := snd (__init__ posix a_date a quiet_world) in
  let self := mkTidyLogger "TidyLogger" in
  debug self "m" [] [("foo", Py.VInt 1)] w = (Py.Return tt, w)
  ∧ info self "m" [] [("foo", Py.VInt 1)] w
    = (Py.Raise (Py.TypeError "Logger._log() got an unexpected keyword argument 'foo'"),
       w).
Proof.
  intros a w self.
  pose proof (X15_unknown_keyword self "m" [] "foo" (Py.VInt 1) w eq_refl) as H.
  apply Forall_cons in H as [Hd H]. apply Forall_cons in H as [Hi _].
  cbn [fst snd] in Hd, Hi. split.
  - etransitivity; [exact Hd |]. vm_compute; reflexivity.
  - etransitivity; [exact Hi |]. vm_compute; reflexivity.
Defined.
